(** * The inventory dashboard and the admin role page, embedded in Rocq

  The development follows [MedicalSuppliesPage] (the inventory dashboard)
  and [AdminUsersPage] (role assignment).  Rows coming back from the
  store are untyped ([any]) in the source, so every field is a
  JavaScript value here and the operators [||], [??], [!] and [===] are
  written out on those values. *)

From Stdlib Require Import ZArith QArith Ascii String List Bool Lia.
From stdpp Require Import base option list strings gmap.

Import ListNotations.
Local Open Scope string_scope.
Local Open Scope list_scope.

(** ** JavaScript values *)

Module Js.

(** A number is NaN, an infinity or a finite value.  Every finite double
    is a rational, so finite values are carried as rationals; the code
    never does arithmetic on them, it only tests and compares them. *)
Inductive Number :=
| NaN
| Infinity (negative : bool)
| Finite (q : Q).

Inductive Value :=
| Undefined
| Null
| Bool (b : bool)
| Num (n : Number)
| Str (s : string).

Definition zero : Value := Num (Finite 0).
Definition int (z : Z) : Value := Num (Finite (inject_Z z)).

(** ToBoolean on numbers: 0, -0 and NaN are falsy. *)
Definition number_truthy (n : Number) : bool :=
  match n with
  | NaN => false
  | Infinity _ => true
  | Finite q => negb (Qeq_bool q 0)
  end.

(** ToBoolean. *)
Definition truthy (v : Value) : bool :=
  match v with
  | Undefined | Null => false
  | Bool b => b
  | Num n => number_truthy n
  | Str s => negb (String.eqb s "")
  end.

(** [a || b] *)
Definition or (a b : Value) : Value := if truthy a then a else b.

(** [a ?? b] *)
Definition coalesce (a b : Value) : Value :=
  match a with
  | Undefined | Null => b
  | _ => a
  end.

Definition nullish (v : Value) : bool :=
  match v with
  | Undefined | Null => true
  | _ => false
  end.

Definition number_eq (a b : Number) : bool :=
  match a, b with
  | Finite p, Finite q => Qeq_bool p q
  | Infinity s, Infinity t => Bool.eqb s t
  | _, _ => false
  end.

(** [a === b] *)
Definition strict_eq (a b : Value) : bool :=
  match a, b with
  | Undefined, Undefined => true
  | Null, Null => true
  | Bool x, Bool y => Bool.eqb x y
  | Num x, Num y => number_eq x y
  | Str x, Str y => String.eqb x y
  | _, _ => false
  end.

(** [xs.includes("...")] for a string literal: SameValueZero against a
    string only ever equals a string with the same characters. *)
Definition includes_string (xs : list Value) (s : string) : bool :=
  existsb (fun v => strict_eq v (Str s)) xs.

End Js.

(** ** Strings

  Strings are sequences of code units in the Latin-1 range, one [ascii]
  per code unit. *)

Module JsString.

Definition code (c : ascii) : N := N_of_ascii c.

(** [toLowerCase] on one code unit: A-Z, and the accented capitals
    U+00C0-U+00DE other than the multiplication sign U+00D7. *)
Definition lower_char (c : ascii) : ascii :=
  let n := code c in
  if ((65 <=? n) && (n <=? 90))%N
     || ((192 <=? n) && (n <=? 222) && negb (n =? 215))%N
  then ascii_of_N (n + 32)
  else c.

Fixpoint toLowerCase (s : string) : string :=
  match s with
  | EmptyString => EmptyString
  | String c r => String (lower_char c) (toLowerCase r)
  end.

(** White space and line terminators that [trim] strips. *)
Definition is_space (c : ascii) : bool :=
  let n := code c in
  ((9 <=? n) && (n <=? 13))%N || (n =? 32)%N || (n =? 160)%N.

Fixpoint trimStart (s : string) : string :=
  match s with
  | EmptyString => EmptyString
  | String c r => if is_space c then trimStart r else s
  end.

Fixpoint rev_onto (s acc : string) : string :=
  match s with
  | EmptyString => acc
  | String c r => rev_onto r (String c acc)
  end.

Definition reverse (s : string) : string := rev_onto s EmptyString.

Definition trim (s : string) : string :=
  reverse (trimStart (reverse (trimStart s))).

Fixpoint startsWith (s p : string) {struct p} : bool :=
  match p, s with
  | EmptyString, _ => true
  | String _ _, EmptyString => false
  | String b q, String a r => Ascii.eqb a b && startsWith r q
  end.

(** [s.includes(t)] *)
Fixpoint includes (s t : string) : bool :=
  startsWith s t ||
  match s with
  | EmptyString => false
  | String _ r => includes r t
  end.

(** [name.split('.').pop()]: what follows the last dot, the whole name
    when there is none. *)
Fixpoint last_segment (s acc : string) : string :=
  match s with
  | EmptyString => reverse acc
  | String c r =>
      if Ascii.eqb c "."%char then last_segment r EmptyString
      else last_segment r (String c acc)
  end.

Definition extension (name : string) : string := last_segment name EmptyString.

(** Every code unit of the string is white space. *)
Fixpoint all_space (s : string) : bool :=
  match s with
  | EmptyString => true
  | String c r => is_space c && all_space r
  end.

End JsString.

Import Js.

(** ** Data model *)

(** A row of the [medical_supplies] table as the store returns it, and the
    payload sent to it ([databaseData], which carries no [id]).  A column
    that is absent reads as [Undefined]. *)
Module Row.

Record t := mk {
  id : Value;
  name : Value;
  description : Value;
  lot_number : Value;
  expires_on : Value;
  quantity : Value;
  image_url : Value;
  is_expired : Value;
  type_of_supply : Value;
  pallet_location : Value;
  company : Value;
  cardboard_boxes_per_pallet : Value;
  unit_boxes_per_cardboard : Value;
  units_per_box : Value;
  weight_per_cardboard_box : Value;
  dimensions_cardboard_box : Value;
  cost_per_unit_box : Value;
  cost_per_cardboard_box : Value;
  relevant_link : Value;
  other_notes : Value
}.

(** [{ ...row, image_url: v }] *)
Definition with_image_url (v : Value) (r : t) : t :=
  mk (id r) (name r) (description r) (lot_number r) (expires_on r)
     (quantity r) v (is_expired r) (type_of_supply r) (pallet_location r)
     (company r) (cardboard_boxes_per_pallet r) (unit_boxes_per_cardboard r)
     (units_per_box r) (weight_per_cardboard_box r)
     (dimensions_cardboard_box r) (cost_per_unit_box r)
     (cost_per_cardboard_box r) (relevant_link r) (other_notes r).

End Row.

(** [SupplyItem], and [Partial<SupplyItem>] for the form draft, where a
    field that was never set reads as [Undefined]. *)
Module SupplyItem.

Record t := mk {
  id : Value;
  name : Value;
  description : Value;
  lotNumber : Value;
  expiresOn : Value;
  quantity : Value;
  imageUrl : Value;
  isExpired : Value;
  typeOfSupply : Value;
  palletLocation : Value;
  company : Value;
  cardboardBoxesPerPallet : Value;
  unitBoxesPerCardboard : Value;
  unitsPerBox : Value;
  weightPerCardboardBox : Value;
  dimensionsCardboardBox : Value;
  costPerUnitBox : Value;
  costPerCardboardBox : Value;
  relevantLink : Value;
  otherNotes : Value
}.

(** The draft [{}]. *)
Definition empty : t :=
  mk Undefined Undefined Undefined Undefined Undefined Undefined Undefined
     Undefined Undefined Undefined Undefined Undefined Undefined Undefined
     Undefined Undefined Undefined Undefined Undefined Undefined.

(** The fields other than [id], in declaration order. *)
Definition fields : list (t -> Value) :=
  [ name; description; lotNumber; expiresOn; quantity; imageUrl; isExpired;
    typeOfSupply; palletLocation; company; cardboardBoxesPerPallet;
    unitBoxesPerCardboard; unitsPerBox; weightPerCardboardBox;
    dimensionsCardboardBox; costPerUnitBox; costPerCardboardBox;
    relevantLink; otherNotes ].

(** What the [SupplyItem] interface declares for the fields the list
    filter calls string methods on. *)
Definition has_string_keys (i : t) : Prop :=
  (exists n, name i = Str n) /\ (exists c, typeOfSupply i = Str c).

End SupplyItem.

Definition placeholder : Value := Str "/logo.png".
Definition empty_string : Value := Str "".

(** ** View-model transform *)

(** The callback of [data.map] in [fetchItems]. *)
Definition toViewModel (item : Row.t) : SupplyItem.t :=
  {| SupplyItem.id := Row.id item;
     SupplyItem.name := Row.name item;
     SupplyItem.description := Js.or (Row.description item) empty_string;
     SupplyItem.lotNumber := Js.or (Row.lot_number item) empty_string;
     SupplyItem.expiresOn := Js.or (Row.expires_on item) (Str "2025-12-31");
     SupplyItem.quantity := Js.or (Row.quantity item) Js.zero;
     SupplyItem.imageUrl := Js.or (Row.image_url item) placeholder;
     SupplyItem.isExpired := Js.or (Row.is_expired item) (Bool false);
     SupplyItem.typeOfSupply := Js.or (Row.type_of_supply item) empty_string;
     SupplyItem.palletLocation := Js.or (Row.pallet_location item) empty_string;
     SupplyItem.company := Js.or (Row.company item) empty_string;
     SupplyItem.cardboardBoxesPerPallet :=
       Js.or (Row.cardboard_boxes_per_pallet item) Js.zero;
     SupplyItem.unitBoxesPerCardboard :=
       Js.or (Row.unit_boxes_per_cardboard item) Js.zero;
     SupplyItem.unitsPerBox := Js.or (Row.units_per_box item) Js.zero;
     SupplyItem.weightPerCardboardBox :=
       Js.or (Row.weight_per_cardboard_box item) Js.zero;
     SupplyItem.dimensionsCardboardBox :=
       Js.or (Row.dimensions_cardboard_box item) empty_string;
     SupplyItem.costPerUnitBox := Js.or (Row.cost_per_unit_box item) Js.zero;
     SupplyItem.costPerCardboardBox :=
       Js.or (Row.cost_per_cardboard_box item) Js.zero;
     SupplyItem.relevantLink := Js.or (Row.relevant_link item) empty_string;
     SupplyItem.otherNotes := Js.or (Row.other_notes item) empty_string |}.

(** The row-to-item conversion [handleSaveItem] applies to the row an
    update or an insert returns: as [toViewModel], except that a missing
    expiry date reads as the empty string and the image reference is
    supplied by the caller. *)
Definition itemOfSavedRow (row : Row.t) (image : Value) : SupplyItem.t :=
  {| SupplyItem.id := Row.id row;
     SupplyItem.name := Row.name row;
     SupplyItem.description := Js.or (Row.description row) empty_string;
     SupplyItem.lotNumber := Js.or (Row.lot_number row) empty_string;
     SupplyItem.expiresOn := Js.or (Row.expires_on row) empty_string;
     SupplyItem.quantity := Js.or (Row.quantity row) Js.zero;
     SupplyItem.imageUrl := image;
     SupplyItem.isExpired := Js.or (Row.is_expired row) (Bool false);
     SupplyItem.typeOfSupply := Js.or (Row.type_of_supply row) empty_string;
     SupplyItem.palletLocation := Js.or (Row.pallet_location row) empty_string;
     SupplyItem.company := Js.or (Row.company row) empty_string;
     SupplyItem.cardboardBoxesPerPallet :=
       Js.or (Row.cardboard_boxes_per_pallet row) Js.zero;
     SupplyItem.unitBoxesPerCardboard :=
       Js.or (Row.unit_boxes_per_cardboard row) Js.zero;
     SupplyItem.unitsPerBox := Js.or (Row.units_per_box row) Js.zero;
     SupplyItem.weightPerCardboardBox :=
       Js.or (Row.weight_per_cardboard_box row) Js.zero;
     SupplyItem.dimensionsCardboardBox :=
       Js.or (Row.dimensions_cardboard_box row) empty_string;
     SupplyItem.costPerUnitBox := Js.or (Row.cost_per_unit_box row) Js.zero;
     SupplyItem.costPerCardboardBox :=
       Js.or (Row.cost_per_cardboard_box row) Js.zero;
     SupplyItem.relevantLink := Js.or (Row.relevant_link row) empty_string;
     SupplyItem.otherNotes := Js.or (Row.other_notes row) empty_string |}.

(** ** List filter *)

(** A string method called on a value: a [TypeError] ([None]) unless the
    value is a string. *)
Definition lowered (v : Value) : option string :=
  match v with
  | Str s => Some (JsString.toLowerCase s)
  | _ => None
  end.

(** The callback of [items.filter] in the filter effect; [None] is a
    [TypeError] thrown while evaluating it. *)
Definition matchesText (searchQuery : string) (item : SupplyItem.t) : option bool :=
  if negb (negb (String.eqb (JsString.trim searchQuery) ""))
  then Some true
  else
    match lowered (SupplyItem.name item) with
    | None => None
    | Some n =>
        if JsString.includes n (JsString.toLowerCase searchQuery)
        then Some true
        else
          match lowered (SupplyItem.typeOfSupply item) with
          | None => None
          | Some c =>
              Some (JsString.includes c (JsString.toLowerCase searchQuery))
          end
    end.

Definition matchesExpiry (expiredFilter : string) (item : SupplyItem.t) : bool :=
  String.eqb expiredFilter "all"
  || (String.eqb expiredFilter "expired" && truthy (SupplyItem.isExpired item))
  || (String.eqb expiredFilter "not-expired"
      && negb (truthy (SupplyItem.isExpired item))).

Definition matchesType (typeFilter : string) (item : SupplyItem.t) : bool :=
  String.eqb typeFilter "all"
  || strict_eq (SupplyItem.typeOfSupply item) (Str typeFilter).

Definition keeps (searchQuery expiredFilter typeFilter : string)
    (item : SupplyItem.t) : option bool :=
  match matchesText searchQuery item with
  | None => None
  | Some t =>
      Some (t && matchesExpiry expiredFilter item && matchesType typeFilter item)
  end.

(** [items.filter(callback)]: the elements the callback keeps, in order;
    a throwing callback aborts the whole call. *)
Fixpoint filterItems (items : list SupplyItem.t)
    (searchQuery expiredFilter typeFilter : string) : option (list SupplyItem.t) :=
  match items with
  | [] => Some []
  | item :: rest =>
      match keeps searchQuery expiredFilter typeFilter item with
      | None => None
      | Some keep =>
          match filterItems rest searchQuery expiredFilter typeFilter with
          | None => None
          | Some kept => Some (if keep then item :: kept else kept)
          end
      end
  end.

(** ** Handlers as actions

    An event handler runs against the component state and leaves a trace
    of what it asked of the outside world (remote calls and notices).  It
    either returns or throws; [try]/[catch]/[finally] are written out. *)

Module Action.

Section Defs.
Context {S E : Type}.

Record World := mkWorld { state : S; trace : list E }.

Inductive Outcome (A : Type) :=
| Returned (a : A) (w : World)
| Thrown (w : World).
#[global] Arguments Returned {A} a w.
#[global] Arguments Thrown {A} w.

Definition t (A : Type) : Type := World -> Outcome A.

Definition ret {A} (a : A) : t A := fun w => Returned a w.

Definition bind {A B} (m : t A) (k : A -> t B) : t B :=
  fun w =>
    match m w with
    | Returned a w' => k a w'
    | Thrown w' => Thrown w'
    end.

Definition throw {A} : t A := fun w => Thrown w.

(** A state setter, [setX(f)]. *)
Definition modify (f : S -> S) : t unit :=
  fun w => Returned tt (mkWorld (f (state w)) (trace w)).

Definition emit (e : E) : t unit :=
  fun w => Returned tt (mkWorld (state w) (trace w ++ [e])).

(** [try { body } catch { handler }] *)
Definition try_catch {A} (body handler : t A) : t A :=
  fun w =>
    match body w with
    | Returned a w' => Returned a w'
    | Thrown w' => handler w'
    end.

(** [try { body } finally { cleanup }] *)
Definition try_finally {A} (body : t A) (cleanup : t unit) : t A :=
  fun w =>
    match body w with
    | Returned a w' =>
        match cleanup w' with
        | Returned _ w'' => Returned a w''
        | Thrown w'' => Thrown w''
        end
    | Thrown w' =>
        match cleanup w' with
        | Returned _ w'' => Thrown w''
        | Thrown w'' => Thrown w''
        end
    end.

Definition world_of {A} (o : Outcome A) : World :=
  match o with
  | Returned _ w => w
  | Thrown w => w
  end.

Definition returned {A} (o : Outcome A) : bool :=
  match o with
  | Returned _ _ => true
  | Thrown _ => false
  end.

(** Running a handler from a state, with an empty trace. *)
Definition run {A} (m : t A) (s : S) : Outcome A := m (mkWorld s []).

End Defs.

#[global] Arguments World : clear implicits.
#[global] Arguments Outcome : clear implicits.
#[global] Arguments t : clear implicits.

End Action.

Declare Scope action_scope.
Delimit Scope action_scope with action.
Notation "x <- m ;; k" := (Action.bind m (fun x => k))
  (at level 20, m at level 99, k at level 200, only parsing) : action_scope.
Notation "m ;; k" := (Action.bind m (fun _ => k))
  (at level 100, k at level 200, right associativity, only parsing) : action_scope.

(** What an awaited remote call settles to: the promise rejects, or it
    resolves to [{ data, error }]. *)
Inductive Reply (D : Type) :=
| Rejected
| Resolved (data : D) (error : option string).
Arguments Rejected {D}.
Arguments Resolved {D} data error.

Definition await {S E D} (r : Reply D) : Action.t S E (D * option string) :=
  match r with
  | Rejected => Action.throw
  | Resolved d e => Action.ret (d, e)
  end.

(** ** The inventory dashboard *)

Record File := mkFile { file_name : string; file_type : string; file_size : N }.

(** The object name [uploadImageToStorage] builds, kept in the shape of
    its template: [`${itemId}-${Date.now()}.${fileExt}`] or
    [`temp-${Date.now()}-${random}.${fileExt}`]. *)
Inductive FileName :=
| ItemKeyed (itemId : Value) (stamp : Z) (fileExt : string)
| Temporary (stamp : Z) (random : string) (fileExt : string).

(** [`medical-supplies/${fileName}`] *)
Record FilePath := mkPath { folder : string; fileName : FileName }.

(** The hosted backend, as the page sees it. *)
Record Remote := mkRemote {
  (** [from('medical_supplies').select('*')] *)
  select_all : Reply (option (list Row.t));
  (** [.update(payload).eq('id', id).select()] *)
  update_select : Row.t -> Value -> Reply (option (list Row.t));
  (** [.insert([payload]).select()] *)
  insert_select : Row.t -> Reply (option (list Row.t));
  (** [.update({ image_url }).eq('id', id)] *)
  update_image_url : Value -> Value -> Reply unit;
  (** [storage.from(bucket).upload(path, file, options)] *)
  storage_upload : FilePath -> File -> Reply unit;
  (** [storage.from(bucket).getPublicUrl(path).data.publicUrl] *)
  getPublicUrl : FilePath -> string;
  (** [Date.now()] *)
  Date_now : Z;
  (** [Math.random().toString(36).substring(7)] *)
  Math_random_suffix : string;
  (** [from('user_roles').select('role_id').eq('user_id', id)] *)
  select_user_roles : Value -> Reply (option (list Value));
  (** [from('roles').select('id, role_name').in('id', ids)] *)
  select_role_names : list Value -> Reply (option (list Value))
}.

Inductive Event :=
| DbSelectAll
| DbUpdate (payload : Row.t) (id : Value)
| DbInsert (payload : Row.t)
| DbUpdateImageUrl (image_url : Value) (id : Value)
| StorageUpload (path : FilePath) (file : File)
| DbSelectUserRoles (user_id : Value)
| DbSelectRoleNames (ids : list Value)
| ToastError (message : string)
| ToastSuccess (message : string).

(** The calls that write to the relational store. *)
Definition is_persistence (e : Event) : bool :=
  match e with
  | DbUpdate _ _ | DbInsert _ | DbUpdateImageUrl _ _ => true
  | _ => false
  end.

Definition is_notice (e : Event) : bool :=
  match e with
  | ToastError _ | ToastSuccess _ => true
  | _ => false
  end.

Definition is_error_notice (e : Event) : bool :=
  match e with
  | ToastError _ => true
  | _ => false
  end.

Module Page.

(** The part of the component state the handlers read and write. *)
Record t := mk {
  items : list SupplyItem.t;
  loading : bool;
  isEditModalOpen : bool;
  isNewItemModalOpen : bool;
  editingItem : option SupplyItem.t;
  formData : SupplyItem.t;
  userRoles : list Value;
  imageFile : option File;
  imagePreview : option string;
  uploadingImage : bool
}.

Definition setItems (f : list SupplyItem.t -> list SupplyItem.t) (s : t) : t :=
  mk (f (items s)) (loading s) (isEditModalOpen s) (isNewItemModalOpen s)
     (editingItem s) (formData s) (userRoles s) (imageFile s)
     (imagePreview s) (uploadingImage s).

Definition setLoading (b : bool) (s : t) : t :=
  mk (items s) b (isEditModalOpen s) (isNewItemModalOpen s)
     (editingItem s) (formData s) (userRoles s) (imageFile s)
     (imagePreview s) (uploadingImage s).

Definition setIsEditModalOpen (b : bool) (s : t) : t :=
  mk (items s) (loading s) b (isNewItemModalOpen s)
     (editingItem s) (formData s) (userRoles s) (imageFile s)
     (imagePreview s) (uploadingImage s).

Definition setIsNewItemModalOpen (b : bool) (s : t) : t :=
  mk (items s) (loading s) (isEditModalOpen s) b
     (editingItem s) (formData s) (userRoles s) (imageFile s)
     (imagePreview s) (uploadingImage s).

Definition setEditingItem (e : option SupplyItem.t) (s : t) : t :=
  mk (items s) (loading s) (isEditModalOpen s) (isNewItemModalOpen s)
     e (formData s) (userRoles s) (imageFile s)
     (imagePreview s) (uploadingImage s).

Definition setFormData (d : SupplyItem.t) (s : t) : t :=
  mk (items s) (loading s) (isEditModalOpen s) (isNewItemModalOpen s)
     (editingItem s) d (userRoles s) (imageFile s)
     (imagePreview s) (uploadingImage s).

Definition setUserRoles (r : list Value) (s : t) : t :=
  mk (items s) (loading s) (isEditModalOpen s) (isNewItemModalOpen s)
     (editingItem s) (formData s) r (imageFile s)
     (imagePreview s) (uploadingImage s).

Definition setImageFile (f : option File) (s : t) : t :=
  mk (items s) (loading s) (isEditModalOpen s) (isNewItemModalOpen s)
     (editingItem s) (formData s) (userRoles s) f
     (imagePreview s) (uploadingImage s).

Definition setImagePreview (p : option string) (s : t) : t :=
  mk (items s) (loading s) (isEditModalOpen s) (isNewItemModalOpen s)
     (editingItem s) (formData s) (userRoles s) (imageFile s)
     p (uploadingImage s).

Definition setUploadingImage (b : bool) (s : t) : t :=
  mk (items s) (loading s) (isEditModalOpen s) (isNewItemModalOpen s)
     (editingItem s) (formData s) (userRoles s) (imageFile s)
     (imagePreview s) b.

End Page.

Definition Handler (A : Type) : Type := Action.t Page.t Event A.

Section Dashboard.
Local Open Scope action_scope.
Import Action.

Variable R : Remote.

Definition toast_error (message : string) : Handler unit :=
  emit (ToastError message).

Definition toast_success (message : string) : Handler unit :=
  emit (ToastSuccess message).

(** *** Role gate *)

Definition canManage (userRoles : list Value) : bool :=
  includes_string userRoles "admin" || includes_string userRoles "volunteer".

Definition isAdmin (userRoles : list Value) : bool :=
  includes_string userRoles "admin".

(** [fetchUserRoles], given [session?.user?.id].  The rows of
    [user_roles] are carried by their [role_id], the rows of [roles] by
    their [role_name]. *)
Definition fetchUserRoles (session_user_id : Value) : Handler unit :=
  try_catch
    (if negb (truthy session_user_id)
     then modify (Page.setUserRoles [])
     else
       emit (DbSelectUserRoles session_user_id);;
       userRoles <- await (select_user_roles R session_user_id);;
       match snd userRoles with
       | Some _ => modify (Page.setUserRoles [])
       | None =>
           let roleIds := List.filter truthy (default [] (fst userRoles)) in
           if (length roleIds =? 0)%nat
           then modify (Page.setUserRoles [])
           else
             emit (DbSelectRoleNames roleIds);;
             roles <- await (select_role_names R roleIds);;
             match snd roles with
             | Some _ => modify (Page.setUserRoles [])
             | None => modify (Page.setUserRoles (default [] (fst roles)))
             end
       end)
    (modify (Page.setUserRoles [])).

(** *** Loading the collection *)

(** [fetchItems] up to its first [await]. *)
Definition fetchItems_begin : Handler unit :=
  modify (Page.setLoading true);;
  emit DbSelectAll.

(** [fetchItems] from the point where the store answers. *)
Definition fetchItems_resume : Handler unit :=
  try_finally
    (try_catch
       (answer <- await (select_all R);;
        match snd answer with
        | Some message =>
            toast_error ("Failed to load medical supplies: " ++ message)
        | None =>
            match fst answer with
            | None | Some [] => modify (Page.setItems (fun _ => []))
            | Some data =>
                modify (Page.setItems (fun _ => List.map toViewModel data))
            end
        end)
       (toast_error "Failed to load medical supplies"))
    (modify (Page.setLoading false)).

Definition fetchItems : Handler unit :=
  fetchItems_begin;; fetchItems_resume.

(** *** Saving a draft *)

(** The required-field test at the top of [handleSaveItem]. *)
Definition missingRequiredFields (formData : SupplyItem.t) : bool :=
  negb (truthy (SupplyItem.name formData))
  || negb (truthy (SupplyItem.quantity formData))
  || negb (truthy (SupplyItem.typeOfSupply formData))
  || negb (truthy (SupplyItem.expiresOn formData)).

(** The object path [uploadImageToStorage] computes before it uploads. *)
Definition filePath (file : File) (itemId : Value) : FilePath :=
  let fileExt := JsString.extension (file_name file) in
  let fileName :=
    if truthy itemId
    then ItemKeyed itemId (Date_now R) fileExt
    else Temporary (Date_now R) (Math_random_suffix R) fileExt in
  mkPath "medical-supplies" fileName.

(** [null] is [None]. *)
Definition uploadImageToStorage (file : File) (itemId : Value)
    : Handler (option string) :=
  try_finally
    (try_catch
       (modify (Page.setUploadingImage true);;
        let filePath := filePath file itemId in
        emit (StorageUpload filePath file);;
        answer <- await (storage_upload R filePath file);;
        match snd answer with
        | Some _ => toast_error "Failed to upload image";; ret None
        | None => ret (Some (getPublicUrl R filePath))
        end)
       (toast_error "Failed to upload image";; ret None))
    (modify (Page.setUploadingImage false)).

(** [if (uploadedUrl)] on a [string | null]. *)
Definition url_truthy (uploadedUrl : option string) : option string :=
  match uploadedUrl with
  | Some u => if truthy (Str u) then Some u else None
  | None => None
  end.

Definition databaseData (formData : SupplyItem.t) (imageUrl : Value) : Row.t :=
  {| Row.id := Undefined;
     Row.name := SupplyItem.name formData;
     Row.description := Js.or (SupplyItem.description formData) empty_string;
     Row.lot_number := Js.or (SupplyItem.lotNumber formData) empty_string;
     Row.expires_on := SupplyItem.expiresOn formData;
     Row.quantity := Js.or (SupplyItem.quantity formData) Js.zero;
     Row.image_url := imageUrl;
     Row.is_expired := Js.or (SupplyItem.isExpired formData) (Bool false);
     Row.type_of_supply := SupplyItem.typeOfSupply formData;
     Row.pallet_location := Js.or (SupplyItem.palletLocation formData) empty_string;
     Row.company := Js.or (SupplyItem.company formData) empty_string;
     Row.cardboard_boxes_per_pallet :=
       Js.or (SupplyItem.cardboardBoxesPerPallet formData) Js.zero;
     Row.unit_boxes_per_cardboard :=
       Js.or (SupplyItem.unitBoxesPerCardboard formData) Js.zero;
     Row.units_per_box := Js.or (SupplyItem.unitsPerBox formData) Js.zero;
     Row.weight_per_cardboard_box :=
       Js.or (SupplyItem.weightPerCardboardBox formData) Js.zero;
     Row.dimensions_cardboard_box :=
       Js.or (SupplyItem.dimensionsCardboardBox formData) empty_string;
     Row.cost_per_unit_box := Js.or (SupplyItem.costPerUnitBox formData) Js.zero;
     Row.cost_per_cardboard_box :=
       Js.or (SupplyItem.costPerCardboardBox formData) Js.zero;
     Row.relevant_link := Js.or (SupplyItem.relevantLink formData) empty_string;
     Row.other_notes := Js.or (SupplyItem.otherNotes formData) empty_string |}.

(** The item built from the form when an update returns no row. *)
Definition itemOfForm (formData editingItem : SupplyItem.t) : SupplyItem.t :=
  let pick (field : SupplyItem.t -> Value) :=
    coalesce (field formData) (field editingItem) in
  {| SupplyItem.id := SupplyItem.id editingItem;
     SupplyItem.name :=
       Js.or (SupplyItem.name formData) (SupplyItem.name editingItem);
     SupplyItem.description := pick SupplyItem.description;
     SupplyItem.lotNumber := pick SupplyItem.lotNumber;
     SupplyItem.expiresOn := pick SupplyItem.expiresOn;
     SupplyItem.quantity := pick SupplyItem.quantity;
     SupplyItem.imageUrl := pick SupplyItem.imageUrl;
     SupplyItem.isExpired := pick SupplyItem.isExpired;
     SupplyItem.typeOfSupply := pick SupplyItem.typeOfSupply;
     SupplyItem.palletLocation := pick SupplyItem.palletLocation;
     SupplyItem.company := pick SupplyItem.company;
     SupplyItem.cardboardBoxesPerPallet := pick SupplyItem.cardboardBoxesPerPallet;
     SupplyItem.unitBoxesPerCardboard := pick SupplyItem.unitBoxesPerCardboard;
     SupplyItem.unitsPerBox := pick SupplyItem.unitsPerBox;
     SupplyItem.weightPerCardboardBox := pick SupplyItem.weightPerCardboardBox;
     SupplyItem.dimensionsCardboardBox := pick SupplyItem.dimensionsCardboardBox;
     SupplyItem.costPerUnitBox := pick SupplyItem.costPerUnitBox;
     SupplyItem.costPerCardboardBox := pick SupplyItem.costPerCardboardBox;
     SupplyItem.relevantLink := pick SupplyItem.relevantLink;
     SupplyItem.otherNotes := pick SupplyItem.otherNotes |}.

(** [updatedItem]: from the first returned row ([data && data[0]]), or
    from the form when there is none. *)
Definition updatedItemOf (data : option (list Row.t))
    (formData editingItem : SupplyItem.t) : SupplyItem.t :=
  match data with
  | Some (updatedRow :: _) =>
      itemOfSavedRow updatedRow (Js.or (Row.image_url updatedRow) placeholder)
  | _ => itemOfForm formData editingItem
  end.

(** [prev.map(i => i.id === updatedItem.id ? updatedItem : i)] *)
Definition replaceById (updatedItem : SupplyItem.t)
    (prev : list SupplyItem.t) : list SupplyItem.t :=
  List.map
    (fun i =>
       if strict_eq (SupplyItem.id i) (SupplyItem.id updatedItem)
       then updatedItem else i)
    prev.

(** The closing block of [handleSaveItem]. *)
Definition closeAndReset : Handler unit :=
  modify (Page.setIsEditModalOpen false);;
  modify (Page.setIsNewItemModalOpen false);;
  modify (Page.setFormData SupplyItem.empty);;
  modify (Page.setEditingItem None);;
  modify (Page.setImageFile None);;
  modify (Page.setImagePreview None).

(** [handleSaveItem], as rendered with the state [c]: the handler reads
    [formData], [imageFile] and [editingItem] from that render. *)
Definition handleSaveItem (c : Page.t) : Handler unit :=
  let formData := Page.formData c in
  let imageFile := Page.imageFile c in
  let editingItem := Page.editingItem c in
  try_catch
    (if missingRequiredFields formData
     then toast_error "Please fill in all required fields"
     else
       imageUrl <-
         match imageFile, editingItem with
         | Some file, Some editing =>
             uploadedUrl <- uploadImageToStorage file (SupplyItem.id editing);;
             match url_truthy uploadedUrl with
             | Some url => ret (Str url)
             | None => ret (SupplyItem.imageUrl editing)
             end
         | _, _ => ret (Js.or (SupplyItem.imageUrl formData) placeholder)
         end;;
       let databaseData := databaseData formData imageUrl in
       match editingItem with
       | Some editing =>
           emit (DbUpdate databaseData (SupplyItem.id editing));;
           answer <- await (update_select R databaseData (SupplyItem.id editing));;
           match snd answer with
           | Some _ => toast_error "Failed to update item"
           | None =>
               let updatedItem := updatedItemOf (fst answer) formData editing in
               modify (Page.setItems (replaceById updatedItem));;
               toast_success "Item updated successfully!";;
               closeAndReset
           end
       | None =>
           let tempImageUrl :=
             match imageFile with
             | Some _ => placeholder
             | None => imageUrl
             end in
           let createData := Row.with_image_url tempImageUrl databaseData in
           emit (DbInsert createData);;
           answer <- await (insert_select R createData);;
           match snd answer with
           | Some _ => toast_error "Failed to create item"
           | None =>
               match fst answer with
               | None | Some [] => fetchItems_begin
               | Some (newRow :: _) =>
                   finalImageUrl <-
                     match imageFile with
                     | Some file =>
                         uploadedUrl <- uploadImageToStorage file (Row.id newRow);;
                         match url_truthy uploadedUrl with
                         | Some url =>
                             emit (DbUpdateImageUrl (Str url) (Row.id newRow));;
                             _ <- await (update_image_url R (Str url) (Row.id newRow));;
                             ret (Str url)
                         | None => ret (Js.or (Row.image_url newRow) placeholder)
                         end
                     | None => ret (Js.or (Row.image_url newRow) placeholder)
                     end;;
                   let newItem := itemOfSavedRow newRow finalImageUrl in
                   modify (Page.setItems (fun prev => newItem :: prev))
               end;;
               toast_success "Item created successfully!";;
               closeAndReset
           end
       end)
    (toast_error "Failed to save item").

(** One click on the save button, from the state [c]. *)
Definition submit (c : Page.t) : Outcome Page.t Event unit :=
  run (handleSaveItem c) c.

End Dashboard.

(** ** The admin role page *)

Module Admin.

Record AdminUserRow := mkRow {
  user_id : string;
  email : string;
  roles : list string
}.

Inductive Event :=
| RpcSetSingleRole (target_user_id target_role_name : string)
| ToastError (message : string)
| ToastSuccess (message : string).

Record State := mkState {
  users : list AdminUserRow;
  pendingRole : gmap string string;
  saving : gmap string bool
}.

Definition setUsers (f : list AdminUserRow -> list AdminUserRow) (s : State) : State :=
  mkState (f (users s)) (pendingRole s) (saving s).

Definition setPendingRole (f : gmap string string -> gmap string string)
    (s : State) : State :=
  mkState (users s) (f (pendingRole s)) (saving s).

Definition setSaving (f : gmap string bool -> gmap string bool) (s : State) : State :=
  mkState (users s) (pendingRole s) (f (saving s)).

Definition includes (xs : list string) (x : string) : bool :=
  existsb (String.eqb x) xs.

Definition currentRoleOf (row : AdminUserRow) : string :=
  if includes (roles row) "admin" then "admin"
  else if includes (roles row) "volunteer" then "volunteer"
  else if includes (roles row) "visitor" then "visitor"
  else "".

Section Handlers.
Local Open Scope action_scope.
Import Action.

(** [supabase.rpc("admin_set_single_role", { target_user_id, target_role_name })] *)
Variable admin_set_single_role : string -> string -> Reply unit.

Definition handleSelectRole (userId roleName : string)
    : Action.t State Event unit :=
  modify (setPendingRole (fun prev => <[userId := roleName]> prev)).

(** [{ ...u, roles: [roleName] }] for the row of [userId], the other rows
    as they are. *)
Definition assignRole (userId roleName : string)
    (prev : list AdminUserRow) : list AdminUserRow :=
  List.map
    (fun u =>
       if String.eqb (user_id u) userId
       then mkRow (user_id u) (email u) [roleName]
       else u)
    prev.

(** [handleSaveRole], as rendered with the state [c]. *)
Definition handleSaveRole (c : State) (userId : string)
    : Action.t State Event unit :=
  match pendingRole c !! userId with
  | Some roleName =>
      if negb (truthy (Str roleName))
      then emit (ToastError "Please select a role first")
      else
        try_finally
          (try_catch
             (modify (setSaving (fun prev => <[userId := true]> prev));;
              emit (RpcSetSingleRole userId roleName);;
              answer <- await (admin_set_single_role userId roleName);;
              match snd answer with
              | Some _ => throw
              | None =>
                  emit (ToastSuccess "Role updated");;
                  modify (setUsers (assignRole userId roleName))
              end)
             (emit (ToastError "Failed to update role")))
          (modify (setSaving (fun prev => <[userId := false]> prev)))
  | None => emit (ToastError "Please select a role first")
  end.

Definition saveRole (c : State) (userId : string) : Outcome State Event unit :=
  run (handleSaveRole c userId) c.

End Handlers.

End Admin.

(** ** Vocabulary of the properties *)

Module Spec.

(** [t] occurs in [s]. *)
Definition substring (s t : string) : Prop :=
  exists before after, s = (before ++ t ++ after)%string.

Definition blank (q : string) : Prop := JsString.all_space q = true.

(** The query matches the name or the category, ignoring case. *)
Definition matches_query (q : string) (i : SupplyItem.t) : Prop :=
  blank q
  \/ (exists n, SupplyItem.name i = Str n
        /\ substring (JsString.toLowerCase n) (JsString.toLowerCase q))
  \/ (exists c, SupplyItem.typeOfSupply i = Str c
        /\ substring (JsString.toLowerCase c) (JsString.toLowerCase q)).

Definition matches_expiry (e : string) (i : SupplyItem.t) : Prop :=
  e = "all"
  \/ (e = "expired" /\ truthy (SupplyItem.isExpired i) = true)
  \/ (e = "not-expired" /\ truthy (SupplyItem.isExpired i) = false).

Definition matches_category (c : string) (i : SupplyItem.t) : Prop :=
  c = "all" \/ SupplyItem.typeOfSupply i = Str c.

(** A required field counts as missing when it is absent, empty or
    zero-equivalent. *)
Definition missing (v : Value) : Prop :=
  match v with
  | Undefined | Null => True
  | Str s => s = ""
  | Num NaN => True
  | Num (Finite q) => (q == 0)%Q
  | Num (Infinity _) => False
  | Bool b => b = false
  end.

(** The optional columns of a row: all but [id] and [name]. *)
Definition optional_columns : list (Row.t -> Value) :=
  [ Row.description; Row.lot_number; Row.expires_on; Row.quantity;
    Row.image_url; Row.is_expired; Row.type_of_supply; Row.pallet_location;
    Row.company; Row.cardboard_boxes_per_pallet; Row.unit_boxes_per_cardboard;
    Row.units_per_box; Row.weight_per_cardboard_box;
    Row.dimensions_cardboard_box; Row.cost_per_unit_box;
    Row.cost_per_cardboard_box; Row.relevant_link; Row.other_notes ].

Definition optionals_absent (row : Row.t) : Prop :=
  Forall (fun column => nullish (column row) = true) optional_columns.

(** The item whose fields other than [id] and [name] all hold the
    documented default. *)
Definition defaulted (id name : Value) : SupplyItem.t :=
  {| SupplyItem.id := id;
     SupplyItem.name := name;
     SupplyItem.description := Str "";
     SupplyItem.lotNumber := Str "";
     SupplyItem.expiresOn := Str "2025-12-31";
     SupplyItem.quantity := Js.int 0;
     SupplyItem.imageUrl := Str "/logo.png";
     SupplyItem.isExpired := Bool false;
     SupplyItem.typeOfSupply := Str "";
     SupplyItem.palletLocation := Str "";
     SupplyItem.company := Str "";
     SupplyItem.cardboardBoxesPerPallet := Js.int 0;
     SupplyItem.unitBoxesPerCardboard := Js.int 0;
     SupplyItem.unitsPerBox := Js.int 0;
     SupplyItem.weightPerCardboardBox := Js.int 0;
     SupplyItem.dimensionsCardboardBox := Str "";
     SupplyItem.costPerUnitBox := Js.int 0;
     SupplyItem.costPerCardboardBox := Js.int 0;
     SupplyItem.relevantLink := Str "";
     SupplyItem.otherNotes := Str "" |}.

(** The claim on the read defaults, at one row: as [defaulted], with the
    name defaulted to the empty string as well. *)
Definition reads_as_defaults (row : Row.t) : Prop :=
  toViewModel row = defaulted (Row.id row) (Str "").

(** The ways the role fetch can come back without roles. *)
Inductive FetchFailure (R : Remote) (session_user_id : Value) : Prop :=
| NoIdentity :
    truthy session_user_id = false ->
    FetchFailure R session_user_id
| UserRolesRejected :
    select_user_roles R session_user_id = Rejected ->
    FetchFailure R session_user_id
| UserRolesError data message :
    select_user_roles R session_user_id = Resolved data (Some message) ->
    FetchFailure R session_user_id
| NoRoleRows data :
    select_user_roles R session_user_id = Resolved data None ->
    List.filter truthy (default [] data) = [] ->
    FetchFailure R session_user_id
| RoleNamesRejected data :
    select_user_roles R session_user_id = Resolved data None ->
    select_role_names R (List.filter truthy (default [] data)) = Rejected ->
    FetchFailure R session_user_id
| RoleNamesError data names message :
    select_user_roles R session_user_id = Resolved data None ->
    select_role_names R (List.filter truthy (default [] data))
      = Resolved names (Some message) ->
    FetchFailure R session_user_id.

(** An upload that fails: the promise rejects or resolves to an error. *)
Definition upload_fails (R : Remote) (file : File) (itemId : Value) : Prop :=
  storage_upload R (filePath R file itemId) file = Rejected
  \/ exists message,
       storage_upload R (filePath R file itemId) file
         = Resolved tt (Some message).

(** An upload that succeeds and yields a usable address. *)
Definition upload_succeeds (R : Remote) (file : File) (itemId : Value)
    (url : string) : Prop :=
  storage_upload R (filePath R file itemId) file = Resolved tt None
  /\ getPublicUrl R (filePath R file itemId) = url
  /\ url <> "".

(** The writes to the relational store a handler made, in order. *)
Definition persistence_calls (o : Action.Outcome Page.t Event unit) : list Event :=
  List.filter is_persistence (Action.trace (Action.world_of o)).

Definition notices (o : Action.Outcome Page.t Event unit) : list Event :=
  List.filter is_notice (Action.trace (Action.world_of o)).

Definition final (o : Action.Outcome Page.t Event unit) : Page.t :=
  Action.state (Action.world_of o).

(** The handler reported success to the user. *)
Definition succeeded (o : Action.Outcome Page.t Event unit) : Prop :=
  exists message, In (ToastSuccess message) (Action.trace (Action.world_of o)).

(** A failure was reported to the user. *)
Definition failure_surfaced (o : Action.Outcome Page.t Event unit) : Prop :=
  exists message, In (ToastError message) (Action.trace (Action.world_of o)).

(** The claim on the create-with-image flow, at one submit: insert with
    the placeholder, upload under the new identity, patch; the record
    shown carries the uploaded address. *)
Definition create_then_patch (R : Remote) (c : Page.t) : Prop :=
  exists payload newId file url item,
    Page.imageFile c = Some file
    /\ Row.image_url payload = placeholder
    /\ Action.trace (Action.world_of (submit R c))
       = [ DbInsert payload;
           StorageUpload (filePath R file newId) file;
           DbUpdateImageUrl (Str url) newId;
           ToastSuccess "Item created successfully!" ]
    /\ persistence_calls (submit R c)
       = [ DbInsert payload; DbUpdateImageUrl (Str url) newId ]
    /\ getPublicUrl R (filePath R file newId) = url
    /\ SupplyItem.id item = newId
    /\ SupplyItem.imageUrl item = Str url
    /\ Page.items (final (submit R c)) = item :: Page.items c.

(** The claim on the local collection after a successful submit. *)
Definition patched_in_place (R : Remote) (c : Page.t) : Prop :=
  match Page.editingItem c with
  | Some _ =>
      exists updatedItem,
        Page.items (final (submit R c)) = replaceById updatedItem (Page.items c)
  | None =>
      exists newItem,
        Page.items (final (submit R c)) = newItem :: Page.items c
  end.

(** The claim on a failed persistence call. *)
Definition failure_contained (R : Remote) (c : Page.t) : Prop :=
  Page.items (final (submit R c)) = Page.items c
  /\ failure_surfaced (submit R c)
  /\ Page.isEditModalOpen (final (submit R c)) = Page.isEditModalOpen c
  /\ Page.isNewItemModalOpen (final (submit R c)) = Page.isNewItemModalOpen c
  /\ Action.returned (submit R c) = true.

End Spec.

(** ** Sample inputs *)

Module Sample.

(** A row that carries an identity and nothing else. *)
Definition bare_row : Row.t :=
  Row.mk (Str "7f3a") Null Null Null Null Null Null Null Null Null Null
         Null Null Null Null Null Null Null Null Null.

Definition gauze : SupplyItem.t :=
  SupplyItem.mk (Str "7f3a") (Str "Gauze pads") (Str "Sterile") (Str "L-19")
    (Str "2026-04-30") (Js.int 40) (Str "https://cdn.example/gauze-old.png")
    (Bool false) (Str "Wound Care") (Str "A3") (Str "Medline")
    (Js.int 12) (Js.int 6) (Js.int 50) (Num (Finite (3 # 2))) (Str "30x20x10")
    (Num (Finite (9 # 4))) (Js.int 13) (Str "") (Str "").

Definition syringes : SupplyItem.t :=
  SupplyItem.mk (Str "b210") (Str "Syringes 5ml") (Str "") (Str "")
    (Str "2024-01-31") (Js.int 300) placeholder
    (Bool true) (Str "Injection") (Str "") (Str "")
    Js.zero Js.zero Js.zero Js.zero (Str "") Js.zero Js.zero (Str "") (Str "").

Definition gloves : SupplyItem.t :=
  SupplyItem.mk (Str "c955") (Str "Nitrile GLOVES") (Str "") (Str "")
    (Str "2027-09-01") (Js.int 1200) placeholder
    (Bool false) (Str "PPE") (Str "") (Str "")
    Js.zero Js.zero Js.zero Js.zero (Str "") Js.zero Js.zero (Str "") (Str "").

Definition shelf : list SupplyItem.t := [gauze; syringes; gloves].

(** The draft [openNewItemModal] installs, with the required fields
    filled in. *)
Definition new_draft : SupplyItem.t :=
  SupplyItem.mk Undefined (Str "Face shields") (Str "") (Str "")
    (Str "2027-01-15") (Js.int 25) placeholder
    (Bool false) (Str "PPE") (Str "") (Str "")
    Js.zero Js.zero Js.zero Js.zero (Str "") Js.zero Js.zero (Str "") (Str "").

(** The same draft with the quantity left at 0. *)
Definition depleted_draft : SupplyItem.t :=
  SupplyItem.mk Undefined (Str "Face shields") (Str "") (Str "")
    (Str "2027-01-15") (Js.int 0) placeholder
    (Bool false) (Str "PPE") (Str "") (Str "")
    Js.zero Js.zero Js.zero Js.zero (Str "") Js.zero Js.zero (Str "") (Str "").

(** An edit of [gauze] that changes the quantity only. *)
Definition gauze_draft : SupplyItem.t :=
  SupplyItem.mk (Str "7f3a") (Str "Gauze pads") (Str "Sterile") (Str "L-19")
    (Str "2026-04-30") (Js.int 35) (Str "https://cdn.example/gauze-old.png")
    (Bool false) (Str "Wound Care") (Str "A3") (Str "Medline")
    (Js.int 12) (Js.int 6) (Js.int 50) (Num (Finite (3 # 2))) (Str "30x20x10")
    (Num (Finite (9 # 4))) (Js.int 13) (Str "") (Str "").

(** A draft that sets the name, the quantity, the category and the date
    and leaves every other field unset. *)
Definition sparse_draft : SupplyItem.t :=
  SupplyItem.mk Undefined (Str "Gauze rolls") Undefined Undefined
    (Str "2026-05-31") (Js.int 8) Undefined Undefined (Str "Wound Care")
    Undefined Undefined Undefined Undefined Undefined Undefined Undefined
    Undefined Undefined Undefined Undefined.

Definition photo : File := mkFile "shield.front.JPG" "image/jpeg" 204800.

(** The row the store hands back for a payload: the payload under the
    identity [id]. *)
Definition stored (id : Value) (r : Row.t) : Row.t :=
  Row.mk id (Row.name r) (Row.description r) (Row.lot_number r)
    (Row.expires_on r) (Row.quantity r) (Row.image_url r) (Row.is_expired r)
    (Row.type_of_supply r) (Row.pallet_location r) (Row.company r)
    (Row.cardboard_boxes_per_pallet r) (Row.unit_boxes_per_cardboard r)
    (Row.units_per_box r) (Row.weight_per_cardboard_box r)
    (Row.dimensions_cardboard_box r) (Row.cost_per_unit_box r)
    (Row.cost_per_cardboard_box r) (Row.relevant_link r) (Row.other_notes r).

(** A backend where every call succeeds: updates and inserts return the
    stored row, inserts under the identity ["d41c"]. *)
Definition healthy : Remote :=
  {| select_all := Resolved (Some []) None;
     update_select := fun payload id => Resolved (Some [stored id payload]) None;
     insert_select := fun payload => Resolved (Some [stored (Str "d41c") payload]) None;
     update_image_url := fun _ _ => Resolved tt None;
     storage_upload := fun _ _ => Resolved tt None;
     getPublicUrl := fun _ => "https://cdn.example/medical-supplies/d41c.jpg";
     Date_now := 1762128000000;
     Math_random_suffix := "k3v9x";
     select_user_roles := fun _ => Resolved (Some [Js.int 2]) None;
     select_role_names := fun _ => Resolved (Some [Str "volunteer"]) None |}.

(** As [healthy], but the object store refuses the upload. *)
Definition upload_refused : Remote :=
  {| select_all := select_all healthy;
     update_select := update_select healthy;
     insert_select := insert_select healthy;
     update_image_url := update_image_url healthy;
     storage_upload := fun _ _ => Resolved tt (Some "Bucket not found");
     getPublicUrl := getPublicUrl healthy;
     Date_now := Date_now healthy;
     Math_random_suffix := Math_random_suffix healthy;
     select_user_roles := select_user_roles healthy;
     select_role_names := select_role_names healthy |}.

(** As [healthy], but the store refuses the image patch that follows an
    insert. *)
Definition patch_refused : Remote :=
  {| select_all := select_all healthy;
     update_select := update_select healthy;
     insert_select := insert_select healthy;
     update_image_url := fun _ _ =>
       Resolved tt (Some "new row violates row-level security policy");
     storage_upload := storage_upload healthy;
     getPublicUrl := getPublicUrl healthy;
     Date_now := Date_now healthy;
     Math_random_suffix := Math_random_suffix healthy;
     select_user_roles := select_user_roles healthy;
     select_role_names := select_role_names healthy |}.

(** As [healthy], but writes succeed without returning the row. *)
Definition silent_writes : Remote :=
  {| select_all := select_all healthy;
     update_select := fun _ _ => Resolved (Some []) None;
     insert_select := fun _ => Resolved (Some []) None;
     update_image_url := update_image_url healthy;
     storage_upload := storage_upload healthy;
     getPublicUrl := getPublicUrl healthy;
     Date_now := Date_now healthy;
     Math_random_suffix := Math_random_suffix healthy;
     select_user_roles := select_user_roles healthy;
     select_role_names := select_role_names healthy |}.

(** As [healthy], but the role lookup is unreachable. *)
Definition offline_roles : Remote :=
  {| select_all := select_all healthy;
     update_select := update_select healthy;
     insert_select := insert_select healthy;
     update_image_url := update_image_url healthy;
     storage_upload := storage_upload healthy;
     getPublicUrl := getPublicUrl healthy;
     Date_now := Date_now healthy;
     Math_random_suffix := Math_random_suffix healthy;
     select_user_roles := fun _ => Rejected;
     select_role_names := select_role_names healthy |}.

Definition page (items : list SupplyItem.t) (editing : option SupplyItem.t)
    (draft : SupplyItem.t) (image : option File) : Page.t :=
  {| Page.items := items;
     Page.loading := false;
     Page.isEditModalOpen := match editing with Some _ => true | None => false end;
     Page.isNewItemModalOpen := match editing with Some _ => false | None => true end;
     Page.editingItem := editing;
     Page.formData := draft;
     Page.userRoles := [Str "volunteer"];
     Page.imageFile := image;
     Page.imagePreview := None;
     Page.uploadingImage := false |}.

(** The new-item modal with a filled draft and a picture attached. *)
Definition creating_with_photo : Page.t := page shelf None new_draft (Some photo).

(** The new-item modal with a filled draft and no picture. *)
Definition creating : Page.t := page shelf None new_draft None.

(** The edit modal on [gauze] with a new picture attached. *)
Definition editing_with_photo : Page.t :=
  page shelf (Some gauze) gauze_draft (Some photo).

(** The edit modal on [gauze] with a draft that leaves most fields unset. *)
Definition editing_sparse : Page.t := page shelf (Some gauze) sparse_draft None.

Definition volunteer_admin : Admin.AdminUserRow :=
  Admin.mkRow "u-17" "dana@example.org" ["volunteer"; "admin"].

Definition visitor_only : Admin.AdminUserRow :=
  Admin.mkRow "u-23" "lee@example.org" ["visitor"].

Definition admin_page : Admin.State :=
  {| Admin.users := [volunteer_admin; visitor_only];
     Admin.pendingRole := {[ "u-17" := "visitor" ]};
     Admin.saving := ∅ |}.

Definition rpc_ok (_ _ : string) : Reply unit := Resolved tt None.
Definition rpc_denied (_ _ : string) : Reply unit :=
  Resolved tt (Some "permission denied").

End Sample.

(** ** The rest of the dashboard *)

(** *** The form *)

Module Form.

(** [{ ...prev, [field]: value }].  A key outside the [SupplyItem]
    interface adds a property that no code reads; the record is left as
    it is. *)
Definition setField (field : string) (value : Value) (prev : SupplyItem.t)
    : SupplyItem.t :=
  let put (key : string) (old : Value) :=
    if String.eqb field key then value else old in
  {| SupplyItem.id := put "id" (SupplyItem.id prev);
     SupplyItem.name := put "name" (SupplyItem.name prev);
     SupplyItem.description := put "description" (SupplyItem.description prev);
     SupplyItem.lotNumber := put "lotNumber" (SupplyItem.lotNumber prev);
     SupplyItem.expiresOn := put "expiresOn" (SupplyItem.expiresOn prev);
     SupplyItem.quantity := put "quantity" (SupplyItem.quantity prev);
     SupplyItem.imageUrl := put "imageUrl" (SupplyItem.imageUrl prev);
     SupplyItem.isExpired := put "isExpired" (SupplyItem.isExpired prev);
     SupplyItem.typeOfSupply := put "typeOfSupply" (SupplyItem.typeOfSupply prev);
     SupplyItem.palletLocation :=
       put "palletLocation" (SupplyItem.palletLocation prev);
     SupplyItem.company := put "company" (SupplyItem.company prev);
     SupplyItem.cardboardBoxesPerPallet :=
       put "cardboardBoxesPerPallet" (SupplyItem.cardboardBoxesPerPallet prev);
     SupplyItem.unitBoxesPerCardboard :=
       put "unitBoxesPerCardboard" (SupplyItem.unitBoxesPerCardboard prev);
     SupplyItem.unitsPerBox := put "unitsPerBox" (SupplyItem.unitsPerBox prev);
     SupplyItem.weightPerCardboardBox :=
       put "weightPerCardboardBox" (SupplyItem.weightPerCardboardBox prev);
     SupplyItem.dimensionsCardboardBox :=
       put "dimensionsCardboardBox" (SupplyItem.dimensionsCardboardBox prev);
     SupplyItem.costPerUnitBox :=
       put "costPerUnitBox" (SupplyItem.costPerUnitBox prev);
     SupplyItem.costPerCardboardBox :=
       put "costPerCardboardBox" (SupplyItem.costPerCardboardBox prev);
     SupplyItem.relevantLink := put "relevantLink" (SupplyItem.relevantLink prev);
     SupplyItem.otherNotes := put "otherNotes" (SupplyItem.otherNotes prev) |}.

(** The keys of the [SupplyItem] interface, with their readers. *)
Definition keys : list (string * (SupplyItem.t -> Value)) :=
  [ ("id", SupplyItem.id); ("name", SupplyItem.name);
    ("description", SupplyItem.description);
    ("lotNumber", SupplyItem.lotNumber); ("expiresOn", SupplyItem.expiresOn);
    ("quantity", SupplyItem.quantity); ("imageUrl", SupplyItem.imageUrl);
    ("isExpired", SupplyItem.isExpired);
    ("typeOfSupply", SupplyItem.typeOfSupply);
    ("palletLocation", SupplyItem.palletLocation);
    ("company", SupplyItem.company);
    ("cardboardBoxesPerPallet", SupplyItem.cardboardBoxesPerPallet);
    ("unitBoxesPerCardboard", SupplyItem.unitBoxesPerCardboard);
    ("unitsPerBox", SupplyItem.unitsPerBox);
    ("weightPerCardboardBox", SupplyItem.weightPerCardboardBox);
    ("dimensionsCardboardBox", SupplyItem.dimensionsCardboardBox);
    ("costPerUnitBox", SupplyItem.costPerUnitBox);
    ("costPerCardboardBox", SupplyItem.costPerCardboardBox);
    ("relevantLink", SupplyItem.relevantLink);
    ("otherNotes", SupplyItem.otherNotes) ].


Section Handlers.
Local Open Scope action_scope.
Import Action.

Definition handleInputChange (field : string) (value : Value) : Handler unit :=
  modify (fun s => Page.setFormData (setField field value (Page.formData s)) s).

(** [5 * 1024 * 1024] *)
Definition maxImageSize : N := 5 * 1024 * 1024.

(** [handleImageChange], given [e.target.files?.[0]], up to the point
    where it hands the file to the [FileReader]. *)
Definition handleImageChange (file0 : option File) : Handler unit :=
  match file0 with
  | Some file =>
      if negb (JsString.startsWith (file_type file) "image/")
      then emit (ToastError "Please select an image file")
      else if (maxImageSize <? file_size file)%N
      then emit (ToastError "Image size must be less than 5MB")
      else modify (Page.setImageFile (Some file))
  | None => ret tt
  end.

(** [reader.onloadend], with [reader.result]. *)
Definition onloadend (result : string) : Handler unit :=
  modify (Page.setImagePreview (Some result)).

End Handlers.

End Form.

(** *** Selection, the modals and deletion *)

Module App.

(** The page state of [Page.t] together with the selection, which the
    detail modal and the delete button work on. *)
Record State := mk {
  page : Page.t;
  selectedItem : option SupplyItem.t;
  isItemModalOpen : bool
}.

Inductive Event :=
| DbDelete (id : Value)
| ToastError (message : string)
| ToastSuccess (message : string).

Definition onPage (f : Page.t -> Page.t) (s : State) : State :=
  mk (f (page s)) (selectedItem s) (isItemModalOpen s).

Definition setSelectedItem (i : option SupplyItem.t) (s : State) : State :=
  mk (page s) i (isItemModalOpen s).

Definition setIsItemModalOpen (b : bool) (s : State) : State :=
  mk (page s) (selectedItem s) b.

(** The draft [openNewItemModal] installs. *)
Definition blankForm : SupplyItem.t :=
  {| SupplyItem.id := Undefined;
     SupplyItem.name := Str "";
     SupplyItem.description := Str "";
     SupplyItem.lotNumber := Str "";
     SupplyItem.expiresOn := Str "";
     SupplyItem.quantity := Js.int 0;
     SupplyItem.imageUrl := Str "/logo.png";
     SupplyItem.isExpired := Bool false;
     SupplyItem.typeOfSupply := Str "";
     SupplyItem.palletLocation := Str "";
     SupplyItem.company := Str "";
     SupplyItem.cardboardBoxesPerPallet := Js.int 0;
     SupplyItem.unitBoxesPerCardboard := Js.int 0;
     SupplyItem.unitsPerBox := Js.int 0;
     SupplyItem.weightPerCardboardBox := Js.int 0;
     SupplyItem.dimensionsCardboardBox := Str "";
     SupplyItem.costPerUnitBox := Js.int 0;
     SupplyItem.costPerCardboardBox := Js.int 0;
     SupplyItem.relevantLink := Str "";
     SupplyItem.otherNotes := Str "" |}.

Section Handlers.
Local Open Scope action_scope.
Import Action.

Definition handleItemClick (item : SupplyItem.t) : Action.t State Event unit :=
  modify (setSelectedItem (Some item));;
  modify (setIsItemModalOpen true).

(** [openEditModal], as rendered with the state [c]. *)
Definition openEditModal (c : State) (item : SupplyItem.t) : Action.t State Event unit :=
  if negb (canManage (Page.userRoles (page c)))
  then ret tt
  else
    modify (onPage (Page.setEditingItem (Some item)));;
    modify (onPage (Page.setFormData item));;
    modify (onPage (Page.setImageFile None));;
    modify (onPage (Page.setImagePreview None));;
    modify (onPage (Page.setIsEditModalOpen true));;
    modify (setIsItemModalOpen false).

(** [openNewItemModal], as rendered with the state [c]. *)
Definition openNewItemModal (c : State) : Action.t State Event unit :=
  if negb (canManage (Page.userRoles (page c)))
  then ret tt
  else
    modify (onPage (Page.setEditingItem None));;
    modify (onPage (Page.setFormData blankForm));;
    modify (onPage (Page.setImageFile None));;
    modify (onPage (Page.setImagePreview None));;
    modify (onPage (Page.setIsNewItemModalOpen true)).

(** [prev.filter(item => item.id !== selectedItem.id)] *)
Definition removeById (id : Value) (prev : list SupplyItem.t) : list SupplyItem.t :=
  List.filter (fun item => negb (strict_eq (SupplyItem.id item) id)) prev.

(** [from('medical_supplies').delete().eq('id', id)] *)
Variable delete_eq : Value -> Reply unit.

(** [handleDeleteItem], as rendered with the state [c]. *)
Definition handleDeleteItem (c : State) : Action.t State Event unit :=
  match selectedItem c with
  | None => emit (ToastError "No item selected for deletion")
  | Some selected =>
      try_catch
        (emit (DbDelete (SupplyItem.id selected));;
         answer <- await (delete_eq (SupplyItem.id selected));;
         match snd answer with
         | Some _ => emit (ToastError "Failed to delete item")
         | None =>
             modify (onPage (Page.setItems (removeById (SupplyItem.id selected))));;
             emit (ToastSuccess "Item deleted successfully!");;
             modify (setIsItemModalOpen false);;
             modify (setSelectedItem None)
         end)
        (emit (ToastError "Failed to delete item"))
  end.

Definition deleteItem (c : State) : Outcome State Event unit :=
  run (handleDeleteItem c) c.

End Handlers.




(** A file the image input accepts. *)
Definition acceptable (file : File) : Prop :=
  JsString.startsWith (file_type file) "image/" = true
  /\ (file_size file <= Form.maxImageSize)%N.

(** An image reference an [img] element can show. *)
Definition has_image (item : SupplyItem.t) : Prop :=
  truthy (SupplyItem.imageUrl item) = true.





End App.

(** ** The rest of the admin role page *)

Module AdminView.

(** The callback of [users.filter] in [filteredUsers]; [q] is the
    trimmed, lower-cased query. *)
Definition shows (q roleFilter : string) (u : Admin.AdminUserRow) : bool :=
  let matchesEmail :=
    negb (truthy (Str q))
    || JsString.includes (JsString.toLowerCase (Admin.email u)) q in
  let current := Admin.currentRoleOf u in
  let matchesRole :=
    if String.eqb roleFilter "all" then true
    else if String.eqb roleFilter "uncategorized" then String.eqb current ""
    else String.eqb current roleFilter in
  matchesEmail && matchesRole.

Definition filteredUsers (users : list Admin.AdminUserRow)
    (searchQuery roleFilter : string) : list Admin.AdminUserRow :=
  let q := JsString.toLowerCase (JsString.trim searchQuery) in
  List.filter (shows q roleFilter) users.

(** The values the role select can set the filter to. *)
Definition roleFilters : list string :=
  [ "all"; "admin"; "volunteer"; "visitor"; "uncategorized" ].

(** [pendingRole[u.user_id] ?? current] *)
Definition nextRoleOf (s : Admin.State) (u : Admin.AdminUserRow) : string :=
  default (Admin.currentRoleOf u) (Admin.pendingRole s !! Admin.user_id u).

(** The [disabled] attribute of the save button of a row. *)
Definition saveDisabled (s : Admin.State) (u : Admin.AdminUserRow) : bool :=
  default false (Admin.saving s !! Admin.user_id u)
  || negb (truthy (Str (nextRoleOf s u)))
  || String.eqb (nextRoleOf s u) (Admin.currentRoleOf u).

(** A row of [admin_list_users_with_roles] as the procedure returns it;
    [roles] may be [null]. *)
Record ListedUser := mkListed {
  listed_user_id : string;
  listed_email : string;
  listed_roles : option (list string)
}.

(** The callback of [data.map] in [loadUsers]. *)
Definition rowOfListed (row : ListedUser) : Admin.AdminUserRow :=
  Admin.mkRow (listed_user_id row) (listed_email row) (default [] (listed_roles row)).

Record Listing := mkListing {
  listed : list Admin.AdminUserRow;
  loading : bool
}.

Inductive ListingEvent :=
| RpcListUsers
| ListingToastError (message : string).

Section Handlers.
Local Open Scope action_scope.
Import Action.

(** [supabase.rpc("admin_list_users_with_roles")] *)
Variable admin_list_users_with_roles : Reply (option (list ListedUser)).

(** [loadUsers].  With [data] null and no error, [data.map] throws. *)
Definition loadUsers : Action.t Listing ListingEvent unit :=
  try_finally
    (try_catch
       (modify (fun s => mkListing (listed s) true);;
        emit RpcListUsers;;
        answer <- await admin_list_users_with_roles;;
        match snd answer with
        | Some _ => throw
        | None =>
            match fst answer with
            | None => throw
            | Some data =>
                modify (fun s => mkListing (List.map rowOfListed data) (loading s))
            end
        end)
       (emit (ListingToastError "Failed to load users")))
    (modify (fun s => mkListing (listed s) false)).

(** The effect that loads the users: [if (isAdmin) loadUsers()]. *)
Definition loadUsersEffect (viewerIsAdmin : bool) : Action.t Listing ListingEvent unit :=
  if viewerIsAdmin then loadUsers else ret tt.

Variable R : Remote.

(** [fetchViewerRoles], given [session?.user?.id]; the state is the
    viewer's role names. *)
Definition fetchViewerRoles (session_user_id : Value)
    : Action.t (list Value) Event unit :=
  try_catch
    (if negb (truthy session_user_id)
     then modify (fun _ => [])
     else
       emit (DbSelectUserRoles session_user_id);;
       ur <- await (select_user_roles R session_user_id);;
       match snd ur with
       | Some _ => modify (fun _ => [])
       | None =>
           let roleIds := default [] (fst ur) in
           if (length roleIds =? 0)%nat
           then modify (fun _ => [])
           else
             emit (DbSelectRoleNames roleIds);;
             rolesRows <- await (select_role_names R roleIds);;
             match snd rolesRows with
             | Some _ => modify (fun _ => [])
             | None => modify (fun _ => default [] (fst rolesRows))
             end
       end)
    (modify (fun _ => [])).

End Handlers.

End AdminView.

(** ** Further vocabulary *)

Module View.

(** What the filter callback answers on an item, a throw counting as a
    refusal. *)
Definition kept (searchQuery expiredFilter typeFilter : string)
    (i : SupplyItem.t) : bool :=
  match keeps searchQuery expiredFilter typeFilter i with
  | Some b => b
  | None => false
  end.

(** The string has no dot in it. *)
Fixpoint dotless (s : string) : bool :=
  match s with
  | EmptyString => true
  | String c r => negb (Ascii.eqb c "."%char) && dotless r
  end.

Definition is_upload (e : Event) : bool :=
  match e with
  | StorageUpload _ _ => true
  | _ => false
  end.

(** The calls that reach the backend, reads and writes alike. *)
Definition is_remote (e : Event) : bool :=
  match e with
  | ToastError _ | ToastSuccess _ => false
  | _ => true
  end.

End View.

(** ** Further sample inputs *)

Module Scene.

(** As [Sample.healthy], with a table that holds [Sample.bare_row] only. *)
Definition one_row : Remote :=
  {| select_all := Resolved (Some [Sample.bare_row]) None;
     update_select := update_select Sample.healthy;
     insert_select := insert_select Sample.healthy;
     update_image_url := update_image_url Sample.healthy;
     storage_upload := storage_upload Sample.healthy;
     getPublicUrl := getPublicUrl Sample.healthy;
     Date_now := Date_now Sample.healthy;
     Math_random_suffix := Math_random_suffix Sample.healthy;
     select_user_roles := select_user_roles Sample.healthy;
     select_role_names := select_role_names Sample.healthy |}.

(** A backend that cannot be reached: every call rejects. *)
Definition unreachable : Remote :=
  {| select_all := Rejected;
     update_select := fun _ _ => Rejected;
     insert_select := fun _ => Rejected;
     update_image_url := fun _ _ => Rejected;
     storage_upload := fun _ _ => Rejected;
     getPublicUrl := getPublicUrl Sample.healthy;
     Date_now := Date_now Sample.healthy;
     Math_random_suffix := Math_random_suffix Sample.healthy;
     select_user_roles := fun _ => Rejected;
     select_role_names := fun _ => Rejected |}.




End Scene.

(** * Properties *)
(** ** Strings *)

Module JsStringFacts.
Import JsString.

Lemma startsWith_spec s p :
  startsWith s p = true <-> exists after, s = (p ++ after)%string.
Proof.
  revert s. induction p as [|b q IH]; intros s; simpl.
  - split; [intros _; now exists s | reflexivity].
  - destruct s as [|a r].
    + split; [discriminate | intros [after H]; discriminate].
    + rewrite andb_true_iff, Ascii.eqb_eq, IH. split.
      * intros [-> [after ->]]. now exists after.
      * intros [after H]. injection H as -> ->. split; [reflexivity | now exists after].
Qed.

Lemma includes_spec s t : includes s t = true <-> Spec.substring s t.
Proof.
  unfold Spec.substring. induction s as [|a r IH]; simpl.
  - rewrite orb_false_r, startsWith_spec. split.
    + intros [after H]. now exists EmptyString, after.
    + intros [before [after H]]. destruct before; [now exists after | discriminate].
  - rewrite orb_true_iff, startsWith_spec, IH. split.
    + intros [[after H] | [before [after H]]].
      * now exists EmptyString, after.
      * exists (String a before), after. simpl. now rewrite H.
    + intros [before [after H]]. destruct before as [|b before]; simpl in H.
      * left. now exists after.
      * right. injection H as _ H. now exists before, after.
Qed.

Lemma all_space_rev_onto s acc :
  all_space (rev_onto s acc) = all_space s && all_space acc.
Proof.
  revert acc. induction s as [|c r IH]; intros acc; simpl; [reflexivity|].
  rewrite IH. simpl. destruct (is_space c), (all_space r); reflexivity.
Qed.

Lemma rev_onto_empty s acc : rev_onto s acc = "" -> s = "" /\ acc = "".
Proof.
  revert acc. induction s as [|c r IH]; intros acc H; simpl in H; [now split|].
  apply IH in H as [_ H]. discriminate.
Qed.

Lemma trimStart_empty s : trimStart s = "" <-> all_space s = true.
Proof.
  induction s as [|c r IH]; simpl; [tauto|].
  destruct (is_space c); simpl; [exact IH | split; discriminate].
Qed.

Lemma trimStart_all_space s : all_space (trimStart s) = true -> trimStart s = "".
Proof.
  induction s as [|c r IH]; simpl; [reflexivity|].
  destruct (is_space c) eqn:E; [exact IH | simpl; now rewrite E].
Qed.

Lemma trim_empty q : trim q = "" <-> Spec.blank q.
Proof.
  unfold trim, reverse, Spec.blank. split.
  - intros H. apply rev_onto_empty in H as [H _].
    apply trimStart_empty in H. rewrite all_space_rev_onto, andb_true_r in H.
    now apply trimStart_empty, trimStart_all_space.
  - intros H. apply trimStart_empty in H. now rewrite H.
Qed.

End JsStringFacts.

(** ** JavaScript values *)

Module JsFacts.

Lemma strict_eq_Str v s : strict_eq v (Str s) = true <-> v = Str s.
Proof.
  destruct v; simpl; try (split; [discriminate | intros H; discriminate]).
  rewrite String.eqb_eq. split; [now intros -> | now intros [= ->]].
Qed.

Lemma includes_string_In xs s : includes_string xs s = true <-> In (Str s) xs.
Proof.
  unfold includes_string. rewrite existsb_exists. split.
  - intros [v [Hin Heq]]. apply strict_eq_Str in Heq. now subst.
  - intros Hin. exists (Str s). split; [exact Hin | now apply strict_eq_Str].
Qed.

Lemma truthy_missing v : truthy v = false <-> Spec.missing v.
Proof.
  destruct v as [| |b|n|s]; simpl; try tauto.
  - destruct n as [|neg|q]; simpl; try tauto; [split; [discriminate | tauto]|].
    rewrite negb_false_iff. apply Qeq_bool_iff.
  - rewrite negb_false_iff. apply String.eqb_eq.
Qed.

Lemma or_nullish a b : nullish a = true -> Js.or a b = b.
Proof. now destruct a. Qed.

Lemma coalesce_nullish a b :
  coalesce a b = if nullish a then b else a.
Proof. now destruct a. Qed.

End JsFacts.

(** ** The list filter *)

Section Filter.
Variables searchQuery expiredFilter typeFilter : string.

Lemma matchesText_spec i :
  SupplyItem.has_string_keys i ->
  exists b, matchesText searchQuery i = Some b
            /\ (b = true <-> Spec.matches_query searchQuery i).
Proof.
  intros [[n Hn] [c Hc]]. unfold matchesText, Spec.matches_query.
  rewrite Hn, Hc, negb_involutive. simpl.
  destruct (String.eqb (JsString.trim searchQuery) "") eqn:Hq.
  - exists true. split; [reflexivity|]. split; [|reflexivity].
    intros _. left. now apply JsStringFacts.trim_empty, String.eqb_eq.
  - assert (Hnb : ~ Spec.blank searchQuery).
    { intros Hb. apply JsStringFacts.trim_empty, String.eqb_eq in Hb. congruence. }
    destruct (JsString.includes (JsString.toLowerCase n) _) eqn:Hi.
    + exists true. split; [reflexivity|]. split; [|reflexivity].
      intros _. right. left. exists n. split; [reflexivity|].
      now apply JsStringFacts.includes_spec.
    + eexists. split; [reflexivity|]. rewrite JsStringFacts.includes_spec. split.
      * intros H. right. right. now exists c.
      * intros [H | [[n' [[= <-] H]] | [c' [[= <-] H]]]]; [tauto | | exact H].
        apply JsStringFacts.includes_spec in H. congruence.
Qed.

Lemma matchesExpiry_spec i :
  matchesExpiry expiredFilter i = true <-> Spec.matches_expiry expiredFilter i.
Proof.
  unfold matchesExpiry, Spec.matches_expiry.
  rewrite !orb_true_iff, !andb_true_iff, negb_true_iff, !String.eqb_eq. tauto.
Qed.

Lemma matchesType_spec i :
  matchesType typeFilter i = true <-> Spec.matches_category typeFilter i.
Proof.
  unfold matchesType, Spec.matches_category.
  now rewrite orb_true_iff, String.eqb_eq, JsFacts.strict_eq_Str.
Qed.

Lemma keeps_spec i :
  SupplyItem.has_string_keys i ->
  exists b, keeps searchQuery expiredFilter typeFilter i = Some b
            /\ (b = true <->
                Spec.matches_query searchQuery i
                /\ Spec.matches_expiry expiredFilter i
                /\ Spec.matches_category typeFilter i).
Proof.
  intros Hi. destruct (matchesText_spec i Hi) as [b [Hb Hspec]].
  unfold keeps. rewrite Hb. eexists. split; [reflexivity|].
  rewrite !andb_true_iff, Hspec, matchesExpiry_spec, matchesType_spec. tauto.
Qed.

Lemma filterItems_spec items :
  Forall SupplyItem.has_string_keys items ->
  exists shown,
    filterItems items searchQuery expiredFilter typeFilter = Some shown
    /\ shown `sublist_of` items
    /\ forall i, In i shown <->
                 In i items
                 /\ Spec.matches_query searchQuery i
                 /\ Spec.matches_expiry expiredFilter i
                 /\ Spec.matches_category typeFilter i.
Proof.
  induction 1 as [|item rest Hitem _ IH]; simpl.
  - exists []. split; [reflexivity|]. split; [constructor|]. intros i. simpl. tauto.
  - destruct (keeps_spec item Hitem) as [keep [-> Hkeep]].
    destruct IH as [kept [-> [Hsub Hmem]]].
    eexists. split; [reflexivity|]. destruct keep.
    + split; [now constructor|]. intros i. simpl. rewrite Hmem. split.
      * intros [<- | H]; [|tauto]. split; [now left | now apply Hkeep].
      * intros [[<- | H] H']; [now left | right; tauto].
    + split; [now constructor|]. intros i. rewrite Hmem. simpl. split; [tauto|].
      intros [[<- | H] H']; [|tauto].
      apply Hkeep in H'. discriminate.
Qed.

End Filter.

Lemma filterItems_no_filter items : filterItems items "" "all" "all" = Some items.
Proof.
  induction items as [|item rest IH]; simpl; [reflexivity|].
  rewrite IH. reflexivity.
Qed.

(** C3: on items that conform to the [SupplyItem] interface, the filter
    returns a subsequence of the collection in its original order; an item
    is shown exactly when the query matches its name or category ignoring
    case, the expiry filter matches its flag and the category filter
    matches its category; a blank query matches every item; with an empty
    query and both filters on "all" the collection comes back whole. *)
Theorem C3_filter_is_ordered_conjunctive_subsequence
    (items : list SupplyItem.t) (searchQuery expiredFilter typeFilter : string) :
  Forall SupplyItem.has_string_keys items ->
  (exists shown,
      filterItems items searchQuery expiredFilter typeFilter = Some shown
      /\ shown `sublist_of` items
      /\ (forall i, In i shown <->
                    In i items
                    /\ Spec.matches_query searchQuery i
                    /\ Spec.matches_expiry expiredFilter i
                    /\ Spec.matches_category typeFilter i))
  /\ (Spec.blank searchQuery ->
      forall i, matchesText searchQuery i = Some true)
  /\ filterItems items "" "all" "all" = Some items.
Proof.
  intros Hitems. split; [now apply filterItems_spec|].
  split; [|apply filterItems_no_filter].
  intros Hblank i. unfold matchesText.
  apply JsStringFacts.trim_empty in Hblank. now rewrite Hblank.
Qed.

Lemma C3_filter_witness :
  Forall SupplyItem.has_string_keys Sample.shelf
  /\ Spec.blank "   "
  /\ (exists shown,
        filterItems Sample.shelf "   " "expired" "all" = Some shown
        /\ shown `sublist_of` Sample.shelf
        /\ (forall i, In i shown <->
                      In i Sample.shelf
                      /\ Spec.matches_query "   " i
                      /\ Spec.matches_expiry "expired" i
                      /\ Spec.matches_category "all" i))
  /\ matchesText "   " Sample.gloves = Some true
  /\ filterItems Sample.shelf "" "all" "all" = Some Sample.shelf.
Proof.
  assert (Hkeys : Forall SupplyItem.has_string_keys Sample.shelf).
  { repeat constructor; eexists; reflexivity. }
  assert (Hblank : Spec.blank "   ") by reflexivity.
  pose proof (C3_filter_is_ordered_conjunctive_subsequence
                Sample.shelf "   " "expired" "all" Hkeys)
    as [Hshown [Hall Hwhole]].
  split; [exact Hkeys|]. split; [exact Hblank|]. split; [exact Hshown|].
  split; [exact (Hall Hblank Sample.gloves) | exact Hwhole].
Defined.

(** ** The view-model transform *)

(** C6, as the code has it: a row whose optional columns are absent reads
    as the documented defaults (quantity 0, expiry "2025-12-31", the
    placeholder image, not expired, empty strings and zeros elsewhere),
    while [id] and [name] are handed on as the row has them; the
    transform is a total function, so no row makes it fail. *)
Theorem C6_absent_optionals_read_as_defaults (row : Row.t) :
  Spec.optionals_absent row ->
  toViewModel row = Spec.defaulted (Row.id row) (Row.name row).
Proof.
  unfold Spec.optionals_absent, Spec.optional_columns. intros H.
  repeat match type of H with
         | Forall _ (_ :: _) => apply Forall_cons_1 in H as [? H]
         end.
  unfold toViewModel, Spec.defaulted.
  rewrite !JsFacts.or_nullish by assumption. reflexivity.
Qed.

Lemma C6_absent_optionals_witness :
  Spec.optionals_absent Sample.bare_row
  /\ toViewModel Sample.bare_row = Spec.defaulted (Str "7f3a") Null.
Proof.
  assert (H : Spec.optionals_absent Sample.bare_row).
  { repeat constructor. }
  split; [exact H|].
  exact (C6_absent_optionals_read_as_defaults Sample.bare_row H).
Defined.

(** C6 as worded fails on a row without a name: the name stays absent
    instead of becoming the empty string. *)
Lemma C6_absent_name_stays_absent :
  Spec.optionals_absent Sample.bare_row
  /\ Row.name Sample.bare_row = Null
  /\ SupplyItem.name (toViewModel Sample.bare_row) = Null
  /\ ~ Spec.reads_as_defaults Sample.bare_row.
Proof.
  split; [repeat constructor|]. split; [reflexivity|]. split; [reflexivity|].
  unfold Spec.reads_as_defaults. intros H.
  apply (f_equal SupplyItem.name) in H. discriminate.
Qed.

(** ** Required fields *)

Lemma missingRequiredFields_spec d :
  missingRequiredFields d = true <->
  Spec.missing (SupplyItem.name d)
  \/ Spec.missing (SupplyItem.quantity d)
  \/ Spec.missing (SupplyItem.typeOfSupply d)
  \/ Spec.missing (SupplyItem.expiresOn d).
Proof.
  unfold missingRequiredFields.
  rewrite !orb_true_iff, !negb_true_iff, !JsFacts.truthy_missing. tauto.
Qed.

Lemma submit_missing R c :
  missingRequiredFields (Page.formData c) = true ->
  submit R c
  = Action.Returned tt
      (Action.mkWorld c [ToastError "Please fill in all required fields"]).
Proof.
  intros H. unfold submit, Action.run, handleSaveItem, Action.try_catch.
  rewrite H. reflexivity.
Qed.

(** C5: the required-field test rejects a draft exactly when its name,
    quantity, category or expiration date is absent, empty or
    zero-equivalent; a quantity of exactly 0 is rejected; a draft whose
    four required fields are non-empty with a nonzero quantity passes; a
    rejected draft goes no further than the notice. *)
Theorem C5_required_fields_gate (R : Remote) (c : Page.t) :
  let d := Page.formData c in
  (missingRequiredFields d = true <->
   Spec.missing (SupplyItem.name d)
   \/ Spec.missing (SupplyItem.quantity d)
   \/ Spec.missing (SupplyItem.typeOfSupply d)
   \/ Spec.missing (SupplyItem.expiresOn d))
  /\ (SupplyItem.quantity d = Js.int 0 -> missingRequiredFields d = true)
  /\ (forall n q t e,
        SupplyItem.name d = Str n -> n <> "" ->
        SupplyItem.quantity d = Num (Finite q) -> ~ (q == 0)%Q ->
        SupplyItem.typeOfSupply d = Str t -> t <> "" ->
        SupplyItem.expiresOn d = Str e -> e <> "" ->
        missingRequiredFields d = false)
  /\ (missingRequiredFields d = true ->
      Action.trace (Action.world_of (submit R c))
      = [ToastError "Please fill in all required fields"]
      /\ Spec.final (submit R c) = c).
Proof.
  intros d. split; [apply missingRequiredFields_spec|]. split; [|split].
  - intros Hq. apply missingRequiredFields_spec. right. left.
    rewrite Hq. reflexivity.
  - intros n q t e Hn Hn' Hq Hq' Ht Ht' He He'.
    apply not_true_is_false. rewrite missingRequiredFields_spec.
    rewrite Hn, Hq, Ht, He. simpl. tauto.
  - intros H. unfold Spec.final. rewrite (submit_missing R c H). now split.
Qed.

Lemma C5_required_fields_witness :
  missingRequiredFields Sample.depleted_draft = true
  /\ missingRequiredFields Sample.new_draft = false
  /\ Spec.final (submit Sample.healthy
                   (Sample.page Sample.shelf None Sample.depleted_draft None))
     = Sample.page Sample.shelf None Sample.depleted_draft None.
Proof.
  pose proof (C5_required_fields_gate Sample.healthy
                (Sample.page Sample.shelf None Sample.depleted_draft None))
    as [_ [Hzero [_ Hstop]]].
  pose proof (C5_required_fields_gate Sample.healthy Sample.creating)
    as [_ [_ [Hpass _]]].
  split; [apply Hzero; reflexivity|].
  split.
  - apply (Hpass "Face shields" (inject_Z 25) "PPE" "2027-01-15");
      try reflexivity; discriminate.
  - apply Hstop, Hzero. reflexivity.
Defined.

(** ** The role gate *)

Lemma canManage_spec roles :
  canManage roles = true <-> In (Str "admin") roles \/ In (Str "volunteer") roles.
Proof.
  unfold canManage. now rewrite orb_true_iff, !JsFacts.includes_string_In.
Qed.

Lemma isAdmin_spec roles : isAdmin roles = true <-> In (Str "admin") roles.
Proof. apply JsFacts.includes_string_In. Qed.

Lemma fetchUserRoles_failure R uid s :
  Spec.FetchFailure R uid ->
  Page.userRoles
    (Action.state (Action.world_of (Action.run (fetchUserRoles R uid) s))) = [].
Proof.
  intros Hfail. unfold Action.run, fetchUserRoles, Action.try_catch.
  inversion Hfail as [Hid | Hrej | data msg Herr | data Hok Hnone
                      | data Hok Hrej | data names msg Hok Herr].
  - rewrite Hid. reflexivity.
  - destruct (truthy uid); [|reflexivity].
    cbn. rewrite Hrej. reflexivity.
  - destruct (truthy uid); [|reflexivity].
    cbn. rewrite Herr. reflexivity.
  - destruct (truthy uid); [|reflexivity].
    cbn. rewrite Hok. cbn. rewrite Hnone. reflexivity.
  - destruct (truthy uid); [|reflexivity].
    cbn. rewrite Hok. cbn.
    destruct (List.filter truthy (default [] data)); [reflexivity|].
    cbn. rewrite Hrej. reflexivity.
  - destruct (truthy uid); [|reflexivity].
    cbn. rewrite Hok. cbn.
    destruct (List.filter truthy (default [] data)); [reflexivity|].
    cbn. rewrite Herr. reflexivity.
Qed.

Lemma fetchUserRoles_success R uid s ids names :
  truthy uid = true ->
  select_user_roles R uid = Resolved ids None ->
  List.filter truthy (default [] ids) <> [] ->
  select_role_names R (List.filter truthy (default [] ids)) = Resolved names None ->
  Page.userRoles
    (Action.state (Action.world_of (Action.run (fetchUserRoles R uid) s)))
  = default [] names.
Proof.
  intros Hid Hids Hsome Hnames.
  unfold Action.run, fetchUserRoles, Action.try_catch.
  rewrite Hid. cbn. rewrite Hids. cbn.
  destruct (List.filter truthy (default [] ids)); [congruence|].
  cbn. rewrite Hnames. reflexivity.
Qed.

(** C9: [canManage] holds exactly when the role names contain "admin" or
    "volunteer", [isAdmin] exactly when they contain "admin"; the role
    names are the ones the two lookups return; whenever the fetch fails
    (no identity, a lookup that rejects or reports an error, no role rows)
    the role set is empty and both flags are false. *)
Theorem C9_role_gate_fails_closed (R : Remote) (s : Page.t) (session_user_id : Value) :
  let roles_after :=
    Page.userRoles
      (Action.state
         (Action.world_of (Action.run (fetchUserRoles R session_user_id) s))) in
  (forall roles,
      (canManage roles = true <->
       In (Str "admin") roles \/ In (Str "volunteer") roles)
      /\ (isAdmin roles = true <-> In (Str "admin") roles))
  /\ (forall ids names,
        truthy session_user_id = true ->
        select_user_roles R session_user_id = Resolved ids None ->
        List.filter truthy (default [] ids) <> [] ->
        select_role_names R (List.filter truthy (default [] ids))
          = Resolved names None ->
        roles_after = default [] names)
  /\ (Spec.FetchFailure R session_user_id ->
      roles_after = []
      /\ canManage roles_after = false
      /\ isAdmin roles_after = false).
Proof.
  intros roles_after. split; [|split].
  - intros roles. split; [apply canManage_spec | apply isAdmin_spec].
  - intros ids names. apply fetchUserRoles_success.
  - intros Hfail. unfold roles_after.
    rewrite (fetchUserRoles_failure R session_user_id s Hfail). now repeat split.
Qed.

Lemma C9_role_gate_witness :
  Spec.FetchFailure Sample.offline_roles (Str "u-17")
  /\ Page.userRoles
       (Action.state
          (Action.world_of
             (Action.run (fetchUserRoles Sample.offline_roles (Str "u-17"))
                Sample.creating))) = []
  /\ Page.userRoles
       (Action.state
          (Action.world_of
             (Action.run (fetchUserRoles Sample.healthy (Str "u-17"))
                Sample.creating))) = [Str "volunteer"]
  /\ canManage [Str "volunteer"] = true
  /\ isAdmin [Str "volunteer"] = false.
Proof.
  assert (Hfail : Spec.FetchFailure Sample.offline_roles (Str "u-17")).
  { apply Spec.UserRolesRejected. reflexivity. }
  pose proof (C9_role_gate_fails_closed Sample.offline_roles Sample.creating
                (Str "u-17")) as [_ [_ Hclosed]].
  pose proof (C9_role_gate_fails_closed Sample.healthy Sample.creating
                (Str "u-17")) as [Hflags [Hnames _]].
  split; [exact Hfail|].
  split; [exact (proj1 (Hclosed Hfail))|].
  split.
  - apply (Hnames (Some [Js.int 2]) (Some [Str "volunteer"]));
      [reflexivity | reflexivity | discriminate | reflexivity].
  - split.
    + apply (proj1 (Hflags [Str "volunteer"])). right. now left.
    + apply not_true_is_false. intros H.
      apply (proj2 (Hflags [Str "volunteer"])) in H.
      destruct H as [H | []]. discriminate.
Defined.

(** ** Saving a draft *)

Section Saving.
Variable R : Remote.
Import Action.

Lemma uploadImageToStorage_run file itemId w :
  uploadImageToStorage R file itemId w
  = let path := filePath R file itemId in
    let s := Page.setUploadingImage false
               (Page.setUploadingImage true (state w)) in
    match storage_upload R path file with
    | Resolved _ None =>
        Returned (Some (getPublicUrl R path))
          (mkWorld s (trace w ++ [StorageUpload path file]))
    | _ =>
        Returned None
          (mkWorld s ((trace w ++ [StorageUpload path file])
                      ++ [ToastError "Failed to upload image"]))
    end.
Proof.
  unfold uploadImageToStorage, try_finally, try_catch, bind. cbn.
  destruct (storage_upload R (filePath R file itemId) file) as [|[] [msg|]];
    reflexivity.
Qed.

Lemma upload_fails_run file itemId w :
  Spec.upload_fails R file itemId ->
  uploadImageToStorage R file itemId w
  = Returned None
      (mkWorld
         (Page.setUploadingImage false (Page.setUploadingImage true (state w)))
         ((trace w ++ [StorageUpload (filePath R file itemId) file])
          ++ [ToastError "Failed to upload image"])).
Proof.
  intros [H | [msg H]]; rewrite uploadImageToStorage_run; cbn; now rewrite H.
Qed.

Lemma upload_succeeds_run file itemId url w :
  Spec.upload_succeeds R file itemId url ->
  uploadImageToStorage R file itemId w
  = Returned (Some url)
      (mkWorld
         (Page.setUploadingImage false (Page.setUploadingImage true (state w)))
         (trace w ++ [StorageUpload (filePath R file itemId) file])).
Proof.
  intros [Hup [Hurl _]]. rewrite uploadImageToStorage_run. cbn.
  now rewrite Hup, Hurl.
Qed.

Lemma url_truthy_nonempty url : url <> "" -> url_truthy (Some url) = Some url.
Proof.
  intros H. unfold url_truthy. simpl.
  destruct (String.eqb url "") eqn:E; [|reflexivity].
  apply String.eqb_eq in E. contradiction.
Qed.

(** The handler never lets an exception out. *)
Lemma submit_returns c : returned (submit R c) = true.
Proof.
  unfold submit, run, handleSaveItem, try_catch.
  match goal with |- context [match ?b ?w with _ => _ end] => destruct (b w) end;
    reflexivity.
Qed.

End Saving.

Section Editing.
Variable R : Remote.
Import Action.

(** An edit whose upload fails goes on to the update, with the image
    reference the item had. *)
Lemma submit_edit_upload_failed c editing file :
  Page.editingItem c = Some editing ->
  Page.imageFile c = Some file ->
  missingRequiredFields (Page.formData c) = false ->
  Spec.upload_fails R file (SupplyItem.id editing) ->
  let payload := databaseData (Page.formData c) (SupplyItem.imageUrl editing) in
  let before :=
    [ StorageUpload (filePath R file (SupplyItem.id editing)) file;
      ToastError "Failed to upload image";
      DbUpdate payload (SupplyItem.id editing) ] in
  submit R c
  = match update_select R payload (SupplyItem.id editing) with
    | Rejected =>
        Returned tt
          (mkWorld (Page.setUploadingImage false c)
             (before ++ [ToastError "Failed to save item"]))
    | Resolved _ (Some _) =>
        Returned tt
          (mkWorld (Page.setUploadingImage false c)
             (before ++ [ToastError "Failed to update item"]))
    | Resolved data None =>
        Returned tt
          (mkWorld
             (Page.mk
                (replaceById (updatedItemOf data (Page.formData c) editing)
                   (Page.items c))
                (Page.loading c) false false None SupplyItem.empty
                (Page.userRoles c) None None false)
             (before ++ [ToastSuccess "Item updated successfully!"]))
    end.
Proof.
  intros Hedit Hfile Hvalid Hup payload before.
  unfold submit, run, handleSaveItem, try_catch.
  rewrite Hvalid, Hedit, Hfile.
  unfold bind at 1. unfold bind at 1.
  rewrite (upload_fails_run R file _ _ Hup).
  cbn.
  fold payload.
  destruct (update_select R payload (SupplyItem.id editing)) as [|data [msg|]];
    cbn; destruct c; reflexivity.
Qed.

End Editing.

(** *** Running the handler case by case *)

Ltac settle_step :=
  match goal with
  | |- context [uploadImageToStorage ?R ?f ?i ?w] =>
      rewrite (uploadImageToStorage_run R f i w); cbv zeta
  | |- context [storage_upload ?R ?p ?f] =>
      destruct (storage_upload R p f) as [|[] [?|]] eqn:?
  | |- context [url_truthy None] => change (url_truthy None) with (@None string)
  | |- context [url_truthy (Some ?u)] => destruct (url_truthy (Some u)) eqn:?
  | |- context [update_select ?R ?p ?i] =>
      destruct (update_select R p i) as [|? [?|]] eqn:?
  | |- context [insert_select ?R ?p] =>
      destruct (insert_select R p) as [|[[|? ?]|] [?|]] eqn:?
  | |- context [update_image_url ?R ?u ?i] =>
      destruct (update_image_url R u i) as [|[] ?] eqn:?
  end.

Ltac settle_unfold :=
  progress
    (unfold Action.bind, toast_error, toast_success, closeAndReset,
       fetchItems_begin;
     cbn [await fst snd Action.ret Action.emit Action.modify Action.throw
          Action.state Action.trace Action.world_of app]).

Ltac settle :=
  unfold submit, Action.run, handleSaveItem, Action.try_catch;
  cbv zeta;
  repeat (first [ settle_step | settle_unfold ]).

Ltac open_page c :=
  destruct c as [its loading editOpen newOpen edited form roles image
                 preview uploading];
  unfold Spec.final, Spec.persistence_calls, Spec.succeeded,
    Spec.failure_surfaced;
  unfold submit, Action.run, handleSaveItem, Action.try_catch;
  cbv zeta;
  cbn [Page.formData Page.editingItem Page.imageFile Page.items
       Page.isEditModalOpen Page.isNewItemModalOpen].

Ltac page_fields :=
  cbn [Page.setItems Page.setUploadingImage Page.setIsEditModalOpen
       Page.setIsNewItemModalOpen Page.setFormData Page.setEditingItem
       Page.setImageFile Page.setImagePreview Page.setLoading Page.items
       Page.loading Page.isEditModalOpen Page.isNewItemModalOpen
       Page.editingItem Page.formData Page.userRoles Page.imageFile
       Page.imagePreview Page.uploadingImage Action.state Action.trace
       Action.world_of Action.returned].

Ltac no_such_event H :=
  exfalso; clear - H; cbn in H;
  repeat (destruct H as [H | H]; [discriminate H|]); exact H.

Lemma replaceById_length u l : length (replaceById u l) = length l.
Proof. unfold replaceById. apply length_map. Qed.

Lemma replaceById_lookup u (l : list SupplyItem.t) n i :
  l !! n = Some i ->
  replaceById u l !! n
  = Some (if strict_eq (SupplyItem.id i) (SupplyItem.id u) then u else i).
Proof.
  revert n. induction l as [|x l IH]; intros [|n] H; try discriminate.
  - injection H as ->. reflexivity.
  - apply (IH n H).
Qed.

Section Collection.
Variable R : Remote.

(** C7, as the code has it: after a submit that reported success, in
    update mode the collection is the old one where every entry under
    the updated item's identity is replaced by the updated item and every
    other entry is untouched, the updated item being the first row the
    store returned for the update or, without one, the draft merged over
    the item being edited under that item's identity; in create mode,
    when the store returned the inserted row, the new entry built from
    that row is prepended, and for a draft with no image, whose image
    reference is the placeholder, the request carries the placeholder and
    the prepended record shows it when the row comes back as it was
    sent; when the store returned no row for the insert, the collection
    is left as it is and reloaded from the store instead. *)
Theorem C7_success_patches_collection (c : Page.t) :
  Spec.succeeded (submit R c) ->
  match Page.editingItem c with
  | Some editing =>
      exists payload data,
        In (DbUpdate payload (SupplyItem.id editing))
           (Action.trace (Action.world_of (submit R c)))
        /\ update_select R payload (SupplyItem.id editing) = Resolved data None
        /\ let updatedItem := updatedItemOf data (Page.formData c) editing in
           updatedItem
           = match data with
             | Some (updatedRow :: _) =>
                 itemOfSavedRow updatedRow
                   (Js.or (Row.image_url updatedRow) placeholder)
             | _ => itemOfForm (Page.formData c) editing
             end
           /\ SupplyItem.id updatedItem
              = match data with
                | Some (updatedRow :: _) => Row.id updatedRow
                | _ => SupplyItem.id editing
                end
           /\ Page.items (Spec.final (submit R c))
              = replaceById updatedItem (Page.items c)
           /\ length (Page.items (Spec.final (submit R c)))
              = length (Page.items c)
           /\ (forall n i,
                 Page.items c !! n = Some i ->
                 strict_eq (SupplyItem.id i) (SupplyItem.id updatedItem) = true ->
                 Page.items (Spec.final (submit R c)) !! n = Some updatedItem)
           /\ (forall n i,
                 Page.items c !! n = Some i ->
                 strict_eq (SupplyItem.id i) (SupplyItem.id updatedItem) = false ->
                 Page.items (Spec.final (submit R c)) !! n = Some i)
  | None =>
      exists payload data,
        In (DbInsert payload) (Action.trace (Action.world_of (submit R c)))
        /\ insert_select R payload = Resolved data None
        /\ match data with
           | Some (newRow :: _) =>
               exists image,
                 Page.items (Spec.final (submit R c))
                 = itemOfSavedRow newRow image :: Page.items c
                 /\ SupplyItem.id (itemOfSavedRow newRow image) = Row.id newRow
                 /\ (Page.imageFile c = None ->
                     Row.image_url payload
                     = Js.or (SupplyItem.imageUrl (Page.formData c)) placeholder
                     /\ image = Js.or (Row.image_url newRow) placeholder
                     /\ (Js.or (SupplyItem.imageUrl (Page.formData c)) placeholder
                         = placeholder ->
                         Row.image_url newRow = Row.image_url payload ->
                         SupplyItem.imageUrl (itemOfSavedRow newRow image)
                         = placeholder))
           | _ =>
               Page.items (Spec.final (submit R c)) = Page.items c
               /\ In DbSelectAll (Action.trace (Action.world_of (submit R c)))
           end
  end.
Proof.
  open_page c.
  destruct (missingRequiredFields form) eqn:Hvalid,
    edited as [e|], image as [f|]; settle; page_fields;
    intros [message Hsuccess]; try (no_such_event Hsuccess).
  all: eexists _, _;
    (split; [cbn; repeat (first [left; reflexivity | right])|]);
    (split; [eassumption|]); cbv zeta; cbn beta iota.
  all: try (split; [reflexivity | cbn; tauto]).
  all: try (split; [unfold updatedItemOf; reflexivity|];
            split; [match goal with
                    | |- context [updatedItemOf ?d _ _] =>
                        destruct d as [[|? ?]|]; reflexivity
                    end|];
            split; [reflexivity|]; split; [apply replaceById_length|];
            split; intros n i Hat Hid;
            rewrite (replaceById_lookup _ _ _ _ Hat), Hid; reflexivity).
  all: eexists; (split; [reflexivity|]); (split; [reflexivity|]);
    intros Himage; try discriminate Himage;
    (split; [reflexivity|]); (split; [reflexivity|]);
    intros Hdraft Hback; cbn; rewrite Hback; cbn; now rewrite !Hdraft.
Qed.

End Collection.

Lemma C7_success_witness :
  Spec.succeeded (submit Sample.healthy Sample.creating)
  /\ Page.items (Spec.final (submit Sample.healthy Sample.creating))
     = itemOfSavedRow
         (Sample.stored (Str "d41c") (databaseData Sample.new_draft placeholder))
         placeholder
       :: Sample.shelf
  /\ Spec.succeeded
       (submit Sample.healthy
          (Sample.page Sample.shelf (Some Sample.gauze) Sample.gauze_draft None))
  /\ Page.items
       (Spec.final
          (submit Sample.healthy
             (Sample.page Sample.shelf (Some Sample.gauze) Sample.gauze_draft None)))
     = [Sample.gauze_draft; Sample.syringes; Sample.gloves].
Proof.
  assert (Hcreate : Spec.succeeded (submit Sample.healthy Sample.creating)).
  { exists "Item created successfully!". vm_compute. right. left. reflexivity. }
  assert (Hedit :
    Spec.succeeded
      (submit Sample.healthy
         (Sample.page Sample.shelf (Some Sample.gauze) Sample.gauze_draft None))).
  { exists "Item updated successfully!". vm_compute. right. left. reflexivity. }
  split; [exact Hcreate|]. split; [|split; [exact Hedit|]].
  - destruct (C7_success_patches_collection Sample.healthy Sample.creating Hcreate)
      as (payload & data & Hsent & Hreply & Hdata).
    destruct Hsent as [[= <-] | [Hsent | []]]; [|discriminate Hsent].
    injection Hreply as <-.
    destruct Hdata as (image & Hitems & _ & Hplain).
    destruct (Hplain eq_refl) as (_ & -> & _). exact Hitems.
  - destruct (C7_success_patches_collection Sample.healthy
                (Sample.page Sample.shelf (Some Sample.gauze) Sample.gauze_draft None)
                Hedit)
      as (payload & data & Hsent & Hreply & Hitem).
    destruct Hsent as [[= <-] | [Hsent | []]]; [|discriminate Hsent].
    injection Hreply as <-.
    exact (proj1 (proj2 (proj2 Hitem))).
Defined.

(** C7 as worded fails when the store accepts an insert without returning
    the row: the submit reports success, nothing is prepended, and the
    collection is reloaded instead. *)
Lemma C7_insert_without_row_not_prepended :
  Spec.succeeded (submit Sample.silent_writes Sample.creating)
  /\ Page.items (Spec.final (submit Sample.silent_writes Sample.creating))
     = Page.items Sample.creating
  /\ ~ Spec.patched_in_place Sample.silent_writes Sample.creating.
Proof.
  split; [|split].
  - exists "Item created successfully!". vm_compute. right. right. left. reflexivity.
  - reflexivity.
  - unfold Spec.patched_in_place. cbn [Page.editingItem Sample.creating Sample.page].
    intros [newItem H]. apply (f_equal (@length _)) in H. vm_compute in H.
    discriminate H.
Qed.

Section CreateWithImage.
Variable R : Remote.

(** C1, as the code has it: in create mode with an image attached, when
    the draft passes the required-field test, the insert returns the new
    row, the upload succeeds with a usable address and the patch is
    accepted, the handler inserts the record with the placeholder image,
    then uploads the image under the returned identity, then patches the
    record with the uploaded address; the prepended record carries that
    address and the store saw exactly two writes, the insert and then
    the update. *)
Theorem C1_create_then_patch (c : Page.t) (file : File)
    (newRow : Row.t) (others : list Row.t) (url : string) :
  let draft := Page.formData c in
  let createData :=
    Row.with_image_url placeholder
      (databaseData draft (Js.or (SupplyItem.imageUrl draft) placeholder)) in
  Page.editingItem c = None ->
  Page.imageFile c = Some file ->
  missingRequiredFields draft = false ->
  insert_select R createData = Resolved (Some (newRow :: others)) None ->
  Spec.upload_succeeds R file (Row.id newRow) url ->
  update_image_url R (Str url) (Row.id newRow) = Resolved tt None ->
  Action.trace (Action.world_of (submit R c))
  = [ DbInsert createData;
      StorageUpload (filePath R file (Row.id newRow)) file;
      DbUpdateImageUrl (Str url) (Row.id newRow);
      ToastSuccess "Item created successfully!" ]
  /\ Spec.persistence_calls (submit R c)
     = [ DbInsert createData; DbUpdateImageUrl (Str url) (Row.id newRow) ]
  /\ Row.image_url createData = placeholder
  /\ (truthy (Row.id newRow) = true ->
      fileName (filePath R file (Row.id newRow))
      = ItemKeyed (Row.id newRow) (Date_now R)
          (JsString.extension (file_name file)))
  /\ Page.items (Spec.final (submit R c))
     = itemOfSavedRow newRow (Str url) :: Page.items c
  /\ SupplyItem.imageUrl (itemOfSavedRow newRow (Str url)) = Str url
  /\ Spec.create_then_patch R c.
Proof.
  intros draft createData Hcreate Hfile Hvalid Hinsert Hupload Hpatch.
  assert (Hrun :
    submit R c
    = Action.Returned tt
        (Action.mkWorld
           (Page.mk (itemOfSavedRow newRow (Str url) :: Page.items c)
              (Page.loading c) false false None SupplyItem.empty
              (Page.userRoles c) None None false)
           [ DbInsert createData;
             StorageUpload (filePath R file (Row.id newRow)) file;
             DbUpdateImageUrl (Str url) (Row.id newRow);
             ToastSuccess "Item created successfully!" ])).
  { subst draft createData. destruct c; cbn in *. subst.
    unfold submit, Action.run, handleSaveItem, Action.try_catch. cbv zeta.
    cbn [Page.formData Page.editingItem Page.imageFile].
    rewrite Hvalid. settle_unfold. rewrite Hinsert. settle_unfold.
    rewrite (upload_succeeds_run R _ _ _ _ Hupload).
    rewrite (url_truthy_nonempty url (proj2 (proj2 Hupload))).
    settle_unfold. rewrite Hpatch. reflexivity. }
  assert (Hkeyed : truthy (Row.id newRow) = true ->
                   fileName (filePath R file (Row.id newRow))
                   = ItemKeyed (Row.id newRow) (Date_now R)
                       (JsString.extension (file_name file))).
  { intros Hid. unfold filePath. rewrite Hid. reflexivity. }
  unfold Spec.create_then_patch, Spec.persistence_calls, Spec.final.
  rewrite Hrun. cbn [Action.world_of Action.trace Action.state Page.items].
  repeat split; try reflexivity; try exact Hkeyed.
  exists createData, (Row.id newRow), file, url, (itemOfSavedRow newRow (Str url)).
  repeat split; try reflexivity; try assumption.
  apply Hupload.
Qed.

End CreateWithImage.

Lemma C1_create_then_patch_witness :
  Spec.upload_succeeds Sample.healthy Sample.photo (Str "d41c")
    "https://cdn.example/medical-supplies/d41c.jpg"
  /\ Spec.create_then_patch Sample.healthy Sample.creating_with_photo
  /\ Spec.persistence_calls (submit Sample.healthy Sample.creating_with_photo)
     = [ DbInsert (databaseData Sample.new_draft placeholder);
         DbUpdateImageUrl (Str "https://cdn.example/medical-supplies/d41c.jpg")
           (Str "d41c") ].
Proof.
  assert (Hup : Spec.upload_succeeds Sample.healthy Sample.photo (Str "d41c")
                  "https://cdn.example/medical-supplies/d41c.jpg").
  { repeat split. discriminate. }
  pose proof (C1_create_then_patch Sample.healthy Sample.creating_with_photo
                Sample.photo
                (Sample.stored (Str "d41c") (databaseData Sample.new_draft placeholder))
                [] "https://cdn.example/medical-supplies/d41c.jpg"
                eq_refl eq_refl eq_refl eq_refl Hup eq_refl)
    as [_ [Hcalls [_ [_ [_ [_ Hclaim]]]]]].
  split; [exact Hup|]. split; [exact Hclaim | exact Hcalls].
Defined.

(** C1 as worded fails when the object store refuses the upload: the
    record is inserted with the placeholder, no patch follows, and the
    record keeps the placeholder. *)
Lemma C1_refused_upload_leaves_one_write :
  Page.editingItem Sample.creating_with_photo = None
  /\ Page.imageFile Sample.creating_with_photo = Some Sample.photo
  /\ Spec.persistence_calls
       (submit Sample.upload_refused Sample.creating_with_photo)
     = [ DbInsert (databaseData Sample.new_draft placeholder) ]
  /\ ~ Spec.create_then_patch Sample.upload_refused Sample.creating_with_photo.
Proof.
  repeat split.
  intros (payload & newId & file & url & item & _ & _ & Htrace & _).
  vm_compute in Htrace. discriminate Htrace.
Qed.

Section EditFlows.
Variable R : Remote.

(** C4: in edit mode with an image attached, when the upload fails the
    update is still sent, carrying the image reference the item had
    before the edit, and it is the only write; when the store accepts it
    the submit completes as a successful update, and the record shown
    keeps the pre-edit image reference, whether the store returns the row
    it stored or no row at all. *)
Theorem C4_failed_upload_keeps_image (c : Page.t) (editing : SupplyItem.t)
    (file : File) :
  let draft := Page.formData c in
  let payload := databaseData draft (SupplyItem.imageUrl editing) in
  Page.editingItem c = Some editing ->
  Page.imageFile c = Some file ->
  missingRequiredFields draft = false ->
  Spec.upload_fails R file (SupplyItem.id editing) ->
  Row.image_url payload = SupplyItem.imageUrl editing
  /\ Spec.persistence_calls (submit R c)
     = [ DbUpdate payload (SupplyItem.id editing) ]
  /\ forall data,
       update_select R payload (SupplyItem.id editing) = Resolved data None ->
       let updatedItem := updatedItemOf data draft editing in
       Action.trace (Action.world_of (submit R c))
       = [ StorageUpload (filePath R file (SupplyItem.id editing)) file;
           ToastError "Failed to upload image";
           DbUpdate payload (SupplyItem.id editing);
           ToastSuccess "Item updated successfully!" ]
       /\ Page.items (Spec.final (submit R c))
          = replaceById updatedItem (Page.items c)
       /\ (forall row others,
             data = Some (row :: others) ->
             Row.image_url row = Row.image_url payload ->
             truthy (SupplyItem.imageUrl editing) = true ->
             SupplyItem.imageUrl updatedItem = SupplyItem.imageUrl editing)
       /\ (data = None \/ data = Some [] ->
           SupplyItem.imageUrl draft = SupplyItem.imageUrl editing ->
           SupplyItem.imageUrl updatedItem = SupplyItem.imageUrl editing).
Proof.
  intros draft payload Hedit Hfile Hvalid Hup.
  pose proof (submit_edit_upload_failed R c editing file Hedit Hfile Hvalid Hup)
    as Hrun.
  cbv zeta in Hrun. fold draft in Hrun. fold payload in Hrun.
  split; [reflexivity|]. split.
  - unfold Spec.persistence_calls. rewrite Hrun.
    destruct (update_select R payload (SupplyItem.id editing)) as [|data [msg|]];
      reflexivity.
  - intros data Hupdate updatedItem. unfold Spec.final.
    rewrite Hrun, Hupdate. cbn [Action.world_of Action.trace Action.state Page.items app].
    split; [reflexivity|]. split; [reflexivity|]. split.
    + intros row others -> Hrow Htruthy. unfold updatedItem. cbn.
      rewrite Hrow. cbn. unfold Js.or. now rewrite Htruthy.
    + intros Hnone Hsame. unfold updatedItem.
      assert (Hform : updatedItemOf data draft editing = itemOfForm draft editing)
        by (destruct Hnone as [-> | ->]; reflexivity).
      rewrite Hform. cbn. rewrite Hsame. now destruct (SupplyItem.imageUrl editing).
Qed.

(** C10: in edit mode, when the update sent to the store is accepted but
    returns no row, the entry shown is rebuilt from the form over the item
    being edited: it keeps the item's identity, every field the draft
    sets takes the draft's value, and every field the draft leaves unset
    keeps the value it had before the edit. *)
Theorem C10_update_without_row_merges_draft (c : Page.t)
    (editing : SupplyItem.t) (payload : Row.t) (data : option (list Row.t)) :
  let draft := Page.formData c in
  let merged := itemOfForm draft editing in
  Page.editingItem c = Some editing ->
  In (DbUpdate payload (SupplyItem.id editing))
     (Action.trace (Action.world_of (submit R c))) ->
  update_select R payload (SupplyItem.id editing) = Resolved data None ->
  data = None \/ data = Some [] ->
  Page.items (Spec.final (submit R c)) = replaceById merged (Page.items c)
  /\ SupplyItem.id merged = SupplyItem.id editing
  /\ Forall
       (fun field =>
          field merged
          = if nullish (field draft) then field editing else field draft)
       SupplyItem.fields.
Proof.
  intros draft merged Hedit Hsent Hupdate Hnone.
  assert (Hvalid : missingRequiredFields draft = false).
  { destruct (missingRequiredFields draft) eqn:Hmissing; [|reflexivity].
    rewrite (submit_missing R c Hmissing) in Hsent. no_such_event Hsent. }
  split; [|split].
  - subst draft merged. revert Hedit Hvalid Hsent. open_page c.
    intros -> ->. destruct image as [f|]; settle; page_fields; intros Hsent;
      repeat (destruct Hsent as [Hsent | Hsent]; [try discriminate Hsent|]);
      try contradiction;
      injection Hsent as <-;
      match goal with
      | H : update_select R _ _ = _ |- _ =>
          rewrite Hupdate in H; try discriminate H; injection H as <-
      end;
      destruct Hnone as [-> | ->]; reflexivity.
  - reflexivity.
  - assert (Hname : truthy (SupplyItem.name draft) = true).
    { unfold missingRequiredFields in Hvalid.
      destruct (truthy (SupplyItem.name draft)); [reflexivity | discriminate]. }
    unfold SupplyItem.fields, merged, itemOfForm.
    repeat constructor; cbn [SupplyItem.name SupplyItem.description
      SupplyItem.lotNumber SupplyItem.expiresOn SupplyItem.quantity
      SupplyItem.imageUrl SupplyItem.isExpired SupplyItem.typeOfSupply
      SupplyItem.palletLocation SupplyItem.company
      SupplyItem.cardboardBoxesPerPallet SupplyItem.unitBoxesPerCardboard
      SupplyItem.unitsPerBox SupplyItem.weightPerCardboardBox
      SupplyItem.dimensionsCardboardBox SupplyItem.costPerUnitBox
      SupplyItem.costPerCardboardBox SupplyItem.relevantLink
      SupplyItem.otherNotes];
      try apply JsFacts.coalesce_nullish.
    unfold Js.or. rewrite Hname.
    destruct (SupplyItem.name draft); try reflexivity; discriminate.
Qed.

End EditFlows.

Lemma C4_failed_upload_witness :
  Spec.upload_fails Sample.upload_refused Sample.photo (Str "7f3a")
  /\ Spec.persistence_calls
       (submit Sample.upload_refused Sample.editing_with_photo)
     = [ DbUpdate
           (databaseData Sample.gauze_draft
              (Str "https://cdn.example/gauze-old.png"))
           (Str "7f3a") ]
  /\ Page.items
       (Spec.final (submit Sample.upload_refused Sample.editing_with_photo))
     = [ Sample.gauze_draft; Sample.syringes; Sample.gloves ].
Proof.
  assert (Hup : Spec.upload_fails Sample.upload_refused Sample.photo (Str "7f3a")).
  { right. exists "Bucket not found". reflexivity. }
  pose proof (C4_failed_upload_keeps_image Sample.upload_refused
                Sample.editing_with_photo Sample.gauze Sample.photo
                eq_refl eq_refl eq_refl Hup) as [_ [Hcalls Hdone]].
  split; [exact Hup|]. split; [exact Hcalls|].
  exact (proj1 (proj2 (Hdone _ eq_refl))).
Defined.

Lemma C10_update_without_row_witness :
  In (DbUpdate (databaseData Sample.sparse_draft placeholder) (Str "7f3a"))
     (Action.trace
        (Action.world_of (submit Sample.silent_writes Sample.editing_sparse)))
  /\ Page.items
       (Spec.final (submit Sample.silent_writes Sample.editing_sparse))
     = [ itemOfForm Sample.sparse_draft Sample.gauze;
         Sample.syringes; Sample.gloves ]
  /\ SupplyItem.quantity (itemOfForm Sample.sparse_draft Sample.gauze) = Js.int 8
  /\ SupplyItem.company (itemOfForm Sample.sparse_draft Sample.gauze)
     = Str "Medline".
Proof.
  assert (Hsent :
    In (DbUpdate (databaseData Sample.sparse_draft placeholder) (Str "7f3a"))
       (Action.trace
          (Action.world_of (submit Sample.silent_writes Sample.editing_sparse)))).
  { left. reflexivity. }
  pose proof (C10_update_without_row_merges_draft Sample.silent_writes
                Sample.editing_sparse Sample.gauze
                (databaseData Sample.sparse_draft placeholder) (Some [])
                eq_refl Hsent eq_refl (or_intror eq_refl)) as [Hitems _].
  split; [exact Hsent|]. split; [exact Hitems|]. split; reflexivity.
Defined.

(** ** Failures of the store *)

Section Failures.
Variable R : Remote.

(** A refused insert leaves the collection and the modals as they were
    and tells the user. *)
Lemma refused_insert_is_contained c payload :
  (forall data, insert_select R payload <> Resolved data None) ->
  In (DbInsert payload) (Action.trace (Action.world_of (submit R c))) ->
  Spec.failure_contained R c.
Proof.
  intros Hbad. unfold Spec.failure_contained. open_page c.
  destruct (missingRequiredFields form) eqn:Hvalid,
    edited as [e|], image as [f|]; settle; page_fields; intros Hsent;
    repeat (destruct Hsent as [Hsent | Hsent]; [try discriminate Hsent|]);
    try contradiction; injection Hsent as <-;
    try (exfalso; eapply Hbad; eassumption);
    (split; [reflexivity|]); (split; [|now repeat split]);
    eexists; cbn; eauto 10.
Qed.

(** So does a refused update. *)
Lemma refused_update_is_contained c payload id :
  (forall data, update_select R payload id <> Resolved data None) ->
  In (DbUpdate payload id) (Action.trace (Action.world_of (submit R c))) ->
  Spec.failure_contained R c.
Proof.
  intros Hbad. unfold Spec.failure_contained. open_page c.
  destruct (missingRequiredFields form) eqn:Hvalid,
    edited as [e|], image as [f|]; settle; page_fields; intros Hsent;
    repeat (destruct Hsent as [Hsent | Hsent]; [try discriminate Hsent|]);
    try contradiction; injection Hsent as <- <-;
    try (exfalso; eapply Hbad; eassumption);
    (split; [reflexivity|]); (split; [|now repeat split]);
    eexists; cbn; eauto 10.
Qed.

End Failures.

(** C2 at the image patch of the create flow: the store refuses the patch,
    yet the new record is prepended with the uploaded address, the user is
    told the item was created, no failure is shown and the modal closes. *)
Theorem C2_refused_image_patch_goes_unreported :
  let c := Sample.creating_with_photo in
  let o := submit Sample.patch_refused c in
  let url := Str "https://cdn.example/medical-supplies/d41c.jpg" in
  In (DbUpdateImageUrl url (Str "d41c")) (Action.trace (Action.world_of o))
  /\ update_image_url Sample.patch_refused url (Str "d41c")
     = Resolved tt (Some "new row violates row-level security policy")
  /\ Page.items (Spec.final o)
     = itemOfSavedRow
         (Sample.stored (Str "d41c") (databaseData Sample.new_draft placeholder))
         url
       :: Page.items c
  /\ Spec.notices o = [ ToastSuccess "Item created successfully!" ]
  /\ Page.isNewItemModalOpen c = true
  /\ Page.isNewItemModalOpen (Spec.final o) = false
  /\ ~ Spec.failure_contained Sample.patch_refused c.
Proof.
  cbv zeta. split; [vm_compute; tauto|]. repeat (split; [reflexivity|]).
  intros [Hitems _]. apply (f_equal (@length _)) in Hitems.
  vm_compute in Hitems. discriminate Hitems.
Qed.

(** ** Role assignment *)

Module AdminFacts.
Import Admin.

Lemma includes_In xs x : includes xs x = true <-> In x xs.
Proof.
  unfold includes. rewrite existsb_exists. split.
  - intros [y [Hin Heq]]. apply String.eqb_eq in Heq. now subst.
  - intros Hin. exists x. split; [exact Hin | apply String.eqb_refl].
Qed.

Lemma includes_not_In xs x : includes xs x = false <-> ~ In x xs.
Proof.
  rewrite <- includes_In. destruct (includes xs x); split; congruence.
Qed.

Lemma assignRole_assigned userId roleName prev u :
  In u (assignRole userId roleName prev) ->
  user_id u = userId ->
  roles u = [roleName].
Proof.
  unfold assignRole. rewrite in_map_iff. intros [v [Hv _]] Hid.
  destruct (String.eqb (user_id v) userId) eqn:E; subst u; [reflexivity|].
  apply String.eqb_neq in E. contradiction.
Qed.

Lemma assignRole_others userId roleName (prev : list AdminUserRow) n u :
  prev !! n = Some u ->
  user_id u <> userId ->
  assignRole userId roleName prev !! n = Some u.
Proof.
  revert n. induction prev as [|v prev IH]; intros [|n] H Hid; try discriminate.
  - injection H as ->. cbn. apply String.eqb_neq in Hid. now rewrite Hid.
  - apply (IH n H Hid).
Qed.

Lemma assignRole_length userId roleName prev :
  length (assignRole userId roleName prev) = length prev.
Proof. apply length_map. Qed.

Section Saving.
Variable rpc : string -> string -> Reply unit.
Import Action.

Lemma saveRole_accepted c userId roleName :
  pendingRole c !! userId = Some roleName ->
  roleName <> "" ->
  rpc userId roleName = Resolved tt None ->
  saveRole rpc c userId
  = Returned tt
      (mkWorld
         (mkState (assignRole userId roleName (users c)) (pendingRole c)
            (<[userId := false]> (<[userId := true]> (saving c))))
         [ RpcSetSingleRole userId roleName; ToastSuccess "Role updated" ]).
Proof.
  intros Hpending Hname Hrpc.
  unfold saveRole, run, handleSaveRole. rewrite Hpending.
  assert (Htruthy : truthy (Str roleName) = true).
  { cbn. destruct (String.eqb roleName "") eqn:E; [|reflexivity].
    apply String.eqb_eq in E. contradiction. }
  rewrite Htruthy. unfold try_finally, try_catch, bind. cbn.
  rewrite Hrpc. reflexivity.
Qed.

Lemma saveRole_users c userId :
  users (state (world_of (saveRole rpc c userId))) = users c
  \/ exists roleName,
       pendingRole c !! userId = Some roleName
       /\ rpc userId roleName = Resolved tt None.
Proof.
  unfold saveRole, run, handleSaveRole.
  destruct (pendingRole c !! userId) as [roleName|] eqn:Hpending;
    [|left; reflexivity].
  destruct (truthy (Str roleName)); [|left; reflexivity].
  unfold try_finally, try_catch, bind. cbn.
  destruct (rpc userId roleName) as [|[] [message|]] eqn:Hrpc;
    [left; reflexivity | left; reflexivity |].
  right. now exists roleName.
Qed.

End Saving.
End AdminFacts.

(** C8: the current role of a row is the first of "admin", "volunteer",
    "visitor" found among its roles; when the role chosen for a user is
    accepted by the remote procedure, every row of that user holds exactly
    that one role and the other rows are untouched; the rows change only
    when the remote procedure accepted a chosen role. *)
Theorem C8_role_precedence_and_single_role
    (rpc : string -> string -> Reply unit) (c : Admin.State) (userId : string) :
  let after := Admin.users (Action.state (Action.world_of (Admin.saveRole rpc c userId))) in
  (forall row,
      (In "admin" (Admin.roles row) -> Admin.currentRoleOf row = "admin")
      /\ (~ In "admin" (Admin.roles row) -> In "volunteer" (Admin.roles row) ->
          Admin.currentRoleOf row = "volunteer")
      /\ (~ In "admin" (Admin.roles row) -> ~ In "volunteer" (Admin.roles row) ->
          In "visitor" (Admin.roles row) ->
          Admin.currentRoleOf row = "visitor"))
  /\ (forall roleName,
        Admin.pendingRole c !! userId = Some roleName ->
        roleName <> "" ->
        rpc userId roleName = Resolved tt None ->
        after = Admin.assignRole userId roleName (Admin.users c)
        /\ length after = length (Admin.users c)
        /\ (forall u, In u after -> Admin.user_id u = userId ->
                      Admin.roles u = [roleName])
        /\ (forall n u, Admin.users c !! n = Some u ->
                        Admin.user_id u <> userId -> after !! n = Some u))
  /\ (after = Admin.users c
      \/ exists roleName,
           Admin.pendingRole c !! userId = Some roleName
           /\ rpc userId roleName = Resolved tt None).
Proof.
  intros after. split; [|split].
  - intros row. unfold Admin.currentRoleOf. repeat split.
    + intros H. apply AdminFacts.includes_In in H. now rewrite H.
    + intros Ha Hv. apply AdminFacts.includes_not_In in Ha.
      apply AdminFacts.includes_In in Hv. now rewrite Ha, Hv.
    + intros Ha Hv Hs. apply AdminFacts.includes_not_In in Ha, Hv.
      apply AdminFacts.includes_In in Hs. now rewrite Ha, Hv, Hs.
  - intros roleName Hpending Hname Hrpc. unfold after.
    rewrite (AdminFacts.saveRole_accepted rpc c userId roleName Hpending Hname Hrpc).
    cbn [Action.world_of Action.state Admin.users].
    split; [reflexivity|]. split; [apply AdminFacts.assignRole_length|]. split.
    + intros u. apply AdminFacts.assignRole_assigned.
    + intros n u. apply AdminFacts.assignRole_others.
  - apply AdminFacts.saveRole_users.
Qed.

Lemma C8_role_precedence_witness :
  Admin.currentRoleOf Sample.volunteer_admin = "admin"
  /\ Admin.users
       (Action.state
          (Action.world_of (Admin.saveRole Sample.rpc_ok Sample.admin_page "u-17")))
     = [ Admin.mkRow "u-17" "dana@example.org" ["visitor"]; Sample.visitor_only ]
  /\ Admin.users
       (Action.state
          (Action.world_of
             (Admin.saveRole Sample.rpc_denied Sample.admin_page "u-17")))
     = Admin.users Sample.admin_page.
Proof.
  pose proof (C8_role_precedence_and_single_role Sample.rpc_ok
                Sample.admin_page "u-17") as [Hrole [Hset _]].
  pose proof (C8_role_precedence_and_single_role Sample.rpc_denied
                Sample.admin_page "u-17") as [_ [_ Honly]].
  split; [|split].
  - apply (proj1 (Hrole Sample.volunteer_admin)). right. left. reflexivity.
  - apply (proj1 (Hset "visitor" eq_refl ltac:(discriminate) eq_refl)).
  - destruct Honly as [H | [roleName [_ H]]]; [exact H | discriminate H].
Defined.

(** * Further properties *)

(** ** Loading the collection *)

Section Loading.
Variable R : Remote.
Import Action.

Lemma toViewModel_has_image row : App.has_image (toViewModel row).
Proof.
  unfold App.has_image, toViewModel. cbn. unfold Js.or.
  destruct (truthy (Row.image_url row)) eqn:E; [exact E | reflexivity].
Qed.

(** X1: when the store answers the load with rows, the collection becomes
    those rows in the same order, one item per row under the row's
    identity, each with a non-empty image reference and expiry date; the
    previous collection is discarded and loading ends. *)
Theorem X1_fetchItems_mirrors_rows (s : Page.t) (row : Row.t) (rows : list Row.t) :
  select_all R = Resolved (Some (row :: rows)) None ->
  let after := state (world_of (run (fetchItems R) s)) in
  Page.items after = List.map toViewModel (row :: rows)
  /\ length (Page.items after) = length (row :: rows)
  /\ List.map SupplyItem.id (Page.items after) = List.map Row.id (row :: rows)
  /\ Forall (fun item => truthy (SupplyItem.imageUrl item) = true
                         /\ truthy (SupplyItem.expiresOn item) = true)
            (Page.items after)
  /\ Page.loading after = false
  /\ trace (world_of (run (fetchItems R) s)) = [DbSelectAll].
Proof.
  intros Hrows after.
  assert (Hitems : Page.items after = List.map toViewModel (row :: rows)).
  { unfold after, run, fetchItems, fetchItems_begin, fetchItems_resume,
      try_finally, try_catch, bind. cbn. rewrite Hrows. reflexivity. }
  split; [exact Hitems|]. rewrite Hitems.
  split; [apply length_map|]. split; [|split; [|split]].
  - rewrite map_map. reflexivity.
  - apply List.Forall_forall. intros item Hin. apply in_map_iff in Hin as [r [<- _]].
    split; [apply toViewModel_has_image|].
    cbn. unfold Js.or. destruct (truthy (Row.expires_on r)) eqn:E; [exact E | reflexivity].
  - unfold after, run, fetchItems, fetchItems_begin, fetchItems_resume,
      try_finally, try_catch, bind. cbn. rewrite Hrows. reflexivity.
  - unfold run, fetchItems, fetchItems_begin, fetchItems_resume,
      try_finally, try_catch, bind. cbn. rewrite Hrows. reflexivity.
Qed.

(** X2: a load never throws and always ends with the loading flag
    cleared; when the store reports an error or the call rejects, the
    collection is left as it was and the user is told; when the store
    answers with no rows, the collection is emptied. *)
Theorem X2_fetchItems_failure_keeps_collection (s : Page.t) :
  let o := run (fetchItems R) s in
  returned o = true
  /\ Page.loading (state (world_of o)) = false
  /\ ((forall data, select_all R <> Resolved data None) ->
      Page.items (state (world_of o)) = Page.items s
      /\ exists message, In (ToastError message) (trace (world_of o)))
  /\ (select_all R = Resolved None None \/ select_all R = Resolved (Some []) None ->
      Page.items (state (world_of o)) = []).
Proof.
  unfold run, fetchItems, fetchItems_begin, fetchItems_resume,
    try_finally, try_catch, bind. cbn.
  destruct (select_all R) as [|[[|row rows]|] [message|]] eqn:Hreply; cbn;
    (split; [reflexivity|]); (split; [reflexivity|]); split;
    try (intros [H | H]; try discriminate H; reflexivity);
    intros Hbad; try (exfalso; now apply (Hbad _ eq_refl));
    (split; [reflexivity|]); eexists; cbn; eauto.
Qed.

End Loading.

Lemma X1_fetchItems_witness :
  select_all Scene.one_row = Resolved (Some [Sample.bare_row]) None
  /\ Page.items
       (Action.state
          (Action.world_of (Action.run (fetchItems Scene.one_row) Sample.creating)))
     = [Spec.defaulted (Str "7f3a") Null].
Proof.
  split; [reflexivity|].
  exact (proj1 (X1_fetchItems_mirrors_rows Scene.one_row Sample.creating
                  Sample.bare_row [] eq_refl)).
Defined.

Lemma X2_fetchItems_witness :
  (forall data, select_all Scene.unreachable <> Resolved data None)
  /\ Page.items
       (Action.state
          (Action.world_of
             (Action.run (fetchItems Scene.unreachable) Sample.creating)))
     = Sample.shelf.
Proof.
  assert (Hbad : forall data, select_all Scene.unreachable <> Resolved data None).
  { intros data H. discriminate H. }
  split; [exact Hbad|].
  exact (proj1 (proj1 (proj2 (proj2 (X2_fetchItems_failure_keeps_collection
                                       Scene.unreachable Sample.creating)))
                  Hbad)).
Defined.

(** ** Round trips between rows and items *)

Lemma or_or a d : Js.or (Js.or a d) d = Js.or a d.
Proof.
  unfold Js.or at 2 3. destruct (truthy a) eqn:E.
  - unfold Js.or. now rewrite E.
  - unfold Js.or. now destruct (truthy d).
Qed.

Lemma or_truthy a d : truthy a = true -> Js.or a d = a.
Proof. intros H. unfold Js.or. now rewrite H. Qed.

(** X3: an item read from a row, written back as a storage payload and
    read again from the row the store keeps for it, is the same item:
    the defaults applied on read survive the write. *)
Theorem X3_read_write_read (row : Row.t) :
  let item := toViewModel row in
  toViewModel
    (Sample.stored (SupplyItem.id item)
       (databaseData item (SupplyItem.imageUrl item)))
  = item.
Proof.
  destruct row. unfold toViewModel, databaseData, Sample.stored. cbn.
  rewrite !or_or. reflexivity.
Qed.

Section Unedited.
Variable R : Remote.
Import Action.

Lemma replaceById_same item (items : list SupplyItem.t) :
  (forall i, In i items ->
             strict_eq (SupplyItem.id i) (SupplyItem.id item) = true -> i = item) ->
  replaceById item items = items.
Proof.
  intros Hunique. unfold replaceById. induction items as [|i rest IH]; [reflexivity|].
  cbn. rewrite IH by (intros j Hj; apply Hunique; now right).
  destruct (strict_eq (SupplyItem.id i) (SupplyItem.id item)) eqn:E; [|reflexivity].
  now rewrite (Hunique i (or_introl eq_refl) E).
Qed.

(** X4: opening an item for edit and saving it untouched changes nothing
    in the collection: for an item as it was loaded, whose required fields
    are filled, when the store accepts the update and returns the row it
    stored, the item comes back as it was, and a collection that holds
    no other entry under its identity is left exactly as it was. *)
Theorem X4_saving_unedited_item_is_identity (s : App.State) (row : Row.t) :
  let item := toViewModel row in
  let opened :=
    App.page (state (world_of (run (App.openEditModal s item) s))) in
  let payload := databaseData item (SupplyItem.imageUrl item) in
  canManage (Page.userRoles (App.page s)) = true ->
  missingRequiredFields item = false ->
  update_select R payload (SupplyItem.id item)
  = Resolved (Some [Sample.stored (SupplyItem.id item) payload]) None ->
  Spec.persistence_calls (submit R opened) = [DbUpdate payload (SupplyItem.id item)]
  /\ Page.items (Spec.final (submit R opened))
     = replaceById item (Page.items (App.page s))
  /\ ((forall i, In i (Page.items (App.page s)) ->
                 strict_eq (SupplyItem.id i) (SupplyItem.id item) = true ->
                 i = item) ->
      Page.items (Spec.final (submit R opened)) = Page.items (App.page s)).
Proof.
  intros item opened payload Hmanage Hvalid Hstore.
  assert (Himage : Js.or (SupplyItem.imageUrl item) placeholder
                   = SupplyItem.imageUrl item).
  { apply or_truthy, toViewModel_has_image. }
  assert (Hback : itemOfSavedRow (Sample.stored (SupplyItem.id item) payload)
                    (Js.or (Row.image_url (Sample.stored (SupplyItem.id item) payload))
                       placeholder) = item).
  { subst payload item. destruct row.
    unfold toViewModel, databaseData, Sample.stored, itemOfSavedRow. cbn.
    rewrite !or_or. f_equal.
    unfold Js.or at 1. set (e := Js.or expires_on (Str "2025-12-31")).
    assert (He : truthy e = true).
    { unfold e, Js.or. destruct (truthy expires_on) eqn:E; [exact E | reflexivity]. }
    now rewrite He. }
  assert (Hrun :
    submit R opened
    = Returned tt
        (mkWorld
           (Page.mk (replaceById item (Page.items (App.page s)))
              (Page.loading (App.page s)) false false None SupplyItem.empty
              (Page.userRoles (App.page s)) None None
              (Page.uploadingImage (App.page s)))
           [DbUpdate payload (SupplyItem.id item);
            ToastSuccess "Item updated successfully!"])).
  { clearbody item. subst opened payload. unfold run, App.openEditModal.
    rewrite Hmanage. unfold submit, run, handleSaveItem, try_catch.
    cbn [bind modify ret state trace world_of App.onPage App.page
         App.setIsItemModalOpen Page.setEditingItem Page.setFormData
         Page.setImageFile Page.setImagePreview Page.setIsEditModalOpen
         Page.formData Page.imageFile Page.editingItem negb].
    cbv zeta. rewrite Hvalid, Himage.
    unfold bind, toast_success, closeAndReset.
    cbn [await emit modify ret state trace fst snd]. rewrite Hstore.
    unfold bind. cbn [await emit modify ret state trace fst snd updatedItemOf].
    rewrite Hback. destruct s as [[] ? ?]. reflexivity. }
  unfold Spec.persistence_calls, Spec.final. rewrite Hrun.
  cbn [world_of state trace Page.items].
  split; [reflexivity|]. split; [reflexivity|].
  apply replaceById_same.
Qed.

End Unedited.

Lemma X4_saving_unedited_witness :
  let s := App.mk (Sample.page Sample.shelf None SupplyItem.empty None)
             (Some Sample.gauze) true in
  let row := Sample.stored (Str "7f3a")
               (databaseData Sample.gauze (SupplyItem.imageUrl Sample.gauze)) in
  toViewModel row = Sample.gauze
  /\ Page.items
       (Spec.final
          (submit Sample.healthy
             (App.page
                (Action.state
                   (Action.world_of
                      (Action.run (App.openEditModal s Sample.gauze) s))))))
     = Sample.shelf.
Proof.
  intros s row. split; [reflexivity|].
  refine (proj2 (proj2 (X4_saving_unedited_item_is_identity Sample.healthy s row
                          eq_refl eq_refl eq_refl)) _).
  intros i Hin Hid. cbn in Hin.
  destruct Hin as [<- | [<- | [<- | []]]]; [reflexivity | discriminate Hid | discriminate Hid].
Defined.

(** ** More on the list filter *)

Section FilterMore.
Variables searchQuery typeFilter : string.


Lemma filterItems_filter expiredFilter items :
  Forall SupplyItem.has_string_keys items ->
  filterItems items searchQuery expiredFilter typeFilter
  = Some (List.filter (View.kept searchQuery expiredFilter typeFilter) items).
Proof.
  induction 1 as [|item rest Hitem _ IH]; [reflexivity|].
  destruct (keeps_spec searchQuery expiredFilter typeFilter item Hitem)
    as [b [Hb _]].
  cbn. unfold View.kept at 1. rewrite Hb, IH. reflexivity.
Qed.

Lemma has_string_keys_filter f items :
  Forall SupplyItem.has_string_keys items ->
  Forall SupplyItem.has_string_keys (List.filter f items).
Proof.
  intros H. apply List.Forall_forall. intros i Hi.
  apply filter_In in Hi as [Hi _].
  exact (proj1 (List.Forall_forall _ _) H i Hi).
Qed.

Lemma filter_filter_same {A} (f : A -> bool) l :
  List.filter f (List.filter f l) = List.filter f l.
Proof.
  induction l as [|x l IH]; [reflexivity|]. cbn.
  destruct (f x) eqn:E; [|exact IH]. cbn. now rewrite E, IH.
Qed.

(** X5: filtering what the filter has shown, with the same query and
    filters, shows the same list again. *)
Theorem X5_filter_is_idempotent (items shown : list SupplyItem.t)
    (expiredFilter : string) :
  Forall SupplyItem.has_string_keys items ->
  filterItems items searchQuery expiredFilter typeFilter = Some shown ->
  filterItems shown searchQuery expiredFilter typeFilter = Some shown.
Proof.
  intros Hkeys Hshown.
  rewrite (filterItems_filter expiredFilter items Hkeys) in Hshown.
  injection Hshown as <-.
  rewrite filterItems_filter by now apply has_string_keys_filter.
  now rewrite filter_filter_same.
Qed.

Lemma kept_expiry_split i :
  SupplyItem.has_string_keys i ->
  View.kept searchQuery "all" typeFilter i
  = View.kept searchQuery "expired" typeFilter i || View.kept searchQuery "not-expired" typeFilter i
  /\ View.kept searchQuery "expired" typeFilter i && View.kept searchQuery "not-expired" typeFilter i = false.
Proof.
  intros Hi. unfold View.kept, keeps.
  destruct (matchesText_spec searchQuery i Hi) as [t [-> _]].
  unfold matchesExpiry. cbn.
  destruct t, (truthy (SupplyItem.isExpired i)), (matchesType typeFilter i);
    split; reflexivity.
Qed.

(** X6: under one query and one category filter, the items shown as
    "expired" and the items shown as "not-expired" split the items shown
    under "all" in two: no item is in both lists, every item of "all" is
    in one of them, and their lengths add up. *)
Theorem X6_expiry_filter_partitions (items : list SupplyItem.t) :
  Forall SupplyItem.has_string_keys items ->
  exists every expired active,
    filterItems items searchQuery "all" typeFilter = Some every
    /\ filterItems items searchQuery "expired" typeFilter = Some expired
    /\ filterItems items searchQuery "not-expired" typeFilter = Some active
    /\ length expired + length active = length every
    /\ (forall i, In i every <-> In i expired \/ In i active)
    /\ (forall i, In i expired -> In i active -> False).
Proof.
  intros Hkeys. eexists _, _, _.
  rewrite !filterItems_filter by exact Hkeys.
  split; [reflexivity|]. split; [reflexivity|]. split; [reflexivity|].
  split; [|split].
  - induction Hkeys as [|i rest Hi _ IH]; [reflexivity|].
    destruct (kept_expiry_split i Hi) as [Hall Hnot]. cbn. rewrite Hall.
    destruct (View.kept searchQuery "expired" typeFilter i), (View.kept searchQuery "not-expired" typeFilter i);
      try discriminate Hnot; cbn; lia.
  - intros i. rewrite !filter_In. split.
    + intros [Hin Hk].
      destruct (kept_expiry_split i (proj1 (List.Forall_forall _ _) Hkeys i Hin))
        as [Hall _].
      rewrite Hall in Hk. apply orb_true_iff in Hk. tauto.
    + intros [[Hin Hk] | [Hin Hk]];
        destruct (kept_expiry_split i (proj1 (List.Forall_forall _ _) Hkeys i Hin))
          as [Hall _];
        (split; [exact Hin|]); rewrite Hall, Hk; [reflexivity | apply orb_true_r].
  - intros i Hexp Hact. apply filter_In in Hexp as [Hin Hexp].
    apply filter_In in Hact as [_ Hact].
    destruct (kept_expiry_split i (proj1 (List.Forall_forall _ _) Hkeys i Hin))
      as [_ Hnot].
    rewrite Hexp, Hact in Hnot. discriminate Hnot.
Qed.

(** X7: a stored row without a name loads, but once it is in the
    collection every query that is not blank makes the filter throw,
    whatever the other rows and filters are; a blank query still goes
    through. *)
Theorem X7_nameless_row_breaks_search (rows : list Row.t)
    (expiredFilter : string) :
  Exists (fun row => nullish (Row.name row) = true) rows ->
  (JsString.all_space searchQuery = false ->
   filterItems (List.map toViewModel rows) searchQuery expiredFilter typeFilter
   = None)
  /\ (JsString.all_space searchQuery = true ->
      filterItems (List.map toViewModel rows) searchQuery "all" "all"
      = Some (List.map toViewModel rows)).
Proof.
  intros Hnameless. split.
  - intros Hquery.
    assert (Htrim : String.eqb (JsString.trim searchQuery) "" = false).
    { apply not_true_is_false. intros H. apply String.eqb_eq in H.
      apply JsStringFacts.trim_empty in H. unfold Spec.blank in H. congruence. }
    induction Hnameless as [row rest Hrow | row rest _ IH]; cbn.
    + unfold keeps, matchesText. rewrite Htrim. cbn.
      destruct (Row.name row); try discriminate Hrow; reflexivity.
    + rewrite IH. now destruct (keeps _ _ _ _).
  - intros Hquery. apply JsStringFacts.trim_empty in Hquery.
    induction (List.map toViewModel rows) as [|i rest IH]; [reflexivity|].
    cbn. unfold keeps, matchesText. rewrite Hquery, IH. reflexivity.
Qed.

End FilterMore.

Lemma X5_filter_witness :
  Forall SupplyItem.has_string_keys Sample.shelf
  /\ filterItems Sample.shelf "g" "not-expired" "all"
     = Some [Sample.gauze; Sample.gloves]
  /\ filterItems [Sample.gauze; Sample.gloves] "g" "not-expired" "all"
     = Some [Sample.gauze; Sample.gloves].
Proof.
  assert (Hkeys : Forall SupplyItem.has_string_keys Sample.shelf).
  { repeat constructor; eexists; reflexivity. }
  assert (Hshown : filterItems Sample.shelf "g" "not-expired" "all"
                   = Some [Sample.gauze; Sample.gloves]) by reflexivity.
  split; [exact Hkeys|]. split; [exact Hshown|].
  exact (X5_filter_is_idempotent "g" "all" Sample.shelf _ "not-expired" Hkeys Hshown).
Defined.

Lemma X6_expiry_witness :
  Forall SupplyItem.has_string_keys Sample.shelf
  /\ exists every expired active,
       filterItems Sample.shelf "" "all" "all" = Some every
       /\ filterItems Sample.shelf "" "expired" "all" = Some expired
       /\ filterItems Sample.shelf "" "not-expired" "all" = Some active
       /\ length expired + length active = length every
       /\ (forall i, In i every <-> In i expired \/ In i active)
       /\ (forall i, In i expired -> In i active -> False).
Proof.
  assert (Hkeys : Forall SupplyItem.has_string_keys Sample.shelf).
  { repeat constructor; eexists; reflexivity. }
  split; [exact Hkeys|].
  exact (X6_expiry_filter_partitions "" "all" Sample.shelf Hkeys).
Defined.

Lemma X7_nameless_witness :
  Exists (fun row => nullish (Row.name row) = true) [Sample.bare_row]
  /\ filterItems (List.map toViewModel [Sample.bare_row]) "gau" "all" "all" = None
  /\ filterItems (List.map toViewModel [Sample.bare_row]) " " "all" "all"
     = Some [Spec.defaulted (Str "7f3a") Null].
Proof.
  assert (H : Exists (fun row => nullish (Row.name row) = true) [Sample.bare_row]).
  { left. reflexivity. }
  destruct (X7_nameless_row_breaks_search "gau" "all" [Sample.bare_row] "all" H)
    as [Hthrow _].
  destruct (X7_nameless_row_breaks_search " " "all" [Sample.bare_row] "all" H)
    as [_ Hblank].
  split; [exact H|]. split; [exact (Hthrow eq_refl) | exact (Hblank eq_refl)].
Defined.

(** ** Naming the uploaded object *)

Module ExtensionFacts.
Import JsString.

Lemma append_empty s : (s ++ "")%string = s.
Proof.
  induction s as [|c r IH]; [reflexivity|].
  change (String c (r ++ "")%string = String c r). now rewrite IH.
Qed.

Lemma append_assoc a b c : ((a ++ b) ++ c)%string = (a ++ b ++ c)%string.
Proof.
  induction a as [|x a IH]; [reflexivity|].
  change (String x ((a ++ b) ++ c)%string = String x (a ++ b ++ c)%string).
  now rewrite IH.
Qed.

Lemma rev_onto_append a b : rev_onto a b = (reverse a ++ b)%string.
Proof.
  unfold reverse. revert b. induction a as [|c a IH]; intros b; [reflexivity|].
  cbn. rewrite (IH (String c b)), (IH (String c "")), append_assoc. reflexivity.
Qed.

Lemma dotless_rev_onto a b :
  View.dotless (rev_onto a b) = View.dotless a && View.dotless b.
Proof.
  revert b. induction a as [|c a IH]; intros b; [reflexivity|].
  cbn. rewrite IH. cbn.
  destruct (Ascii.eqb c "."), (View.dotless a); reflexivity.
Qed.

Lemma last_segment_spec s acc :
  View.dotless acc = true ->
  View.dotless (last_segment s acc) = true
  /\ (View.dotless s = true -> last_segment s acc = (reverse acc ++ s)%string)
  /\ (View.dotless s = false ->
      exists stem, s = (stem ++ "." ++ last_segment s acc)%string).
Proof.
  revert acc. induction s as [|c r IH]; intros acc Hacc.
  - cbn. split; [|split].
    + unfold reverse. now rewrite dotless_rev_onto, Hacc.
    + intros _. now rewrite append_empty.
    + discriminate.
  - cbn [last_segment View.dotless]. destruct (Ascii.eqb c ".") eqn:Hc.
    + apply Ascii.eqb_eq in Hc. subst c.
      destruct (IH "" eq_refl) as [Hdot [Hwhole Hstem]].
      split; [exact Hdot|]. split; [discriminate|]. intros _.
      destruct (View.dotless r) eqn:Hr.
      * exists "". rewrite (Hwhole eq_refl). reflexivity.
      * destruct (Hstem eq_refl) as [stem Hs]. exists (String "." stem).
        exact (f_equal (String ".") Hs).
    + assert (Hacc' : View.dotless (String c acc) = true)
        by (cbn; now rewrite Hc, Hacc).
      destruct (IH (String c acc) Hacc') as [Hdot [Hwhole Hstem]].
      split; [exact Hdot|]. cbn [negb andb]. split.
      * intros Hr. rewrite (Hwhole Hr). unfold reverse.
        change (rev_onto (String c acc) "") with (rev_onto acc (String c "")).
        rewrite (rev_onto_append acc (String c "")), append_assoc. reflexivity.
      * intros Hr. destruct (Hstem Hr) as [stem Hs]. exists (String c stem).
        exact (f_equal (String c) Hs).
Qed.

End ExtensionFacts.

(** X8: the extension given to an uploaded object is what follows the
    last dot of the file's name, so it never holds a dot itself; a name
    without any dot is taken whole as the extension. *)
Theorem X8_extension_is_last_segment (name : string) :
  View.dotless (JsString.extension name) = true
  /\ (View.dotless name = true -> JsString.extension name = name)
  /\ (View.dotless name = false ->
      exists stem, name = (stem ++ "." ++ JsString.extension name)%string).
Proof.
  unfold JsString.extension.
  destruct (ExtensionFacts.last_segment_spec name "" eq_refl) as [H1 [H2 H3]].
  split; [exact H1|]. split; [|exact H3]. intros Hname. now rewrite (H2 Hname).
Qed.

Lemma X8_extension_witness :
  JsString.extension "scan" = "scan"
  /\ exists stem, "shield.front.JPG" = (stem ++ "." ++ "JPG")%string.
Proof.
  destruct (X8_extension_is_last_segment "scan") as [_ [Hwhole _]].
  destruct (X8_extension_is_last_segment "shield.front.JPG") as [_ [_ Hstem]].
  split; [exact (Hwhole eq_refl) | exact (Hstem eq_refl)].
Defined.

Section Upload.
Variable R : Remote.
Import Action.

(** X9: an upload never throws; it leaves the page as it was except for
    the uploading flag, which is cleared when it ends; it asks the object
    store once, under the item's identity when that is known and under a
    temporary name otherwise, both in the [medical-supplies] folder; it
    returns the public address when the store accepts the file, and
    [null] with a notice when the store reports an error or the call
    rejects. *)
Theorem X9_upload_settles (file : File) (itemId : Value) (w : World Page.t Event) :
  let o := uploadImageToStorage R file itemId w in
  let path := filePath R file itemId in
  returned o = true
  /\ state (world_of o) = Page.setUploadingImage false (state w)
  /\ folder path = "medical-supplies"
  /\ fileName path
     = (if truthy itemId
        then ItemKeyed itemId (Date_now R) (JsString.extension (file_name file))
        else Temporary (Date_now R) (Math_random_suffix R)
               (JsString.extension (file_name file)))
  /\ match storage_upload R path file with
     | Resolved _ None =>
         o = Returned (Some (getPublicUrl R path))
               (mkWorld (Page.setUploadingImage false (state w))
                  (trace w ++ [StorageUpload path file]))
     | _ =>
         o = Returned None
               (mkWorld (Page.setUploadingImage false (state w))
                  (trace w ++ [StorageUpload path file;
                               ToastError "Failed to upload image"]))
     end.
Proof.
  intros o path. subst o. rewrite uploadImageToStorage_run. cbv zeta. fold path.
  assert (Hflag : Page.setUploadingImage false
                    (Page.setUploadingImage true (state w))
                  = Page.setUploadingImage false (state w)) by reflexivity.
  rewrite Hflag.
  destruct (storage_upload R path file) as [|[] [message|]];
    cbn [returned world_of state];
    repeat split; try reflexivity; now rewrite <- app_assoc.
Qed.

End Upload.

(** ** What a save does and does not send *)

Section SaveBounds.
Variable R : Remote.

(** X10: a save whose draft fails the required-field test reaches the
    backend with nothing; otherwise an edit makes exactly one write, the
    update of the item being edited, and a create makes the insert of a
    row without identity, followed by at most one write more, the image
    patch, and only when an image is attached; a save uploads at most one
    file, and none when no image is attached. *)
Theorem X10_save_write_bounds (c : Page.t) :
  let sent := Action.trace (Action.world_of (submit R c)) in
  let writes := Spec.persistence_calls (submit R c) in
  (if missingRequiredFields (Page.formData c)
   then List.filter View.is_remote sent = []
   else
     match Page.editingItem c with
     | Some editing => exists payload, writes = [DbUpdate payload (SupplyItem.id editing)]
     | None =>
         exists payload,
           Row.id payload = Undefined
           /\ (writes = [DbInsert payload]
               \/ exists url id,
                    Page.imageFile c <> None
                    /\ writes = [DbInsert payload; DbUpdateImageUrl url id])
     end)
  /\ length (List.filter View.is_upload sent) <= 1
  /\ (Page.imageFile c = None -> List.filter View.is_upload sent = []).
Proof.
  open_page c.
  destruct (missingRequiredFields form) eqn:Hvalid,
    edited as [e|], image as [f|]; settle; page_fields;
    (split; [|split; [cbn; lia | intros H; try discriminate H; reflexivity]]);
    try reflexivity;
    try (eexists; reflexivity);
    eexists;
    (split;
     [|first [ left; reflexivity
             | right; eexists _, _; split; [discriminate | reflexivity] ]]);
    reflexivity.
Qed.

(** X11: every save either tells the user it succeeded, or tells the
    user it failed and leaves the page as it was - collection, draft,
    item being edited, attached image and modals - apart from the
    uploading flag, which an attempted upload leaves cleared. *)
Theorem X11_failed_save_keeps_draft (c : Page.t) :
  Spec.succeeded (submit R c)
  \/ (Spec.failure_surfaced (submit R c)
      /\ (Spec.final (submit R c) = c
          \/ Spec.final (submit R c) = Page.setUploadingImage false c)).
Proof.
  open_page c.
  destruct (missingRequiredFields form) eqn:Hvalid,
    edited as [e|], image as [f|]; settle; page_fields;
    first [ left; eexists; cbn; solve [eauto 10]
          | right; split; [eexists; cbn; solve [eauto 10]|];
            first [ left; reflexivity | right; reflexivity ] ].
Qed.

(** X12: a save that reports success closes both modals and clears the
    draft, the item being edited, the attached image and its preview, so
    that saving again right away is stopped by the required-field test
    and sends nothing. *)
Theorem X12_successful_save_resets_form (c : Page.t) (R' : Remote) :
  Spec.succeeded (submit R c) ->
  let after := Spec.final (submit R c) in
  Page.isEditModalOpen after = false
  /\ Page.isNewItemModalOpen after = false
  /\ Page.formData after = SupplyItem.empty
  /\ Page.editingItem after = None
  /\ Page.imageFile after = None
  /\ Page.imagePreview after = None
  /\ Action.trace (Action.world_of (submit R' after))
     = [ToastError "Please fill in all required fields"].
Proof.
  intros Hsuccess after.
  assert (Hreset : Page.isEditModalOpen after = false
                   /\ Page.isNewItemModalOpen after = false
                   /\ Page.formData after = SupplyItem.empty
                   /\ Page.editingItem after = None
                   /\ Page.imageFile after = None
                   /\ Page.imagePreview after = None).
  { subst after. revert Hsuccess. open_page c.
    destruct (missingRequiredFields form) eqn:Hvalid,
      edited as [e|], image as [f|]; settle; page_fields;
      intros [message Hsuccess]; try (no_such_event Hsuccess);
      repeat split. }
  destruct Hreset as (H1 & H2 & H3 & H4 & H5 & H6).
  repeat (split; [assumption|]).
  rewrite (submit_missing R' after); [reflexivity|]. now rewrite H3.
Qed.

End SaveBounds.

Lemma X12_successful_save_witness :
  Spec.succeeded (submit Sample.healthy Sample.creating_with_photo)
  /\ Page.formData
       (Spec.final (submit Sample.healthy Sample.creating_with_photo))
     = SupplyItem.empty
  /\ Action.trace
       (Action.world_of
          (submit Sample.healthy
             (Spec.final (submit Sample.healthy Sample.creating_with_photo))))
     = [ToastError "Please fill in all required fields"].
Proof.
  assert (H : Spec.succeeded (submit Sample.healthy Sample.creating_with_photo)).
  { exists "Item created successfully!". vm_compute. tauto. }
  destruct (X12_successful_save_resets_form Sample.healthy
              Sample.creating_with_photo Sample.healthy H)
    as (_ & _ & Hform & _ & _ & _ & Hagain).
  split; [exact H|]. split; [exact Hform | exact Hagain].
Defined.

Lemma X10_save_write_bounds_witness :
  Page.imageFile Sample.creating = None
  /\ List.filter View.is_upload
       (Action.trace (Action.world_of (submit Sample.healthy Sample.creating)))
     = [].
Proof.
  split; [reflexivity|].
  destruct (X10_save_write_bounds Sample.healthy Sample.creating)
    as (_ & _ & Hnone).
  exact (Hnone eq_refl).
Defined.

(** ** The form *)

Section FormEdits.
Import Action.

Lemma setField_reads field value d key read :
  In (key, read) Form.keys ->
  read (Form.setField field value d)
  = if String.eqb field key then value else read d.
Proof.
  unfold Form.keys. intros Hin.
  repeat (destruct Hin as [[= <- <-] | Hin]; [reflexivity|]).
  destruct Hin.
Qed.

Lemma setField_commutes f g v w d :
  f <> g ->
  Form.setField f v (Form.setField g w d) = Form.setField g w (Form.setField f v d).
Proof.
  intros Hfg. unfold Form.setField. cbn.
  f_equal;
    match goal with
    | |- context [String.eqb f ?k] =>
        destruct (String.eqb_spec f k), (String.eqb_spec g k);
          try reflexivity; congruence
    end.
Qed.

(** X13: an edit of one form field changes the draft at that key and
    nowhere else, touches nothing but the draft and sends nothing; edits
    of two different fields give the same draft in either order, and of
    two edits of one field the later one wins. *)
Theorem X13_field_edits_are_independent (field : string) (value : Value)
    (s : Page.t) :
  let o := run (Form.handleInputChange field value) s in
  let after := state (world_of o) in
  (forall key read,
      In (key, read) Form.keys ->
      read (Page.formData after)
      = if String.eqb field key then value else read (Page.formData s))
  /\ after = Page.setFormData (Page.formData after) s
  /\ trace (world_of o) = []
  /\ (forall other value',
        other <> field ->
        Form.setField other value' (Page.formData after)
        = Form.setField field value
            (Form.setField other value' (Page.formData s)))
  /\ (forall earlier,
        Form.setField field value
          (Form.setField field earlier (Page.formData s))
        = Page.formData after).
Proof.
  cbn. split; [|split; [|split; [|split]]].
  - intros key read. apply setField_reads.
  - now destruct s.
  - reflexivity.
  - intros other value' Hother. now apply setField_commutes.
  - intros earlier. unfold Form.setField. cbn.
    f_equal;
      match goal with
      | |- context [String.eqb field ?k] =>
          destruct (String.eqb field k); reflexivity
      end.
Qed.

Lemma acceptable_dec file :
  App.acceptable file
  <-> JsString.startsWith (file_type file) "image/" = true
      /\ (Form.maxImageSize <? file_size file)%N = false.
Proof.
  unfold App.acceptable. rewrite N.ltb_ge. tauto.
Qed.

Lemma handleImageChange_cases (file0 : option File) (s : Page.t) :
  let o := run (Form.handleImageChange file0) s in
  returned o = true
  /\ List.filter View.is_remote (trace (world_of o)) = []
  /\ match file0 with
     | None => state (world_of o) = s /\ trace (world_of o) = []
     | Some file =>
         (App.acceptable file ->
          state (world_of o) = Page.setImageFile (Some file) s
          /\ trace (world_of o) = [])
         /\ (~ App.acceptable file ->
             state (world_of o) = s
             /\ exists message, trace (world_of o) = [ToastError message])
     end.
Proof.
  destruct file0 as [file|]; [|now repeat split].
  unfold run, Form.handleImageChange.
  destruct (JsString.startsWith (file_type file) "image/") eqn:Htype;
    [destruct (Form.maxImageSize <? file_size file)%N eqn:Hsize|]; cbn;
    (split; [reflexivity|]); (split; [reflexivity|]); split;
    try (intros Hok; apply acceptable_dec in Hok as [Ht Hs]; congruence);
    try (intros _; split; [reflexivity | eexists; reflexivity]);
    try (intros _; split; reflexivity).
  intros Hbad. exfalso. apply Hbad, acceptable_dec. now split.
Qed.

(** X14: choosing a file never reaches the backend; a file that declares
    an image type and is at most 5 MiB large - exactly 5 MiB included -
    becomes the attached image; any other file is refused with a notice
    and the page, a previously attached image included, stays as it
    was; choosing no file does nothing. *)
Theorem X14_image_choice_is_checked (file0 : option File) (s : Page.t) :
  let o := run (Form.handleImageChange file0) s in
  returned o = true
  /\ List.filter View.is_remote (trace (world_of o)) = []
  /\ match file0 with
     | None => state (world_of o) = s /\ trace (world_of o) = []
     | Some file =>
         (App.acceptable file ->
          state (world_of o) = Page.setImageFile (Some file) s
          /\ trace (world_of o) = [])
         /\ (~ App.acceptable file ->
             state (world_of o) = s
             /\ exists message, trace (world_of o) = [ToastError message])
     end.
Proof. exact (handleImageChange_cases file0 s). Qed.

End FormEdits.

Lemma X14_image_choice_witness :
  App.acceptable (mkFile "scan.png" "image/png" 5242880)
  /\ ~ App.acceptable (mkFile "scan.png" "image/png" 5242881)
  /\ ~ App.acceptable (mkFile "notes.pdf" "application/pdf" 1024)
  /\ Page.imageFile
       (Action.state
          (Action.world_of
             (Action.run
                (Form.handleImageChange (Some (mkFile "scan.png" "image/png" 5242880)))
                Sample.creating)))
     = Some (mkFile "scan.png" "image/png" 5242880)
  /\ Action.state
       (Action.world_of
          (Action.run
             (Form.handleImageChange (Some (mkFile "scan.png" "image/png" 5242881)))
             Sample.creating_with_photo))
     = Sample.creating_with_photo.
Proof.
  assert (Hok : App.acceptable (mkFile "scan.png" "image/png" 5242880)).
  { split; [reflexivity | discriminate]. }
  assert (Hbig : ~ App.acceptable (mkFile "scan.png" "image/png" 5242881)).
  { intros [_ H]. now apply H. }
  assert (Hpdf : ~ App.acceptable (mkFile "notes.pdf" "application/pdf" 1024)).
  { intros [H _]. discriminate H. }
  split; [exact Hok|]. split; [exact Hbig|]. split; [exact Hpdf|]. split.
  - destruct (X14_image_choice_is_checked
                (Some (mkFile "scan.png" "image/png" 5242880)) Sample.creating)
      as [_ [_ [Haccept _]]].
    exact (f_equal Page.imageFile (proj1 (Haccept Hok))).
  - destruct (X14_image_choice_is_checked
                (Some (mkFile "scan.png" "image/png" 5242881))
                Sample.creating_with_photo)
      as [_ [_ [_ Hrefuse]]].
    exact (proj1 (Hrefuse Hbig)).
Defined.

Lemma X13_field_edits_witness :
  let after :=
    Action.state
      (Action.world_of
         (Action.run (Form.handleInputChange "name" (Str "Masks"))
            Sample.creating)) in
  In ("name", SupplyItem.name) Form.keys
  /\ SupplyItem.name (Page.formData after) = Str "Masks"
  /\ "quantity" <> "name"
  /\ Form.setField "quantity" (Js.int 4) (Page.formData after)
     = Form.setField "name" (Str "Masks")
         (Form.setField "quantity" (Js.int 4) (Page.formData Sample.creating)).
Proof.
  intros after.
  assert (Hkey : In ("name", SupplyItem.name) Form.keys)
    by (right; left; reflexivity).
  assert (Hother : "quantity" <> "name") by discriminate.
  destruct (X13_field_edits_are_independent "name" (Str "Masks")
              Sample.creating)
    as (Hread & _ & _ & Hcommute & _).
  split; [exact Hkey|]. split; [exact (Hread _ _ Hkey)|].
  split; [exact Hother|]. exact (Hcommute _ (Js.int 4) Hother).
Defined.

(** ** Opening the modals *)

Section Modals.
Variable R : Remote.
Import Action.

(** X15: when the role fetch fails, or returns neither "admin" nor
    "volunteer", the page that results opens neither the edit modal nor
    the new-item modal: both handlers leave the state as it is. *)
Theorem X15_modals_stay_shut_without_role (s : App.State)
    (session_user_id : Value) (item : SupplyItem.t) :
  let fetched :=
    App.onPage
      (fun p => state (world_of (run (fetchUserRoles R session_user_id) p))) s in
  (Spec.FetchFailure R session_user_id
   \/ canManage (Page.userRoles (App.page fetched)) = false) ->
  run (App.openEditModal fetched item) fetched = Returned tt (mkWorld fetched [])
  /\ run (App.openNewItemModal fetched) fetched = Returned tt (mkWorld fetched []).
Proof.
  intros fetched Hnone.
  assert (Hgate : canManage (Page.userRoles (App.page fetched)) = false).
  { destruct Hnone as [Hfail | Hgate]; [|exact Hgate].
    unfold fetched. cbn [App.onPage App.page].
    now rewrite (fetchUserRoles_failure R session_user_id (App.page s) Hfail). }
  unfold run, App.openEditModal, App.openNewItemModal. rewrite Hgate.
  split; reflexivity.
Qed.

(** X16: the draft the new-item modal opens with is refused by the
    required-field test, so saving it as it is sends nothing; once the
    name, the quantity, the category and the expiration date have been
    given non-empty values it passes, and the row it inserts carries
    those four values, the placeholder image and zero packaging counts. *)
Theorem X16_new_draft_must_be_filled (s : App.State)
    (name quantity typeOfSupply expiresOn : Value) :
  let opened := App.page (state (world_of (run (App.openNewItemModal s) s))) in
  let filled :=
    state
      (world_of
         (run
            (bind (Form.handleInputChange "name" name) (fun _ =>
             bind (Form.handleInputChange "quantity" quantity) (fun _ =>
             bind (Form.handleInputChange "typeOfSupply" typeOfSupply) (fun _ =>
             Form.handleInputChange "expiresOn" expiresOn))))
            opened)) in
  canManage (Page.userRoles (App.page s)) = true ->
  trace (world_of (submit R opened))
  = [ToastError "Please fill in all required fields"]
  /\ (truthy name = true -> truthy quantity = true ->
      truthy typeOfSupply = true -> truthy expiresOn = true ->
      missingRequiredFields (Page.formData filled) = false
      /\ exists payload more,
           trace (world_of (submit R filled)) = DbInsert payload :: more
           /\ Row.name payload = name
           /\ Row.quantity payload = quantity
           /\ Row.type_of_supply payload = typeOfSupply
           /\ Row.expires_on payload = expiresOn
           /\ Row.image_url payload = placeholder
           /\ Row.cardboard_boxes_per_pallet payload = Js.int 0
           /\ Row.unit_boxes_per_cardboard payload = Js.int 0
           /\ Row.units_per_box payload = Js.int 0).
Proof.
  intros opened filled Hmanage.
  assert (Hopened : opened
                    = Page.setIsNewItemModalOpen true
                        (Page.setImagePreview None
                           (Page.setImageFile None
                              (Page.setFormData App.blankForm
                                 (Page.setEditingItem None (App.page s)))))).
  { unfold opened, run, App.openNewItemModal. rewrite Hmanage. reflexivity. }
  split.
  - rewrite (submit_missing R opened); [reflexivity|]. now rewrite Hopened.
  - intros Hname Hquantity Htype Hexpires.
    set (draft :=
           SupplyItem.mk Undefined name (Str "") (Str "") expiresOn quantity
             (Str "/logo.png") (Bool false) typeOfSupply (Str "") (Str "")
             (Js.int 0) (Js.int 0) (Js.int 0) (Js.int 0) (Str "") (Js.int 0)
             (Js.int 0) (Str "") (Str "")).
    assert (Hfilled : filled
                      = Page.mk (Page.items (App.page s))
                          (Page.loading (App.page s))
                          (Page.isEditModalOpen (App.page s)) true None draft
                          (Page.userRoles (App.page s)) None None
                          (Page.uploadingImage (App.page s))).
    { unfold filled. rewrite Hopened. now destruct s as [[] ? ?]. }
    assert (Hvalid : missingRequiredFields draft = false).
    { unfold missingRequiredFields, draft. cbn.
      now rewrite Hname, Hquantity, Htype, Hexpires. }
    rewrite Hfilled. split; [exact Hvalid|].
    unfold submit, run, handleSaveItem, try_catch. cbv zeta.
    cbn [Page.formData Page.editingItem Page.imageFile].
    rewrite Hvalid. settle_unfold.
    match goal with
    | |- context [insert_select R ?p] =>
        destruct (insert_select R p) as [|[[|? ?]|] [?|]]
    end; settle_unfold; cbn [Action.world_of Action.trace app];
      eexists _, _; (split; [reflexivity|]);
      cbn; unfold Js.or; rewrite ?Hquantity; repeat split.
Qed.

End Modals.

Lemma X15_modals_witness :
  let s := App.mk Sample.creating None false in
  let fetched :=
    App.onPage
      (fun p =>
         Action.state
           (Action.world_of
              (Action.run (fetchUserRoles Scene.unreachable (Str "u-17")) p)))
      s in
  Spec.FetchFailure Scene.unreachable (Str "u-17")
  /\ Page.userRoles (App.page s) = [Str "volunteer"]
  /\ Action.run (App.openNewItemModal fetched) fetched
     = Action.Returned tt (Action.mkWorld fetched []).
Proof.
  intros s fetched.
  assert (Hfail : Spec.FetchFailure Scene.unreachable (Str "u-17")).
  { now apply Spec.UserRolesRejected. }
  split; [exact Hfail|]. split; [reflexivity|].
  exact (proj2 (X15_modals_stay_shut_without_role Scene.unreachable s
                  (Str "u-17") Sample.gauze (or_introl Hfail))).
Defined.

Lemma X16_new_draft_witness :
  let s := App.mk Sample.creating None false in
  let opened :=
    App.page
      (Action.state (Action.world_of (Action.run (App.openNewItemModal s) s))) in
  let filled :=
    Action.state
      (Action.world_of
         (Action.run
            (Action.bind (Form.handleInputChange "name" (Str "Masks")) (fun _ =>
             Action.bind (Form.handleInputChange "quantity" (Js.int 10)) (fun _ =>
             Action.bind (Form.handleInputChange "typeOfSupply" (Str "PPE")) (fun _ =>
             Form.handleInputChange "expiresOn" (Str "2027-03-01")))))
            opened)) in
  canManage (Page.userRoles (App.page s)) = true
  /\ Action.trace (Action.world_of (submit Sample.healthy opened))
     = [ToastError "Please fill in all required fields"]
  /\ missingRequiredFields (Page.formData filled) = false.
Proof.
  intros s opened filled.
  destruct (X16_new_draft_must_be_filled Sample.healthy s (Str "Masks")
              (Js.int 10) (Str "PPE") (Str "2027-03-01") eq_refl)
    as (Hrefused & Hfilled).
  split; [reflexivity|]. split; [exact Hrefused|].
  exact (proj1 (Hfilled eq_refl eq_refl eq_refl eq_refl)).
Defined.

(** ** What holds between two events *)

Module SettledFacts.
Import Action.








Lemma itemOfSavedRow_has_image row image :
  truthy image = true -> App.has_image (itemOfSavedRow row image).
Proof. intros H. exact H. Qed.









End SettledFacts.

Section Invariants.
Import Action.






End Invariants.






(** ** Deleting an item *)

Section Deleting.
Variable delete_eq : Value -> Reply unit.
Import Action.

Lemma removeById_sublist id (items : list SupplyItem.t) :
  App.removeById id items `sublist_of` items.
Proof.
  unfold App.removeById. induction items as [|i rest IH]; cbn; [constructor|].
  destruct (negb _); now constructor.
Qed.

Lemma deleteItem_accepted (s : App.State) (selected : SupplyItem.t) :
  App.selectedItem s = Some selected ->
  delete_eq (SupplyItem.id selected) = Resolved tt None ->
  App.deleteItem delete_eq s
  = Returned tt
      (mkWorld
         (App.mk
            (Page.setItems (App.removeById (SupplyItem.id selected)) (App.page s))
            None false)
         [App.DbDelete (SupplyItem.id selected);
          App.ToastSuccess "Item deleted successfully!"]).
Proof.
  intros Hsel Hreply. unfold App.deleteItem, run, App.handleDeleteItem.
  rewrite Hsel. unfold try_catch, bind. cbn. rewrite Hreply. reflexivity.
Qed.

(** X20: when the store accepts the deletion of the selected item, the
    collection loses exactly the entries under that item's identity and
    keeps the others in their order; nothing else on the page changes,
    the selection is cleared and the detail modal closes. *)
Theorem X20_delete_removes_by_id (s : App.State) (selected : SupplyItem.t) :
  App.selectedItem s = Some selected ->
  delete_eq (SupplyItem.id selected) = Resolved tt None ->
  let o := App.deleteItem delete_eq s in
  let after := state (world_of o) in
  trace (world_of o)
  = [App.DbDelete (SupplyItem.id selected);
     App.ToastSuccess "Item deleted successfully!"]
  /\ App.page after
     = Page.setItems (App.removeById (SupplyItem.id selected)) (App.page s)
  /\ Page.items (App.page after) `sublist_of` Page.items (App.page s)
  /\ (forall i, In i (Page.items (App.page after)) <->
                In i (Page.items (App.page s))
                /\ strict_eq (SupplyItem.id i) (SupplyItem.id selected) = false)
  /\ App.selectedItem after = None
  /\ App.isItemModalOpen after = false.
Proof.
  intros Hsel Hreply o after.
  unfold after, o. rewrite (deleteItem_accepted s selected Hsel Hreply). cbn [world_of state trace App.page
                                   App.selectedItem App.isItemModalOpen].
  split; [reflexivity|]. split; [reflexivity|].
  assert (Hitems : Page.items
                     (Page.setItems (App.removeById (SupplyItem.id selected))
                        (App.page s))
                   = App.removeById (SupplyItem.id selected)
                       (Page.items (App.page s))) by reflexivity.
  rewrite Hitems. split; [apply removeById_sublist|]. split; [|now split].
  intros i. unfold App.removeById. rewrite filter_In, negb_true_iff. tauto.
Qed.

(** X21: a deletion never throws; with nothing selected it tells the
    user and asks the store for nothing; when the store reports an error
    or the call rejects it tells the user and leaves the collection, the
    selection and the modal as they were. *)
Theorem X21_failed_delete_changes_nothing (s : App.State) :
  let o := App.deleteItem delete_eq s in
  returned o = true
  /\ match App.selectedItem s with
     | None =>
         o = Returned tt
               (mkWorld s [App.ToastError "No item selected for deletion"])
     | Some selected =>
         (forall u, delete_eq (SupplyItem.id selected) <> Resolved u None) ->
         o = Returned tt
               (mkWorld s [App.DbDelete (SupplyItem.id selected);
                           App.ToastError "Failed to delete item"])
     end.
Proof.
  unfold App.deleteItem, run, App.handleDeleteItem.
  destruct (App.selectedItem s) as [selected|]; [|now split].
  unfold try_catch, bind. cbn.
  destruct (delete_eq (SupplyItem.id selected)) as [|[] [message|]]; cbn;
    (split; [reflexivity|]); intros Hbad; try reflexivity.
  exfalso. now apply (Hbad tt).
Qed.

End Deleting.

Section CreateThenDelete.
Variable R : Remote.
Variable delete_eq : Value -> Reply unit.
Import Action.

Lemma removeById_absent id (items : list SupplyItem.t) :
  (forall i, In i items -> strict_eq (SupplyItem.id i) id = false) ->
  App.removeById id items = items.
Proof.
  intros Habsent. unfold App.removeById.
  induction items as [|i rest IH]; [reflexivity|]. cbn.
  rewrite (Habsent i (or_introl eq_refl)). cbn.
  now rewrite IH by (intros j Hj; apply Habsent; now right).
Qed.

(** X22: creating an item and then deleting it gives the collection
    back: when a save without image inserts a row that the store returns
    under an identity no entry of the collection has, and the new entry
    is then clicked and its deletion accepted, the collection is the one
    before the save. *)
Theorem X22_create_then_delete_restores (c : Page.t) (newRow : Row.t)
    (others : list Row.t) :
  let draft := Page.formData c in
  let createData :=
    Row.with_image_url (Js.or (SupplyItem.imageUrl draft) placeholder)
      (databaseData draft (Js.or (SupplyItem.imageUrl draft) placeholder)) in
  let newItem :=
    itemOfSavedRow newRow (Js.or (Row.image_url newRow) placeholder) in
  let created := Spec.final (submit R c) in
  let clicked :=
    state (world_of (run (App.handleItemClick newItem)
                       (App.mk created None false))) in
  Page.editingItem c = None ->
  Page.imageFile c = None ->
  missingRequiredFields draft = false ->
  insert_select R createData = Resolved (Some (newRow :: others)) None ->
  strict_eq (Row.id newRow) (Row.id newRow) = true ->
  (forall i, In i (Page.items c) ->
             strict_eq (SupplyItem.id i) (Row.id newRow) = false) ->
  delete_eq (Row.id newRow) = Resolved tt None ->
  Page.items created = newItem :: Page.items c
  /\ Page.items (App.page (state (world_of (App.deleteItem delete_eq clicked))))
     = Page.items c.
Proof.
  intros draft createData newItem created clicked
    Hcreate Himage Hvalid Hinsert Hself Hfresh Hdelete.
  assert (Hcreated : Page.items created = newItem :: Page.items c).
  { subst created draft createData newItem. revert Hcreate Himage Hvalid Hinsert.
    clear. open_page c. intros -> -> Hvalid Hinsert.
    rewrite Hvalid. settle_unfold. rewrite Hinsert. reflexivity. }
  split; [exact Hcreated|].
  rewrite (deleteItem_accepted delete_eq clicked newItem eq_refl Hdelete).
  cbn [world_of state App.page]. unfold clicked. cbn [run App.handleItemClick bind modify
    world_of state App.page App.setSelectedItem App.setIsItemModalOpen].
  assert (Hitems :
    Page.items (Page.setItems (App.removeById (SupplyItem.id newItem)) created)
    = App.removeById (SupplyItem.id newItem) (Page.items created)) by reflexivity.
  rewrite Hitems, Hcreated. unfold App.removeById at 1. cbn [List.filter].
  change (SupplyItem.id newItem) with (Row.id newRow). rewrite Hself. cbn [negb].
  now apply removeById_absent.
Qed.

End CreateThenDelete.

Lemma X20_delete_witness :
  let s := App.mk Sample.creating (Some Sample.syringes) true in
  App.selectedItem s = Some Sample.syringes
  /\ Page.items
       (App.page
          (Action.state
             (Action.world_of (App.deleteItem (fun _ => Resolved tt None) s))))
     = [Sample.gauze; Sample.gloves].
Proof.
  intros s. split; [reflexivity|].
  destruct (X20_delete_removes_by_id (fun _ => Resolved tt None) s
              Sample.syringes eq_refl eq_refl) as (_ & Hpage & _).
  exact (f_equal Page.items Hpage).
Defined.

Lemma X21_failed_delete_witness :
  let s := App.mk Sample.creating (Some Sample.syringes) true in
  (forall u, (fun _ : Value => @Rejected unit) (Str "b210") <> Resolved u None)
  /\ Action.state
       (Action.world_of (App.deleteItem (fun _ => Rejected) s)) = s.
Proof.
  intros s.
  assert (Hbad : forall u,
             (fun _ : Value => @Rejected unit) (Str "b210") <> Resolved u None).
  { intros u H. discriminate H. }
  split; [exact Hbad|].
  exact (f_equal (fun o => Action.state (Action.world_of o))
           (proj2 (X21_failed_delete_changes_nothing (fun _ => Rejected) s) Hbad)).
Defined.

Lemma X22_create_then_delete_witness :
  Page.items
    (App.page
       (Action.state
          (Action.world_of
             (App.deleteItem (fun _ => Resolved tt None)
                (Action.state
                   (Action.world_of
                      (Action.run
                         (App.handleItemClick
                            (itemOfSavedRow
                               (Sample.stored (Str "d41c")
                                  (databaseData Sample.new_draft placeholder))
                               placeholder))
                         (App.mk (Spec.final (submit Sample.healthy Sample.creating))
                            None false))))))))
  = Sample.shelf.
Proof.
  refine (proj2 (X22_create_then_delete_restores Sample.healthy
                   (fun _ => Resolved tt None) Sample.creating
                   (Sample.stored (Str "d41c")
                      (databaseData Sample.new_draft placeholder))
                   [] eq_refl eq_refl eq_refl eq_refl eq_refl _ eq_refl)).
  intros i Hin. cbn in Hin.
  destruct Hin as [<- | [<- | [<- | []]]]; reflexivity.
Defined.

(** ** The list of users *)

Module UsersFacts.

Lemma filter_sublist {A} (f : A -> bool) (l : list A) :
  List.filter f l `sublist_of` l.
Proof.
  induction l as [|x l IH]; cbn; [constructor|].
  destruct (f x); now constructor.
Qed.

Lemma toLowerCase_empty s : JsString.toLowerCase s = "" <-> s = "".
Proof. destruct s; cbn; split; congruence. Qed.

Lemma query_falsy searchQuery :
  truthy (Str (JsString.toLowerCase (JsString.trim searchQuery))) = false
  <-> Spec.blank searchQuery.
Proof.
  cbn. rewrite negb_false_iff, String.eqb_eq, toLowerCase_empty.
  apply JsStringFacts.trim_empty.
Qed.

Lemma currentRoleOf_cases u :
  Admin.currentRoleOf u = "admin" \/ Admin.currentRoleOf u = "volunteer"
  \/ Admin.currentRoleOf u = "visitor" \/ Admin.currentRoleOf u = "".
Proof.
  unfold Admin.currentRoleOf.
  destruct (Admin.includes _ "admin"); [tauto|].
  destruct (Admin.includes _ "volunteer"); [tauto|].
  destruct (Admin.includes _ "visitor"); tauto.
Qed.

End UsersFacts.

Section Users.
Variable users : list Admin.AdminUserRow.
Variable searchQuery : string.

(** X23: the users shown are a subsequence of the users loaded, in their
    order; a user is shown exactly when the query, with the white space
    around it dropped, is empty or occurs in the email ignoring case, and
    the role filter is "all", or is "uncategorized" and the user has no
    current role, or names the user's current role; a blank query under
    "all" shows every user. *)
Theorem X23_user_filter (roleFilter : string) :
  let q := JsString.toLowerCase (JsString.trim searchQuery) in
  AdminView.filteredUsers users searchQuery roleFilter `sublist_of` users
  /\ (forall u,
        In u (AdminView.filteredUsers users searchQuery roleFilter) <->
        In u users
        /\ (Spec.blank searchQuery
            \/ Spec.substring (JsString.toLowerCase (Admin.email u)) q)
        /\ (roleFilter = "all"
            \/ (roleFilter = "uncategorized" /\ Admin.currentRoleOf u = "")
            \/ (roleFilter <> "all" /\ roleFilter <> "uncategorized"
                /\ Admin.currentRoleOf u = roleFilter)))
  /\ (Spec.blank searchQuery ->
      AdminView.filteredUsers users searchQuery "all" = users).
Proof.
  intros q. unfold AdminView.filteredUsers. fold q.
  split; [apply UsersFacts.filter_sublist|]. split.
  - intros u. rewrite filter_In. unfold AdminView.shows.
    rewrite andb_true_iff, orb_true_iff, negb_true_iff.
    unfold q at 1. rewrite UsersFacts.query_falsy, JsStringFacts.includes_spec.
    destruct (String.eqb_spec roleFilter "all") as [Hall | Hall].
    + tauto.
    + destruct (String.eqb_spec roleFilter "uncategorized") as [Hun | Hun];
        rewrite String.eqb_eq.
      * split; [tauto|]. intros (H1 & H2 & [H | [H | H]]); [contradiction | tauto | tauto].
      * split; [tauto|]. intros (H1 & H2 & [H | [H | H]]); [contradiction | tauto | tauto].
  - intros Hblank. apply UsersFacts.query_falsy in Hblank.
    induction users as [|u rest IH]; [reflexivity|]. cbn [List.filter].
    unfold AdminView.shows at 1. unfold q at 1. rewrite Hblank. cbn.
    now rewrite IH.
Qed.

Lemma shows_role_split q u :
  Nat.b2n (AdminView.shows q "all" u)
  = Nat.b2n (AdminView.shows q "admin" u)
    + Nat.b2n (AdminView.shows q "volunteer" u)
    + Nat.b2n (AdminView.shows q "visitor" u)
    + Nat.b2n (AdminView.shows q "uncategorized" u).
Proof.
  unfold AdminView.shows. cbv zeta.
  generalize (negb (truthy (Str q))
              || JsString.includes (JsString.toLowerCase (Admin.email u)) q).
  intros matchesEmail. destruct matchesEmail; [|reflexivity].
  destruct (UsersFacts.currentRoleOf_cases u) as [-> | [-> | [-> | ->]]];
    reflexivity.
Qed.

Lemma filter_length_b2n {A} (f : A -> bool) l :
  length (List.filter f l) = list_sum (List.map (fun x => Nat.b2n (f x)) l).
Proof.
  induction l as [|x l IH]; [reflexivity|]. cbn.
  destruct (f x); cbn; now rewrite IH.
Qed.

(** X24: under one query, every user shown under "all" is shown under
    exactly one of the four role filters: the numbers of users shown
    under "admin", "volunteer", "visitor" and "uncategorized" add up to
    the number shown under "all". *)
Theorem X24_role_filters_partition :
  length (AdminView.filteredUsers users searchQuery "admin")
  + length (AdminView.filteredUsers users searchQuery "volunteer")
  + length (AdminView.filteredUsers users searchQuery "visitor")
  + length (AdminView.filteredUsers users searchQuery "uncategorized")
  = length (AdminView.filteredUsers users searchQuery "all").
Proof.
  unfold AdminView.filteredUsers. rewrite !filter_length_b2n.
  induction users as [|u rest IH]; [reflexivity|]. cbn [List.map].
  repeat match goal with
         | |- context [list_sum (?x :: ?l)] =>
             change (list_sum (x :: l)) with (x + list_sum l)
         end.
  rewrite (shows_role_split _ u). lia.
Qed.

End Users.

Lemma X23_user_filter_witness :
  Spec.blank "  "
  /\ AdminView.filteredUsers (Admin.users Sample.admin_page) "  " "all"
     = Admin.users Sample.admin_page
  /\ AdminView.filteredUsers (Admin.users Sample.admin_page) " DANA " "admin"
     = [Sample.volunteer_admin].
Proof.
  assert (Hblank : Spec.blank "  ") by reflexivity.
  split; [exact Hblank|]. split; [|reflexivity].
  exact (proj2 (proj2 (X23_user_filter (Admin.users Sample.admin_page) "  " "all"))
           Hblank).
Defined.

(** ** Saving a role *)

Section SaveButton.
Variable rpc : string -> string -> Reply unit.
Import Action.

Lemma saveRole_run c userId roleName :
  Admin.pendingRole c !! userId = Some roleName ->
  roleName <> "" ->
  Admin.saveRole rpc c userId
  = match rpc userId roleName with
    | Resolved _ None =>
        Returned tt
          (mkWorld
             (Admin.mkState
                (Admin.assignRole userId roleName (Admin.users c))
                (Admin.pendingRole c)
                (<[userId := false]> (<[userId := true]> (Admin.saving c))))
             [Admin.RpcSetSingleRole userId roleName;
              Admin.ToastSuccess "Role updated"])
    | _ =>
        Returned tt
          (mkWorld
             (Admin.mkState (Admin.users c) (Admin.pendingRole c)
                (<[userId := false]> (<[userId := true]> (Admin.saving c))))
             [Admin.RpcSetSingleRole userId roleName;
              Admin.ToastError "Failed to update role"])
    end.
Proof.
  intros Hpending Hname.
  unfold Admin.saveRole, run, Admin.handleSaveRole. rewrite Hpending.
  assert (Htruthy : truthy (Str roleName) = true).
  { cbn. destruct (String.eqb roleName "") eqn:E; [|reflexivity].
    apply String.eqb_eq in E. contradiction. }
  rewrite Htruthy. unfold try_finally, try_catch, bind. cbn.
  destruct (rpc userId roleName) as [|[] [message|]]; reflexivity.
Qed.

(** X25: a save of a role never throws and calls the remote procedure at
    most once; when no role is pending for the user, or the pending role
    is empty, it calls nothing, tells the user and changes nothing; when
    a role is pending it calls the procedure once with that role and
    leaves the user's saving flag cleared, whether the call is accepted,
    reports an error or rejects. *)
Theorem X25_save_role_bounds (c : Admin.State) (userId : string) :
  let o := Admin.saveRole rpc c userId in
  returned o = true
  /\ match Admin.pendingRole c !! userId with
     | Some roleName =>
         if String.eqb roleName ""
         then o = Returned tt
                    (mkWorld c [Admin.ToastError "Please select a role first"])
         else
           (exists notice,
               trace (world_of o)
               = [Admin.RpcSetSingleRole userId roleName; notice])
           /\ Admin.saving (state (world_of o)) !! userId = Some false
           /\ Admin.pendingRole (state (world_of o)) = Admin.pendingRole c
     | None =>
         o = Returned tt
               (mkWorld c [Admin.ToastError "Please select a role first"])
     end.
Proof.
  destruct (Admin.pendingRole c !! userId) as [roleName|] eqn:Hpending.
  - destruct (String.eqb_spec roleName "") as [-> | Hname].
    + unfold Admin.saveRole, run, Admin.handleSaveRole. rewrite Hpending.
      now split.
    + cbv zeta. rewrite (saveRole_run c userId roleName Hpending Hname).
      destruct (rpc userId roleName) as [|[] [message|]];
        cbn [returned world_of state trace Admin.saving Admin.pendingRole];
        (split; [reflexivity|]); (split; [eexists; reflexivity|]);
        (split; [apply lookup_insert_eq | reflexivity]).
  - unfold Admin.saveRole, run, Admin.handleSaveRole. rewrite Hpending.
    now split.
Qed.

(** X26: while the save button of a row is enabled, a role is pending
    for that user, it is not empty and it differs from the user's current
    role, no save is in flight for the user, and a click sends exactly
    that role to the remote procedure; after the procedure has accepted
    one of "admin", "volunteer" and "visitor", the button of every row
    of that user is disabled again. *)
Theorem X26_save_button (c : Admin.State) (u : Admin.AdminUserRow) :
  (AdminView.saveDisabled c u = false ->
   exists roleName,
     Admin.pendingRole c !! Admin.user_id u = Some roleName
     /\ roleName <> ""
     /\ roleName <> Admin.currentRoleOf u
     /\ default false (Admin.saving c !! Admin.user_id u) = false
     /\ exists notice,
          trace (world_of (Admin.saveRole rpc c (Admin.user_id u)))
          = [Admin.RpcSetSingleRole (Admin.user_id u) roleName; notice])
  /\ (forall roleName,
        Admin.pendingRole c !! Admin.user_id u = Some roleName ->
        In roleName ["admin"; "volunteer"; "visitor"] ->
        rpc (Admin.user_id u) roleName = Resolved tt None ->
        forall row,
          In row (Admin.users
                    (state (world_of (Admin.saveRole rpc c (Admin.user_id u))))) ->
          Admin.user_id row = Admin.user_id u ->
          AdminView.saveDisabled
            (state (world_of (Admin.saveRole rpc c (Admin.user_id u)))) row
          = true).
Proof.
  split.
  - unfold AdminView.saveDisabled, AdminView.nextRoleOf. intros Henabled.
    apply orb_false_iff in Henabled as [Henabled Hsame].
    apply orb_false_iff in Henabled as [Hsaving Hempty].
    apply negb_false_iff in Hempty.
    destruct (Admin.pendingRole c !! Admin.user_id u) as [roleName|] eqn:Hpending;
      cbn [default] in *; [|now rewrite String.eqb_refl in Hsame].
    assert (Hname : roleName <> "").
    { intros ->. discriminate Hempty. }
    exists roleName. split; [reflexivity|]. split; [exact Hname|].
    split; [now apply String.eqb_neq|]. split; [exact Hsaving|].
    rewrite (saveRole_run c (Admin.user_id u) roleName Hpending Hname).
    destruct (rpc (Admin.user_id u) roleName) as [|[] [message|]];
      eexists; reflexivity.
  - intros roleName Hpending Hknown Hrpc row Hrow Hid.
    assert (Hname : roleName <> "").
    { intros ->. cbn in Hknown. intuition discriminate. }
    rewrite (saveRole_run c (Admin.user_id u) roleName Hpending Hname), Hrpc in *.
    cbn [world_of state Admin.users] in Hrow.
    pose proof (AdminFacts.assignRole_assigned _ _ _ _ Hrow Hid) as Hroles.
    unfold AdminView.saveDisabled, AdminView.nextRoleOf.
    cbn [world_of state Admin.pendingRole Admin.saving].
    rewrite Hid, Hpending. cbn [default].
    assert (Hcurrent : Admin.currentRoleOf row = roleName).
    { unfold Admin.currentRoleOf. rewrite Hroles. cbn in Hknown.
      destruct Hknown as [<- | [<- | [<- | []]]]; reflexivity. }
    rewrite Hcurrent, String.eqb_refl. apply orb_true_r.
Qed.

(** X27: choosing a role for a user and saving it gives every row of
    that user exactly that role once the remote procedure accepts it,
    whatever was pending before, and leaves what is pending for the
    other users as it was. *)
Theorem X27_select_then_save (c : Admin.State) (userId roleName : string) :
  let chosen :=
    state (world_of (run (Admin.handleSelectRole userId roleName) c)) in
  roleName <> "" ->
  rpc userId roleName = Resolved tt None ->
  Admin.users (state (world_of (Admin.saveRole rpc chosen userId)))
  = Admin.assignRole userId roleName (Admin.users c)
  /\ (forall row,
        In row (Admin.users (state (world_of (Admin.saveRole rpc chosen userId)))) ->
        Admin.user_id row = userId -> Admin.roles row = [roleName])
  /\ (forall other, other <> userId ->
                    Admin.pendingRole chosen !! other
                    = Admin.pendingRole c !! other).
Proof.
  intros chosen Hname Hrpc.
  assert (Hpending : Admin.pendingRole chosen !! userId = Some roleName).
  { unfold chosen. cbn. apply lookup_insert_eq. }
  assert (Husers :
    Admin.users (state (world_of (Admin.saveRole rpc chosen userId)))
    = Admin.assignRole userId roleName (Admin.users c)).
  { rewrite (saveRole_run chosen userId roleName Hpending Hname), Hrpc.
    reflexivity. }
  split; [exact Husers|]. split.
  - rewrite Husers. intros row. apply AdminFacts.assignRole_assigned.
  - intros other Hother. unfold chosen. cbn. now apply lookup_insert_ne.
Qed.

End SaveButton.

Lemma X26_save_button_witness :
  AdminView.saveDisabled Sample.admin_page Sample.volunteer_admin = false
  /\ AdminView.saveDisabled Sample.admin_page Sample.visitor_only = true
  /\ (exists notice,
        Action.trace
          (Action.world_of (Admin.saveRole Sample.rpc_ok Sample.admin_page "u-17"))
        = [Admin.RpcSetSingleRole "u-17" "visitor"; notice])
  /\ AdminView.saveDisabled
       (Action.state
          (Action.world_of (Admin.saveRole Sample.rpc_ok Sample.admin_page "u-17")))
       (Admin.mkRow "u-17" "dana@example.org" ["visitor"])
     = true.
Proof.
  destruct (X26_save_button Sample.rpc_ok Sample.admin_page Sample.volunteer_admin)
    as [Henabled Hagain].
  split; [reflexivity|]. split; [reflexivity|]. split.
  - destruct (Henabled eq_refl) as (roleName & Hpending & _ & _ & _ & Hsent).
    injection Hpending as <-. exact Hsent.
  - apply (Hagain "visitor" eq_refl).
    + right. right. left. reflexivity.
    + reflexivity.
    + left. reflexivity.
    + reflexivity.
Defined.

Lemma X27_select_then_save_witness :
  Admin.users
    (Action.state
       (Action.world_of
          (Admin.saveRole Sample.rpc_ok
             (Action.state
                (Action.world_of
                   (Action.run (Admin.handleSelectRole "u-23" "volunteer")
                      Sample.admin_page)))
             "u-23")))
  = [Sample.volunteer_admin; Admin.mkRow "u-23" "lee@example.org" ["volunteer"]].
Proof.
  refine (proj1 (X27_select_then_save Sample.rpc_ok Sample.admin_page "u-23"
                   "volunteer" _ eq_refl)).
  discriminate.
Defined.

(** ** Loading the users and the viewer's roles *)

Section ListingUsers.
Variable reply : Reply (option (list AdminView.ListedUser)).
Import Action.

(** X28: loading the users never throws and always ends with the loading
    flag cleared; when the procedure returns rows the list becomes those
    rows in their order, a row without roles getting the empty role
    list and hence no current role; when the procedure reports an error,
    rejects or returns no data the list is left as it was and the user
    is told; a viewer who is not an admin does not call the procedure at
    all. *)
Theorem X28_loadUsers_settles (s : AdminView.Listing) :
  let o := run (AdminView.loadUsers reply) s in
  returned o = true
  /\ AdminView.loading (state (world_of o)) = false
  /\ match reply with
     | Resolved (Some data) None =>
         AdminView.listed (state (world_of o))
         = List.map AdminView.rowOfListed data
         /\ List.map Admin.user_id (AdminView.listed (state (world_of o)))
            = List.map AdminView.listed_user_id data
         /\ forall row,
              In row data -> AdminView.listed_roles row = None ->
              Admin.currentRoleOf (AdminView.rowOfListed row) = ""
     | _ =>
         AdminView.listed (state (world_of o)) = AdminView.listed s
         /\ trace (world_of o)
            = [AdminView.RpcListUsers;
               AdminView.ListingToastError "Failed to load users"]
     end
  /\ run (AdminView.loadUsersEffect reply false) s = Returned tt (mkWorld s []).
Proof.
  unfold run, AdminView.loadUsersEffect, AdminView.loadUsers, try_finally,
    try_catch, bind. cbn.
  destruct reply as [|[data|] [message|]]; cbn;
    (split; [reflexivity|]); (split; [reflexivity|]);
    (split; [|reflexivity]); try (split; reflexivity).
  split; [reflexivity|]. split.
  - rewrite map_map. reflexivity.
  - intros row _ Hnone. unfold AdminView.rowOfListed, Admin.currentRoleOf.
    now rewrite Hnone.
Qed.

End ListingUsers.

Section ViewerRoles.
Variable R : Remote.
Import Action.

(** X29: the admin page holds viewer roles only when both lookups have
    answered without error for a signed-in user: whenever the role list
    after the fetch is not empty - in particular whenever it makes the
    viewer an admin - the user has an identity, the first lookup returned
    role rows and the second returned exactly the names now held; in
    every other case the list is empty and the viewer is no admin. *)
Theorem X29_viewer_roles_need_both_lookups (session_user_id : Value)
    (before : list Value) :
  let after :=
    state (world_of (run (AdminView.fetchViewerRoles R session_user_id) before)) in
  returned (run (AdminView.fetchViewerRoles R session_user_id) before) = true
  /\ (after = []
      \/ exists ids names,
           truthy session_user_id = true
           /\ select_user_roles R session_user_id = Resolved (Some ids) None
           /\ ids <> []
           /\ select_role_names R ids = Resolved names None
           /\ after = default [] names)
  /\ (after = [] -> isAdmin after = false).
Proof.
  unfold run, AdminView.fetchViewerRoles, try_catch.
  destruct (truthy session_user_id) eqn:Hid; cbn;
    [|split; [reflexivity|]; split; [left; reflexivity | reflexivity]].
  unfold bind. cbn.
  destruct (select_user_roles R session_user_id) as [|[[|id ids]|] [message|]]
    eqn:Hfirst; cbn;
    try (split; [reflexivity|]; split; [left; reflexivity | reflexivity]).
  destruct (select_role_names R (id :: ids)) as [|names [message|]]
    eqn:Hsecond; cbn;
    try (split; [reflexivity|]; split; [left; reflexivity | reflexivity]).
  split; [reflexivity|]. split; [|now intros ->].
  right. exists (id :: ids), names. now repeat split.
Qed.

End ViewerRoles.

Lemma X29_viewer_roles_witness :
  Action.state
    (Action.world_of
       (Action.run (AdminView.fetchViewerRoles Scene.unreachable (Str "u-17"))
          [Str "admin"]))
  = []
  /\ isAdmin [] = false.
Proof.
  destruct (X29_viewer_roles_need_both_lookups Scene.unreachable (Str "u-17")
              [Str "admin"]) as (_ & Hcases & Hclosed).
  destruct Hcases as [Hempty | (ids & names & _ & Hfirst & _)];
    [|discriminate Hfirst].
  split; [exact Hempty | reflexivity].
Defined.

Lemma X28_loadUsers_witness :
  let row := AdminView.mkListed "7f3a" "ana@example.org" None in
  In row [row]
  /\ AdminView.listed_roles row = None
  /\ Admin.currentRoleOf (AdminView.rowOfListed row) = "".
Proof.
  intros row.
  assert (Hin : In row [row]) by (left; reflexivity).
  destruct (X28_loadUsers_settles (Resolved (Some [row]) None)
              (AdminView.mkListing [] false))
    as (_ & _ & (_ & _ & Hroles) & _).
  split; [exact Hin|]. split; [reflexivity|]. exact (Hroles row Hin eq_refl).
Defined.
